(** * ProText: the editing core of [protext.py]

    A shallow embedding of [Buffer] and [Editor] (src/protext.py) and the
    theorems that settle the specification's claims about them.

    Python values are modelled as follows.
    - [int] is [Z] (unbounded in Python, so no wrap-around).
    - [str] is a list of code points ([pystr = list N]); [ord] is the
      injection into [Z].
    - a list index or slice bound is a [Z] with Python's rules: a negative
      index counts from the end, an index out of range raises
      [IndexError], a slice bound is clamped.
    - an exception is the [Raise] outcome of the [result] monad.
    - the file system is an interface ([FileSystem]); [MemFS] is an
      in-memory instance of it.
    Drawing on the terminal changes no editor state.  [refresh] is
    modelled by the [Frame] it hands to curses; [run] leaves the
    drawing out and [run_drawn] is the loop with it.  The prompt's
    redraw is not modelled.  [stdscr.getmaxyx()] reads the [Screen]
    record. *)

From Stdlib Require Import ZArith NArith List String Ascii DecimalString Lia Bool.
From stdpp Require Import base option list gmap.

Local Open Scope Z_scope.

(** ** Python values *)

(** A character is its code point, a string the list of them. *)
Abbreviation pychar := N.
Abbreviation pystr := (list N).

Module Py.

Definition ord (c : pychar) : Z := Z.of_N c.

(** A string literal of the source, as code points. *)
Definition lit (s : string) : pystr := map N_of_ascii (list_ascii_of_string s).

Definition LF : pychar := 10%N.
Definition CR : pychar := 13%N.

(** [str(n)] for an int. *)
Definition str_of_int (n : Z) : pystr := lit (NilZero.string_of_int (Z.to_int n)).

Inductive exn :=
| IndexError
| KeyboardInterrupt
| CursesError                (* [get_wch] with no input left *)
| IOFailure (msg : pystr).   (* an [Exception] of a file operation, [str(e) = msg] *)

Inductive result (A : Type) :=
| Ok (a : A)
| Raise (e : exn).
Arguments Ok {A} a.
Arguments Raise {A} e.

Definition bind {A B} (m : result A) (k : A -> result B) : result B :=
  match m with
  | Ok a => k a
  | Raise e => Raise e
  end.

Definition len {A} (l : list A) : Z := Z.of_nat (length l).

(** [l[i]], [l[i] = v], [l.pop(i)]: a negative index counts from the
    end; out of range raises [IndexError]. *)
Definition norm_index {A} (l : list A) (i : Z) : option nat :=
  let j := if i <? 0 then i + len l else i in
  if (0 <=? j) && (j <? len l) then Some (Z.to_nat j) else None.

Definition getitem {A} (l : list A) (i : Z) : result A :=
  match norm_index l i with
  | Some n => match l !! n with Some x => Ok x | None => Raise IndexError end
  | None => Raise IndexError
  end.

Definition setitem {A} (l : list A) (i : Z) (v : A) : result (list A) :=
  match norm_index l i with
  | Some n => Ok (<[n:=v]> l)
  | None => Raise IndexError
  end.

Definition pop {A} (l : list A) (i : Z) : result (A * list A) :=
  match norm_index l i with
  | Some n => match l !! n with Some x => Ok (x, delete n l) | None => Raise IndexError end
  | None => Raise IndexError
  end.

(** A slice bound: negative counts from the end, then clamped to
    [0 .. len l]. *)
Definition clamp_bound {A} (l : list A) (i : Z) : nat :=
  Z.to_nat (if i <? 0 then Z.max 0 (i + len l) else Z.min i (len l)).

(** [l[:i]] and [l[i:]]. *)
Definition slice_to {A} (l : list A) (i : Z) : list A := take (clamp_bound l i) l.
Definition slice_from {A} (l : list A) (i : Z) : list A := drop (clamp_bound l i) l.

(** [l[i:j]]: both bounds are clamped, and the slice is empty when the
    upper one is not above the lower one. *)
Definition slice {A} (l : list A) (i j : Z) : list A :=
  drop (clamp_bound l i) (take (clamp_bound l j) l).

(** [l.insert(i, v)] never raises: the position is clamped. *)
Definition insert {A} (l : list A) (i : Z) (v : A) : list A :=
  take (clamp_bound l i) l ++ v :: drop (clamp_bound l i) l.

(** [range(a, b)]. *)
Definition range (a b : Z) : list Z := seqZ a (b - a).

(** [s.startswith(p)]. *)
Fixpoint startswith (s p : pystr) {struct p} : bool :=
  match p, s with
  | [], _ => true
  | _ :: _, [] => false
  | a :: p', b :: s' => (a =? b)%N && startswith s' p'
  end.

(** Lowest offset [i + k] at which [sub] starts in [s], [i] being the
    offset of the head of [s]. *)
Fixpoint find_from (sub s : pystr) (i : nat) : option nat :=
  if startswith s sub then Some i
  else match s with
       | [] => None
       | _ :: s' => find_from sub s' (S i)
       end.

(** [s.find(sub, start)]. *)
Definition find (s sub : pystr) (start : Z) : Z :=
  let st := if start <? 0 then Z.max 0 (start + len s) else start in
  if len s <? st then -1
  else match find_from sub (drop (Z.to_nat st) s) (Z.to_nat st) with
       | Some i => Z.of_nat i
       | None => -1
       end.

(** [sub in s]. *)
Definition contains (sub s : pystr) : bool :=
  match find_from sub s 0 with Some _ => true | None => false end.

(** [s.replace(old, new)] for a non-empty [old]: scan left to right;
    [skip] counts the characters of a match still to be consumed. *)
Fixpoint replace_go (old new : pystr) (skip : nat) (s : pystr) : pystr :=
  match s with
  | [] => []
  | c :: s' =>
      match skip with
      | S k => replace_go old new k s'
      | O => if startswith s old
             then new ++ replace_go old new (length old - 1) s'
             else c :: replace_go old new 0 s'
      end
  end.

(** [s.replace(old, new)]; an empty [old] matches before every
    character and at the end. *)
Definition replace (s old new : pystr) : pystr :=
  match old with
  | [] => new ++ flat_map (fun c => c :: new) s
  | _ :: _ => replace_go old new 0 s
  end.

Fixpoint count_go (sub : pystr) (skip : nat) (s : pystr) : nat :=
  match s with
  | [] => O
  | _ :: s' =>
      match skip with
      | S k => count_go sub k s'
      | O => if startswith s sub
             then S (count_go sub (length sub - 1) s')
             else count_go sub 0 s'
      end
  end.

(** [s.count(sub)]: non-overlapping occurrences. *)
Definition count (s sub : pystr) : Z :=
  match sub with
  | [] => len s + 1
  | _ :: _ => Z.of_nat (count_go sub 0 s)
  end.

(** [s.rstrip('\n')]. *)
Definition rstrip_nl (s : pystr) : pystr :=
  fold_right (fun c acc => match acc with
                           | [] => if (c =? LF)%N then [] else [c]
                           | _ :: _ => c :: acc
                           end) [] s.

(** Code points for which [str.isspace()] holds; [strip()] removes them
    at both ends. *)
Definition isspace (c : pychar) : bool :=
  let n := Z.of_N c in
  ((9 <=? n) && (n <=? 13)) || ((28 <=? n) && (n <=? 32)) || (n =? 133) || (n =? 160)
  || (n =? 5760) || ((8192 <=? n) && (n <=? 8202)) || (n =? 8232) || (n =? 8233)
  || (n =? 8239) || (n =? 8287) || (n =? 12288).

(** [s.lower().startswith('y')] and [s.lower().strip().startswith('y')]:
    lowering maps only ['Y'] and ['y'] to ['y'] and keeps white space
    white, so the test is on the first character (after the leading
    white space, with [strip]). *)
Definition lower_startswith_y (s : pystr) : bool :=
  match s with
  | c :: _ => (c =? 121)%N || (c =? 89)%N
  | [] => false
  end.

Fixpoint lstrip (s : pystr) : pystr :=
  match s with
  | c :: s' => if isspace c then lstrip s' else s
  | [] => []
  end.

Definition lower_strip_startswith_y (s : pystr) : bool :=
  lower_startswith_y (lstrip s).

(** [s.ljust(width)]: padded with spaces on the right. *)
Definition ljust (s : pystr) (width : Z) : pystr :=
  s ++ replicate (Z.to_nat (width - len s)) 32%N.

(** [os.path.basename(p)] of posixpath, [p[p.rfind('/') + 1:]]: what
    follows the last slash. *)
Definition basename (p : pystr) : pystr :=
  fold_left (fun acc c => if (c =? 47)%N then [] else acc ++ [c]) p [].

End Py.


Abbreviation result := Py.result.
Abbreviation Ok := Py.Ok.
Abbreviation Raise := Py.Raise.

#[export] Instance result_ret : MRet Py.result := @Py.Ok.
#[export] Instance result_bind : MBind Py.result := fun A B k m => Py.bind m k.

(** ** The file system, as [Buffer] uses it *)

Inductive io_res (A : Type) :=
| IoOk (a : A)
| IoErr (msg : pystr).
Arguments IoOk {A} a.
Arguments IoErr {A} msg.

(** The calls [Buffer] makes: [os.path.exists], [os.access(_, W_OK)],
    [open(_, "r", encoding="utf-8", errors="replace")] iterated line by
    line, [open(_, "w", encoding="utf-8")], [f.write] and the close at the
    end of the [with] block.  A call that changes the disk returns the new
    world also when it fails: a failed write may leave a partial file. *)
Class FileSystem (W : Type) := {
  fs_exists : W -> pystr -> bool;
  fs_access_w : W -> pystr -> io_res bool;
  fs_read_lines : W -> pystr -> io_res (list pystr);
  fs_open_w : W -> pystr -> W * io_res unit;
  fs_write : W -> pystr -> pystr -> W * io_res unit;
  fs_close : W -> pystr -> W * io_res unit
}.

(** ** class Buffer *)

Record Buffer := mkBuffer {
  filename : option pystr;
  lines : list pystr;
  modified : bool;
  readonly : bool
}.

Definition set_lines (ls : list pystr) (b : Buffer) : Buffer :=
  mkBuffer (filename b) ls (modified b) (readonly b).
Definition set_modified (m : bool) (b : Buffer) : Buffer :=
  mkBuffer (filename b) (lines b) m (readonly b).
Definition set_filename (fn : option pystr) (b : Buffer) : Buffer :=
  mkBuffer fn (lines b) (modified b) (readonly b).

(** The truth value of [self.filename]: [None] and the empty string are
    false. *)
Definition truthy_filename (b : Buffer) : option pystr :=
  match filename b with
  | Some (c :: fn) => Some (c :: fn)
  | Some [] => None
  | None => None
  end.

Section WithFileSystem.
Context {W : Type} `{FileSystem W}.

(** Buffer.__init__ (lines 26-40). *)
Definition Buffer_init (w : W) (fname : option pystr) : result Buffer :=
  let b0 := mkBuffer fname [[]] false false in
  match truthy_filename b0 with
  | Some fn =>
      if fs_exists w fn then
        match fs_read_lines w fn with
        | IoErr m => Raise (Py.IOFailure m)
        | IoOk file_lines =>
            let ls := map Py.rstrip_nl file_lines in
            let ls := match ls with [] => [[]] | _ :: _ => ls end in
            let ro := match fs_access_w w fn with
                      | IoOk true => false
                      | IoOk false => true
                      | IoErr _ => false
                      end in
            Ok (mkBuffer fname ls false ro)
        end
      else Ok b0
  | None => Ok b0
  end.

(** The loop [for line in self.lines: f.write(line + "\n")]. *)
Fixpoint write_lines (fn : pystr) (ls : list pystr) (w : W) : W * io_res unit :=
  match ls with
  | [] => (w, IoOk tt)
  | line :: ls' =>
      match fs_write w fn (line ++ [Py.LF]) with
      | (w1, IoOk _) => write_lines fn ls' w1
      | (w1, IoErr m) => (w1, IoErr m)
      end
  end.

(** Buffer.save (lines 42-54).  The [with] block closes the file on both
    exits; an exception of the close replaces the one of the body. *)
Definition save (w : W) (b : Buffer) : W * Buffer * (bool * pystr) :=
  match truthy_filename b with
  | None => (w, b, (false, Py.lit "No filename"))
  | Some fn =>
      if readonly b then (w, b, (false, Py.lit "File is read-only"))
      else
        match fs_open_w w fn with
        | (w1, IoErr m) => (w1, b, (false, m))
        | (w1, IoOk _) =>
            match write_lines fn (lines b) w1 with
            | (w2, IoErr m) =>
                match fs_close w2 fn with
                | (w3, IoOk _) => (w3, b, (false, m))
                | (w3, IoErr m') => (w3, b, (false, m'))
                end
            | (w2, IoOk _) =>
                match fs_close w2 fn with
                | (w3, IoOk _) => (w3, set_modified false b, (true, Py.lit "Saved"))
                | (w3, IoErr m') => (w3, b, (false, m'))
                end
            end
        end
  end.

End WithFileSystem.

Definition ReadOnly : bool * pystr := (false, Py.lit "File is read-only").
Definition Saved : bool * pystr := (true, Py.lit "Saved").

(** ** class Editor *)

(** What [self.stdscr.getmaxyx()] returns. *)
Record Screen := mkScreen { scr_h : Z; scr_w : Z }.

(** [search_results] and [replace_confirm_all] are assigned once in
    [__init__] and never read or written again; they are left out. *)
Record Editor := mkEditor {
  stdscr : Screen;
  buf : Buffer;
  cy : Z;
  cx : Z;
  top : Z;
  left : Z;
  msg : pystr;
  last_search : option pystr
}.

Definition set_buf (b : Buffer) (e : Editor) : Editor :=
  mkEditor (stdscr e) b (cy e) (cx e) (top e) (left e) (msg e) (last_search e).
Definition set_cy (y : Z) (e : Editor) : Editor :=
  mkEditor (stdscr e) (buf e) y (cx e) (top e) (left e) (msg e) (last_search e).
Definition set_cx (x : Z) (e : Editor) : Editor :=
  mkEditor (stdscr e) (buf e) (cy e) x (top e) (left e) (msg e) (last_search e).
Definition set_top (t : Z) (e : Editor) : Editor :=
  mkEditor (stdscr e) (buf e) (cy e) (cx e) t (left e) (msg e) (last_search e).
Definition set_left (l : Z) (e : Editor) : Editor :=
  mkEditor (stdscr e) (buf e) (cy e) (cx e) (top e) l (msg e) (last_search e).
Definition set_msg (m : pystr) (e : Editor) : Editor :=
  mkEditor (stdscr e) (buf e) (cy e) (cx e) (top e) (left e) m (last_search e).
Definition set_last_search (t : option pystr) (e : Editor) : Editor :=
  mkEditor (stdscr e) (buf e) (cy e) (cx e) (top e) (left e) (msg e) t.

(** [self.buf.lines = ...] and [self.buf.modified = True]. *)
Definition set_buf_lines (ls : list pystr) (e : Editor) : Editor :=
  set_buf (set_lines ls (buf e)) e.
Definition mark_modified (e : Editor) : Editor :=
  set_buf (set_modified true (buf e)) e.

(** Editor.__init__ (lines 58-68). *)
Definition Editor_init (scr : Screen) (b : Buffer) : Editor :=
  mkEditor scr b 0 0 0 0 (Py.lit "ProText 0.1 (Ctrl-S save, Ctrl-C quit)") None.

(** Editor.ensure_cursor_visible (lines 215-225). *)
Definition ensure_cursor_visible (e : Editor) : Editor :=
  let h := scr_h (stdscr e) in
  let w := scr_w (stdscr e) in
  let text_h := h - 1 in
  let e1 := if cy e <? top e then set_top (cy e) e
            else if cy e >=? top e + text_h then set_top (cy e - text_h + 1) e
            else e in
  if cx e1 <? left e1 then set_left (cx e1) e1
  else if cx e1 >=? left e1 + w - 1 then set_left (cx e1 - w + 2) e1
  else e1.

(** Editor.move_left (lines 302-308). *)
Definition move_left (e : Editor) : result Editor :=
  e1 ← (if cx e >? 0 then Ok (set_cx (cx e - 1) e)
        else if cy e >? 0 then
          let e' := set_cy (cy e - 1) e in
          line ← Py.getitem (lines (buf e')) (cy e');
          Ok (set_cx (Py.len line) e')
        else Ok e);
  Ok (ensure_cursor_visible e1).

(** Editor.move_right (lines 310-316). *)
Definition move_right (e : Editor) : result Editor :=
  line ← Py.getitem (lines (buf e)) (cy e);
  let e1 := if cx e <? Py.len line then set_cx (cx e + 1) e
            else if cy e <? Py.len (lines (buf e)) - 1 then set_cx 0 (set_cy (cy e + 1) e)
            else e in
  Ok (ensure_cursor_visible e1).

(** Editor.move_up (lines 318-322). *)
Definition move_up (e : Editor) : result Editor :=
  e1 ← (if cy e >? 0 then
          let e' := set_cy (cy e - 1) e in
          line ← Py.getitem (lines (buf e')) (cy e');
          Ok (set_cx (Z.min (cx e') (Py.len line)) e')
        else Ok e);
  Ok (ensure_cursor_visible e1).

(** Editor.move_down (lines 324-328). *)
Definition move_down (e : Editor) : result Editor :=
  e1 ← (if cy e <? Py.len (lines (buf e)) - 1 then
          let e' := set_cy (cy e + 1) e in
          line ← Py.getitem (lines (buf e')) (cy e');
          Ok (set_cx (Z.min (cx e') (Py.len line)) e')
        else Ok e);
  Ok (ensure_cursor_visible e1).

(** Editor.insert_char (lines 330-334). *)
Definition insert_char (ch : pychar) (e : Editor) : result Editor :=
  line ← Py.getitem (lines (buf e)) (cy e);
  ls ← Py.setitem (lines (buf e)) (cy e)
         (Py.slice_to line (cx e) ++ [ch] ++ Py.slice_from line (cx e));
  Ok (mark_modified (set_cx (cx e + 1) (set_buf_lines ls e))).

(** Editor.backspace (lines 336-349). *)
Definition backspace (e : Editor) : result Editor :=
  if cx e >? 0 then
    line ← Py.getitem (lines (buf e)) (cy e);
    ls ← Py.setitem (lines (buf e)) (cy e)
           (Py.slice_to line (cx e - 1) ++ Py.slice_from line (cx e));
    Ok (mark_modified (set_cx (cx e - 1) (set_buf_lines ls e)))
  else if cy e >? 0 then
    prev ← Py.getitem (lines (buf e)) (cy e - 1);
    '(cur, ls) ← Py.pop (lines (buf e)) (cy e);
    let e1 := set_cx (Py.len prev) (set_cy (cy e - 1) (set_buf_lines ls e)) in
    ls' ← Py.setitem (lines (buf e1)) (cy e1) (prev ++ cur);
    Ok (ensure_cursor_visible (mark_modified (set_buf_lines ls' e1)))
  else Ok e.

(** Editor.insert_newline (lines 351-360). *)
Definition insert_newline (e : Editor) : result Editor :=
  line ← Py.getitem (lines (buf e)) (cy e);
  let left_part := Py.slice_to line (cx e) in
  let right_part := Py.slice_from line (cx e) in
  ls ← Py.setitem (lines (buf e)) (cy e) left_part;
  let ls' := Py.insert ls (cy e + 1) right_part in
  Ok (ensure_cursor_visible
        (mark_modified (set_cx 0 (set_cy (cy e + 1) (set_buf_lines ls' e))))).

(** Editor.delete_char (lines 362-370). *)
Definition delete_char (e : Editor) : result Editor :=
  line ← Py.getitem (lines (buf e)) (cy e);
  if cx e <? Py.len line then
    ls ← Py.setitem (lines (buf e)) (cy e)
           (Py.slice_to line (cx e) ++ Py.slice_from line (cx e + 1));
    Ok (mark_modified (set_buf_lines ls e))
  else if cy e <? Py.len (lines (buf e)) - 1 then
    '(nxt, ls) ← Py.pop (lines (buf e)) (cy e + 1);
    ls' ← Py.setitem ls (cy e) (line ++ nxt);
    Ok (mark_modified (set_buf_lines ls' e))
  else Ok e.

(** One of the two [for y in range(...)] loops of [find]: the first row
    of [ys] with a match, and the column of the match.  [from_cursor] is
    true in the first loop, where the row of the cursor is searched from
    the cursor column on. *)
Fixpoint find_loop (term : pystr) (e : Editor) (from_cursor : bool) (ys : list Z)
  : result (option (Z * Z)) :=
  match ys with
  | [] => Ok None
  | y :: ys' =>
      line ← Py.getitem (lines (buf e)) y;
      let x := Py.find line term (if from_cursor && (y =? cy e) then cx e else 0) in
      if negb (x =? -1) then Ok (Some (y, x)) else find_loop term e from_cursor ys'
  end.

(** The body of both [if x != -1:] blocks of [find]. *)
Definition found_at (term : pystr) (y x : Z) (e : Editor) : Editor :=
  set_last_search (Some term) (ensure_cursor_visible (set_cx x (set_cy y e))).

(** Editor.find (lines 270-288). *)
Definition find (term : pystr) (e : Editor) : result (bool * Editor) :=
  r1 ← find_loop term e true (Py.range (cy e) (Py.len (lines (buf e))));
  match r1 with
  | Some (y, x) => Ok (true, found_at term y x e)
  | None =>
      r2 ← find_loop term e false (Py.range 0 (cy e));
      match r2 with
      | Some (y, x) => Ok (true, found_at term y x e)
      | None => Ok (false, e)
      end
  end.

(** The loop of [replace_all] over [range(len(self.buf.lines))], on the
    pair of [count] and the list being updated in place. *)
Fixpoint replace_loop (find_term replace_term : pystr) (idx : list Z)
  (st : Z * list pystr) : result (Z * list pystr) :=
  match idx with
  | [] => Ok st
  | i :: idx' =>
      line ← Py.getitem (snd st) i;
      if Py.contains find_term line then
        let new := Py.replace line find_term replace_term in
        ls ← Py.setitem (snd st) i new;
        replace_loop find_term replace_term idx' (fst st + Py.count line find_term, ls)
      else replace_loop find_term replace_term idx' st
  end.

(** Editor.replace_all (lines 290-300). *)
Definition replace_all (find_term replace_term : pystr) (e : Editor) : result (Z * Editor) :=
  '(count, ls) ← replace_loop find_term replace_term
                   (Py.range 0 (Py.len (lines (buf e)))) (0, lines (buf e));
  let e1 := set_buf_lines ls e in
  Ok (count, if count >? 0 then mark_modified e1 else e1).

(** ** Drawing *)

(** What one call of [refresh] hands to curses: the strings of the
    [addstr] calls of the text rows (row [i] of the screen gets the
    [i]-th), the status bar, the message written over it, and the
    position of the [move] call when there is one.  What curses does
    with them, its own errors included, is outside the model. *)
Record Frame := mkFrame {
  text_rows : list pystr;
  status_bar : pystr;
  message : option pystr;
  cursor_at : option (Z * Z)
}.

(** The [for i in range(text_h)] loop of [refresh] (lines 74-82). *)
Fixpoint draw_rows (e : Editor) (w : Z) (idx : list Z) : result (list pystr) :=
  match idx with
  | [] => Ok []
  | i :: idx' =>
      let lineno := top e + i in
      if lineno >=? Py.len (lines (buf e)) then Ok []
      else
        line ← Py.getitem (lines (buf e)) lineno;
        rows ← draw_rows e w idx';
        Ok (Py.slice line (left e) (left e + w - 1) :: rows)
  end.

(** The status line before padding (lines 84-86). *)
Definition status_text (e : Editor) : pystr :=
  let name := match truthy_filename (buf e) with
              | Some fn => Py.basename fn
              | None => Py.lit "[No Name]"
              end in
  let status := Py.lit " " ++ name ++ Py.lit " - "
                  ++ Py.str_of_int (Py.len (lines (buf e))) ++ Py.lit " lines " in
  if modified (buf e) then status ++ Py.lit "(modified) " else status.

(** Editor.refresh (lines 70-107). *)
Definition refresh (e : Editor) : result Frame :=
  let h := scr_h (stdscr e) in
  let w := scr_w (stdscr e) in
  let text_h := h - 1 in
  rows ← draw_rows e w (Py.range 0 text_h);
  let status := Py.slice_to (Py.ljust (status_text e) (w - 1)) (w - 1) in
  let overlay := match msg e with
                 | [] => None
                 | _ :: _ => Some (Py.slice_to (msg e) (w - 1))
                 end in
  let scr_y := cy e - top e in
  let scr_x := cx e - left e in
  Ok (mkFrame rows status overlay
        (if (0 <=? scr_y) && (scr_y <? text_h) && (0 <=? scr_x) && (scr_x <? w - 1)
         then Some (scr_y, scr_x) else None)).

(** ** Keyboard input *)

(** What [stdscr.get_wch()] returns: a one-character [str] or an [int]
    key code. *)
Inductive key :=
| KStr (ch : pychar)
| KInt (code : Z).

(** The key codes of [curses] that [run] compares with. *)
Definition KEY_DOWN : Z := 258.
Definition KEY_UP : Z := 259.
Definition KEY_LEFT : Z := 260.
Definition KEY_RIGHT : Z := 261.
Definition KEY_HOME : Z := 262.
Definition KEY_BACKSPACE : Z := 263.
Definition KEY_DC : Z := 330.
Definition KEY_NPAGE : Z := 338.
Definition KEY_PPAGE : Z := 339.
Definition KEY_END : Z := 360.

(** The loop of Editor.prompt_input (lines 233-262) on the keys still to
    come: the text entered ([None] on escape) and the keys left. *)
Fixpoint prompt_loop (chars : pystr) (pos : Z) (input : list key)
  : result (option pystr * list key) :=
  match input with
  | [] => Raise Py.CursesError
  | KStr ch :: rest =>
      if (ch =? 10)%N then Ok (Some chars, rest)
      else if (ch =? 27)%N then Ok (None, rest)
      else if (ch =? 127)%N || (ch =? 8)%N then
        if pos >? 0 then
          '(_, chars') ← Py.pop chars (pos - 1);
          prompt_loop chars' (pos - 1) rest
        else prompt_loop chars pos rest
      else if Py.ord ch >=? 32 then prompt_loop (Py.insert chars pos ch) (pos + 1) rest
      else prompt_loop chars pos rest
  | KInt k :: rest =>
      if (k =? KEY_LEFT) && (pos >? 0) then prompt_loop chars (pos - 1) rest
      else if (k =? KEY_RIGHT) && (pos <? Py.len chars) then prompt_loop chars (pos + 1) rest
      else prompt_loop chars pos rest
  end.

(** Editor.prompt_input (lines 228-262); [prompt] is only displayed. *)
Definition prompt_input (prompt : string) (initial : pystr) (input : list key)
  : result (option pystr * list key) :=
  prompt_loop initial (Py.len initial) input.

(** Editor.confirm_prompt (lines 264-268). *)
Definition confirm_prompt (prompt : string) (input : list key) : result (bool * list key) :=
  '(ans, rest) ← prompt_input prompt (Py.lit "n") input;
  match ans with
  | None => Ok (false, rest)
  | Some a => Ok (Py.lower_strip_startswith_y a, rest)
  end.

Inductive control := Continue | Break.

Section Run.
Context {W : Type} `{FileSystem W}.

(** [ok, m = self.buf.save(); self.msg = m] (lines 141-142). *)
Definition save_and_report (rest : list key) (w : W) (e : Editor)
  : result (control * list key * W * Editor) :=
  let '(w', b', (_, m)) := save w (buf e) in
  Ok (Continue, rest, w', set_msg m (set_buf b' e)).

(** The quit dialogue shared by Ctrl-Q and q/Q on a modified buffer
    (lines 121-126 and 153-158). *)
Definition exit_without_saving (input : list key) (w : W) (e : Editor)
  : result (control * list key * W * Editor) :=
  '(ok, rest) ← confirm_prompt "Exit without saving? (y/n)" input;
  if (ok : bool) then Ok (Break, rest, w, e)
  else Ok (Continue, rest, w, set_msg (Py.lit "Exit cancelled") e).

(** One iteration of the [while True] loop of Editor.run (lines 116-212)
    on the key [ch] just read; [input] is the keys after it, which the
    prompts consume. *)
Definition loop_body (ch : key) (input : list key) (w : W) (e : Editor)
  : result (control * list key * W * Editor) :=
  match ch with
  | KStr c =>
      if (c =? 17)%N then
        if modified (buf e) then exit_without_saving input w e
        else
          '(ok, rest) ← confirm_prompt "Quit? (y/n)" input;
          if (ok : bool) then Ok (Break, rest, w, e)
          else Ok (Continue, rest, w, set_msg (Py.lit "Quit cancelled") e)
      else if (c =? 19)%N then
        match truthy_filename (buf e) with
        | None =>
            '(fn, rest) ← prompt_input "Save as:" [] input;
            match fn with
            | None | Some [] => Ok (Continue, rest, w, set_msg (Py.lit "Save cancelled") e)
            | Some fn => save_and_report rest w (set_buf (set_filename (Some fn) (buf e)) e)
            end
        | Some _ => save_and_report input w e
        end
      else if (c =? 8)%N || (c =? 127)%N then
        e' ← backspace e; Ok (Continue, input, w, e')
      else if (c =? 10)%N then
        e' ← insert_newline e; Ok (Continue, input, w, e')
      else if (c =? 3)%N then Raise Py.KeyboardInterrupt
      else if (c =? 113)%N || (c =? 81)%N then
        if modified (buf e) then exit_without_saving input w e
        else Ok (Break, input, w, e)
      else if (c =? 6)%N then
        '(term, rest) ← prompt_input "Find:" [] input;
        match term with
        | None | Some [] => Ok (Continue, rest, w, e)
        | Some term =>
            '(found, e') ← find term e;
            if (found : bool)
            then Ok (Continue, rest, w, set_msg (Py.lit "Found '" ++ term ++ Py.lit "'") e')
            else Ok (Continue, rest, w, set_msg (Py.lit "'" ++ term ++ Py.lit "' not found") e')
        end
      else if (c =? 18)%N then
        '(find_term, rest) ← prompt_input "Replace - find:" [] input;
        match find_term with
        | None | Some [] => Ok (Continue, rest, w, e)
        | Some find_term =>
            '(replace_term, rest) ← prompt_input "Replace - with:" [] rest;
            match replace_term with
            | None => Ok (Continue, rest, w, set_msg (Py.lit "Replace cancelled") e)
            | Some replace_term =>
                '(ans, rest) ← prompt_input "Replace all occurrences? (y/n):" [] rest;
                match ans with
                | Some (a :: ans') =>
                    if Py.lower_startswith_y (a :: ans') then
                      '(count, e') ← replace_all find_term replace_term e;
                      Ok (Continue, rest, w,
                          set_msg (Py.lit "Replaced " ++ Py.str_of_int count
                                     ++ Py.lit " occurrences") e')
                    else Ok (Continue, rest, w, set_msg (Py.lit "Replace cancelled") e)
                | _ => Ok (Continue, rest, w, set_msg (Py.lit "Replace cancelled") e)
                end
            end
        end
      else if Py.ord c >=? 32 then
        e' ← insert_char c e; Ok (Continue, input, w, e')
      else Ok (Continue, input, w, e)
  | KInt k =>
      if k =? KEY_LEFT then e' ← move_left e; Ok (Continue, input, w, e')
      else if k =? KEY_RIGHT then e' ← move_right e; Ok (Continue, input, w, e')
      else if k =? KEY_UP then e' ← move_up e; Ok (Continue, input, w, e')
      else if k =? KEY_DOWN then e' ← move_down e; Ok (Continue, input, w, e')
      else if k =? KEY_BACKSPACE then e' ← backspace e; Ok (Continue, input, w, e')
      else if k =? KEY_DC then e' ← delete_char e; Ok (Continue, input, w, e')
      else if k =? KEY_HOME then Ok (Continue, input, w, set_cx 0 e)
      else if k =? KEY_END then
        line ← Py.getitem (lines (buf e)) (cy e);
        Ok (Continue, input, w, set_cx (Py.len line) e)
      else if (k =? KEY_PPAGE) || (k =? KEY_NPAGE) then
        let delta := scr_h (stdscr e) - 2 in
        let e1 := if k =? KEY_PPAGE then set_cy (Z.max 0 (cy e - delta)) e
                  else set_cy (Z.min (Py.len (lines (buf e)) - 1) (cy e + delta)) e in
        Ok (Continue, input, w, ensure_cursor_visible e1)
      else Ok (Continue, input, w, e)
  end.

(** The loop of Editor.run on a finite sequence of keys.  It returns
    [Break] with the final state when the loop is left, and [Continue]
    with the state in which [get_wch] waits for the next key when the
    keys are used up between two iterations.  Every iteration consumes
    a key, so [length input] iterations are enough. *)
Fixpoint run_loop (fuel : nat) (input : list key) (w : W) (e : Editor)
  : result (control * W * Editor) :=
  match input, fuel with
  | [], _ => Ok (Continue, w, e)
  | _ :: _, O => Raise Py.CursesError
  | ch :: rest, S n =>
      match loop_body ch rest w e with
      | Raise x => Raise x
      | Ok (Break, _, w', e') => Ok (Break, w', e')
      | Ok (Continue, rest', w', e') => run_loop n rest' w' e'
      end
  end.

Definition run (input : list key) (w : W) (e : Editor) : result (control * W * Editor) :=
  run_loop (length input) input w e.



End Run.

(** ** An in-memory file system *)

Module MemFS.

(** A file holds the text its bytes decode to (with [errors="replace"]
    an undecodable byte is already U+FFFD here) and its write
    permission. *)
Record file := mkFile { f_text : pystr; f_writable : bool }.

Abbreviation world := (gmap pystr file).

(** UTF-8 encodes every code point up to U+10FFFF but the surrogates. *)
Definition encodable (c : pychar) : bool :=
  ((c <? 55296)%N || (57343 <? c)%N) && (c <=? 1114111)%N.

(** Reading in text mode with the default [newline=None]: each of
    "\r\n", "\r" and "\n" is handed over as "\n".  [after_cr] tells that
    the character before was a "\r". *)
Fixpoint universal_newlines (after_cr : bool) (t : pystr) : pystr :=
  match t with
  | [] => []
  | c :: t' =>
      if (c =? Py.CR)%N then Py.LF :: universal_newlines true t'
      else if (c =? Py.LF)%N && after_cr then universal_newlines false t'
      else c :: universal_newlines false t'
  end.

(** [for line in f]: the text cut after every "\n"; [cur] is the part
    of the current line already read. *)
Fixpoint iter_lines (cur : pystr) (t : pystr) : list pystr :=
  match t with
  | [] => match cur with [] => [] | _ :: _ => [cur] end
  | c :: t' =>
      if (c =? Py.LF)%N then (cur ++ [c]) :: iter_lines [] t'
      else iter_lines (cur ++ [c]) t'
  end.

Definition read_lines (w : world) (p : pystr) : io_res (list pystr) :=
  match w !! p with
  | Some f => IoOk (iter_lines [] (universal_newlines false (f_text f)))
  | None => IoErr (Py.lit "No such file or directory")
  end.

(** Opening for writing truncates a writable file and creates a missing
    one. *)
Definition open_w (w : world) (p : pystr) : world * io_res unit :=
  match w !! p with
  | Some f =>
      if f_writable f then (<[p := mkFile [] true]> w, IoOk tt)
      else (w, IoErr (Py.lit "Permission denied"))
  | None => (<[p := mkFile [] true]> w, IoOk tt)
  end.

Definition write (w : world) (p : pystr) (t : pystr) : world * io_res unit :=
  if forallb encodable t
  then (alter (fun f => mkFile (f_text f ++ t) (f_writable f)) p w, IoOk tt)
  else (w, IoErr (Py.lit "surrogates not allowed")).

#[global] Instance memfs : FileSystem world := {
  fs_exists w p := bool_decide (is_Some (w !! p));
  fs_access_w w p := IoOk (match w !! p with Some f => f_writable f | None => false end);
  fs_read_lines := read_lines;
  fs_open_w := open_w;
  fs_write := write;
  fs_close w p := (w, IoOk tt)
}.

End MemFS.

(** ** The cursor and viewport invariants of the data model *)

(** [0 <= cursorRow < len(lines)] and
    [0 <= cursorCol <= len(lines[cursorRow])]. *)
Definition cursor_ok (e : Editor) : Prop :=
  0 <= cy e /\
  exists line, lines (buf e) !! Z.to_nat (cy e) = Some line /\ 0 <= cx e <= Py.len line.

(** The cursor is inside the text area: rows [top .. top + h - 2],
    columns [left .. left + w - 2]. *)
Definition cursor_visible (e : Editor) : Prop :=
  top e <= cy e <= top e + scr_h (stdscr e) - 2 /\
  left e <= cx e <= left e + scr_w (stdscr e) - 2.

(** ** Sample states *)

(** An editor on the lines [ls] with the cursor at row [y], column [x],
    on a 24 x 80 terminal. *)
Definition sample (ls : list pystr) (y x : Z) : Editor :=
  mkEditor (mkScreen 24 80) (mkBuffer None ls false false) y x 0 0 [] None.

(** The same on a terminal of the given size. *)
Definition sample_on (scr : Screen) (ls : list pystr) (y x : Z) : Editor :=
  mkEditor scr (mkBuffer None ls false false) y x 0 0 [] None.

(** ** What a successful save writes *)

Section Writes.
Context {W : Type} `{FileSystem W}.

(** The texts [ts] are written to the file [p] one after the other, each
    write succeeding, taking the world from [w] to [w']. *)
Inductive writes_ok (p : pystr) : list pystr -> W -> W -> Prop :=
| writes_nil w : writes_ok p [] w w
| writes_cons t ts w w1 w2 :
    fs_write w p t = (w1, IoOk tt) ->
    writes_ok p ts w1 w2 ->
    writes_ok p (t :: ts) w w2.

End Writes.

(** A line followed by the line terminator. *)
Definition terminated (line : pystr) : pystr := line ++ [Py.LF].

Definition readonly_buffer : Buffer :=
  mkBuffer (Some (Py.lit "notes.txt")) [Py.lit "ab"] true true.
Definition notes_buffer : Buffer :=
  mkBuffer (Some (Py.lit "notes.txt")) [Py.lit "ab"; []; Py.lit "c"] true false.
(** A line with a lone surrogate, which UTF-8 cannot encode. *)
Definition surrogate_buffer : Buffer :=
  mkBuffer (Some (Py.lit "notes.txt")) [Py.lit "ab"; [55296%N]] true false.
Definition empty_disk : MemFS.world := ∅.

(** A line with a carriage return in the middle and no line feed. *)
Definition cr_buffer : Buffer :=
  mkBuffer (Some (Py.lit "notes.txt")) [[97%N; Py.CR; 98%N]] true false.

(** ** Occurrences of a search term *)

(** [sub] occurs in [s] at offset [i]. *)
Definition occurs_at (sub s : pystr) (i : nat) : Prop :=
  exists pre post, s = pre ++ sub ++ post /\ length pre = i.

(** [sub] occurs somewhere in [s]. *)
Definition occurs (sub s : pystr) : Prop := exists i, occurs_at sub s i.

(** The scan order of the search in the words of the specification, as
    the rows to look at and the column each is searched from: the cursor
    row from the cursor column, the rows after it to the end of the
    document from column 0, then the rows from 0 up to but not including
    the cursor row from column 0.  [n] is the number of lines. *)
Definition scan_order (n cy cx : Z) : list (Z * Z) :=
  (cy, cx) :: map (fun y => (y, 0)) (Py.range (cy + 1) n)
    ++ map (fun y => (y, 0)) (Py.range 0 cy).

(** The first entry of [order] whose row has a match at or after the
    entry's column, with the column of that match. *)
Fixpoint first_match (term : pystr) (ls : list pystr) (order : list (Z * Z))
  : option (Z * Z) :=
  match order with
  | [] => None
  | (y, c) :: rest =>
      match ls !! Z.to_nat y with
      | Some line =>
          if Py.find line term c =? -1 then first_match term ls rest
          else Some (y, Py.find line term c)
      | None => first_match term ls rest
      end
  end.

(** The document of the search example. *)
Definition ab_cb : list pystr := [Py.lit "ab"; Py.lit "cb"].

(** ** Replacement, in the words of the specification *)


(** The occurrences of [sub] counted over all lines. *)
Definition total_count (sub : pystr) (ls : list pystr) : Z :=
  fold_right Z.add 0 (map (fun l => Py.count l sub) ls).

(** ** Counting a character in the document *)

(** The number of times the character [c] stands in the lines [ls]. *)
Fixpoint doc_count (c : pychar) (ls : list pystr) : nat :=
  match ls with
  | [] => 0
  | l :: ls' => count_occ N.eq_dec l c + doc_count c ls'
  end.

(** ** A session that shrinks the line under the cursor *)

(** A disk with the file notes.txt holding the single line "aaa". *)
Definition aaa_disk : MemFS.world :=
  {[ Py.lit "notes.txt" := MemFS.mkFile (Py.lit "aaa" ++ [Py.LF]) true ]}.

(** End, then Ctrl-R with the answers "a", "" and "y": replace every
    "a" by nothing. *)
Definition shrink_keys : list key :=
  [KInt KEY_END; KStr 18%N; KStr 97%N; KStr 10%N; KStr 10%N; KStr 121%N; KStr 10%N].

(** ** The document as one text *)

(** The text of the document: every line followed by a line feed, which
    is what [save] writes to the file. *)
Definition flat (ls : list pystr) : pystr := concat (map terminated ls).

(** The position of the cursor in that text: the lengths of the lines
    above the cursor row, their line feeds, and the cursor column. *)
Definition offset (e : Editor) : Z :=
  Py.len (flat (take (Z.to_nat (cy e)) (lines (buf e)))) + cx e.

(** ** Keys typed into a prompt *)


(** Enter or Escape, the two keys that end a prompt. *)
Definition ends_prompt (k : key) : bool :=
  match k with
  | KStr ch => (ch =? 10)%N || (ch =? 27)%N
  | KInt _ => false
  end.

(** ** Indices that raise no exception *)

(** The cursor row is a row of the document and the column is not
    negative: all that the code needs to index [lines] without an
    [IndexError].  The column may lie beyond the end of the line. *)
Definition index_safe (e : Editor) : Prop :=
  0 <= cy e < Py.len (lines (buf e)) /\ 0 <= cx e.

(** An outcome of the loop that is free of [IndexError]: either a state
    with safe indices on the same screen, with no more keys left than
    before, or one of the two exceptions the loop is written to end
    with, Ctrl-C and the end of the input. *)
Definition step_safe {W : Type} (input : list key) (e : Editor)
  (r : result (control * list key * W * Editor)) : Prop :=
  match r with
  | Ok (_, rest, _, e') =>
      index_safe e' /\ stdscr e' = stdscr e /\ (length rest <= length input)%nat
  | Raise x => x = Py.KeyboardInterrupt \/ x = Py.CursesError
  end.

(** ** Lines without line breaks *)

(** No line holds a line feed or a carriage return. *)
Definition no_line_breaks (ls : list pystr) : Prop :=
  Forall (fun l => (Py.LF ∉ l) /\ (Py.CR ∉ l)) ls.

(** ** The viewport *)

(** The origin of the viewport is inside the document's quadrant. *)
Definition view_nonneg (e : Editor) : Prop := 0 <= top e /\ 0 <= left e.

(** The part of [line] that a terminal of width [w] shows from column
    [l] on. *)
Definition window (l w : Z) (line : pystr) : pystr :=
  take (Z.to_nat (w - 1)) (drop (Z.to_nat l) line).


(** ** Keys that keep the cursor inside its bounds *)


(** ** What touches the file system *)

(** The buffer of [e'] is on the same file as that of [e], with the same
    permission. *)
Definition same_file (e e' : Editor) : Prop :=
  filename (buf e') = filename (buf e) /\ readonly (buf e') = readonly (buf e).

(** A buffer that [save] refuses to write: it has a path and is
    read-only. *)
Definition write_protected (b : Buffer) : Prop :=
  readonly b = true /\ exists fn, truthy_filename b = Some fn.
(** * Properties *)

(** ** Python list operations inside the range *)

Section PyListFacts.
Context {A : Type}.
Implicit Types (l : list A) (i : Z).

Lemma len_nonneg l : 0 <= Py.len l.
Proof. unfold Py.len. lia. Qed.

Lemma len_app l1 l2 : Py.len (l1 ++ l2) = Py.len l1 + Py.len l2.
Proof. unfold Py.len. rewrite length_app. lia. Qed.

Lemma norm_index_in_range l i :
  0 <= i < Py.len l -> Py.norm_index l i = Some (Z.to_nat i).
Proof.
  intros Hi. unfold Py.norm_index.
  destruct (Z.ltb_spec i 0); [lia|].
  destruct (Z.leb_spec 0 i), (Z.ltb_spec i (Py.len l)); simpl; auto; lia.
Qed.

Lemma lookup_in_range l i x :
  0 <= i -> l !! Z.to_nat i = Some x -> 0 <= i < Py.len l.
Proof.
  intros Hi Hx. apply lookup_lt_Some in Hx. unfold Py.len. lia.
Qed.

Lemma getitem_lookup l i x :
  0 <= i -> l !! Z.to_nat i = Some x -> Py.getitem l i = Ok x.
Proof.
  intros Hi Hx. unfold Py.getitem.
  rewrite norm_index_in_range by eauto using lookup_in_range.
  now rewrite Hx.
Qed.

Lemma setitem_in_range l i v :
  0 <= i < Py.len l -> Py.setitem l i v = Ok (<[Z.to_nat i := v]> l).
Proof. intros Hi. unfold Py.setitem. now rewrite norm_index_in_range. Qed.

Lemma pop_lookup l i x :
  0 <= i -> l !! Z.to_nat i = Some x -> Py.pop l i = Ok (x, delete (Z.to_nat i) l).
Proof.
  intros Hi Hx. unfold Py.pop.
  rewrite norm_index_in_range by eauto using lookup_in_range.
  now rewrite Hx.
Qed.

Lemma clamp_bound_in_range l i :
  0 <= i <= Py.len l -> Py.clamp_bound l i = Z.to_nat i.
Proof.
  intros Hi. unfold Py.clamp_bound. destruct (Z.ltb_spec i 0); [lia|].
  f_equal. lia.
Qed.

Lemma clamp_bound_mono l i j :
  0 <= i <= j -> (Py.clamp_bound l i <= Py.clamp_bound l j)%nat.
Proof.
  unfold Py.clamp_bound, Py.len. intros Hij.
  destruct (Z.ltb_spec i 0), (Z.ltb_spec j 0); lia.
Qed.

(** [l[:i] + l[i:] == l] for every [i]. *)
Lemma slice_to_from l i : Py.slice_to l i ++ Py.slice_from l i = l.
Proof. apply take_drop. Qed.

Lemma slice_to_in_range l i :
  0 <= i <= Py.len l -> Py.slice_to l i = take (Z.to_nat i) l.
Proof. intros Hi. unfold Py.slice_to. now rewrite clamp_bound_in_range. Qed.

Lemma slice_from_in_range l i :
  0 <= i <= Py.len l -> Py.slice_from l i = drop (Z.to_nat i) l.
Proof. intros Hi. unfold Py.slice_from. now rewrite clamp_bound_in_range. Qed.

Lemma insert_in_range l i v :
  0 <= i <= Py.len l ->
  Py.insert l i v = take (Z.to_nat i) l ++ v :: drop (Z.to_nat i) l.
Proof. intros Hi. unfold Py.insert. now rewrite clamp_bound_in_range. Qed.

End PyListFacts.

(** ** Viewport reclamation *)

(** Closed arithmetic facts, by evaluation. *)
Ltac by_compute :=
  vm_compute; repeat split; first [reflexivity | intro; discriminate].

Ltac simpl_result := unfold mbind, result_bind, Py.bind; cbn beta iota.
Ltac simpl_result_in H := unfold mbind, result_bind, Py.bind in H; cbn beta iota in H.

Lemma ensure_cursor_visible_frame (e : Editor) :
  stdscr (ensure_cursor_visible e) = stdscr e /\
  buf (ensure_cursor_visible e) = buf e /\
  cy (ensure_cursor_visible e) = cy e /\
  cx (ensure_cursor_visible e) = cx e /\
  msg (ensure_cursor_visible e) = msg e /\
  last_search (ensure_cursor_visible e) = last_search e.
Proof.
  unfold ensure_cursor_visible.
  destruct (cy e <? top e), (cy e >=? top e + (scr_h (stdscr e) - 1)); cbn;
    repeat match goal with |- context [if ?b then _ else _] => destruct b end;
    cbn; auto 10.
Qed.

Lemma ensure_cursor_visible_buf e : buf (ensure_cursor_visible e) = buf e.
Proof. apply ensure_cursor_visible_frame. Qed.
Lemma ensure_cursor_visible_cy e : cy (ensure_cursor_visible e) = cy e.
Proof. apply ensure_cursor_visible_frame. Qed.
Lemma ensure_cursor_visible_cx e : cx (ensure_cursor_visible e) = cx e.
Proof. apply ensure_cursor_visible_frame. Qed.

(** Reclamation puts the cursor inside the text area of a terminal with
    at least two rows and two columns, whatever the state before. *)
Lemma ensure_cursor_visible_visible (e : Editor) :
  2 <= scr_h (stdscr e) -> 2 <= scr_w (stdscr e) ->
  cursor_visible (ensure_cursor_visible e).
Proof.
  intros Hh Hw. unfold cursor_visible, ensure_cursor_visible.
  destruct (Z.ltb_spec (cy e) (top e)); cbn.
  - destruct (Z.ltb_spec (cx e) (left e)); cbn; [lia|].
    destruct (Z.geb_spec (cx e) (left e + scr_w (stdscr e) - 1)); cbn; lia.
  - destruct (Z.geb_spec (cy e) (top e + (scr_h (stdscr e) - 1))); cbn.
    + destruct (Z.ltb_spec (cx e) (left e)); cbn; [lia|].
      destruct (Z.geb_spec (cx e) (left e + scr_w (stdscr e) - 1)); cbn; lia.
    + destruct (Z.ltb_spec (cx e) (left e)); cbn; [lia|].
      destruct (Z.geb_spec (cx e) (left e + scr_w (stdscr e) - 1)); cbn; lia.
Qed.

(** ** No-ops at the edges of the document *)

(** C7.  Backspace with the cursor at row 0, column 0 returns the editor
    state it was given, and so does forward-delete with the cursor at the
    end of the last line: lines, cursor, viewport and the [modified] flag
    are the same before and after. *)
Theorem noop_at_document_edges (e : Editor) :
  (cy e = 0 -> cx e = 0 -> backspace e = Ok e) /\
  (forall line,
      0 <= cy e -> lines (buf e) !! Z.to_nat (cy e) = Some line ->
      cy e = Py.len (lines (buf e)) - 1 -> cx e = Py.len line ->
      delete_char e = Ok e).
Proof.
  split.
  - intros Hy Hx. unfold backspace. now rewrite Hy, Hx.
  - intros line Hy Hline Hlast Hend. unfold delete_char.
    rewrite (getitem_lookup _ _ _ Hy Hline). simpl_result.
    rewrite Hend, Z.ltb_irrefl, Hlast, Z.ltb_irrefl. reflexivity.
Qed.

Lemma noop_at_document_edges_witness :
  backspace (sample [Py.lit "ab"; Py.lit "c"] 0 0)
    = Ok (sample [Py.lit "ab"; Py.lit "c"] 0 0) /\
  delete_char (sample [Py.lit "ab"; Py.lit "c"] 1 1)
    = Ok (sample [Py.lit "ab"; Py.lit "c"] 1 1).
Proof.
  split.
  - apply (proj1 (noop_at_document_edges (sample [Py.lit "ab"; Py.lit "c"] 0 0)));
      reflexivity.
  - apply (proj2 (noop_at_document_edges (sample [Py.lit "ab"; Py.lit "c"] 1 1))
             (Py.lit "c")); by_compute.
Defined.

(** ** Splitting a line and joining it again *)

Lemma insert_newline_in_range (e : Editor) (line : pystr) :
  0 <= cy e -> lines (buf e) !! Z.to_nat (cy e) = Some line ->
  0 <= cx e <= Py.len line ->
  insert_newline e =
    Ok (ensure_cursor_visible
          (mark_modified
             (set_cx 0
                (set_cy (cy e + 1)
                   (set_buf_lines
                      (take (Z.to_nat (cy e)) (lines (buf e))
                         ++ take (Z.to_nat (cx e)) line
                         :: drop (Z.to_nat (cx e)) line
                         :: drop (S (Z.to_nat (cy e))) (lines (buf e))) e))))).
Proof.
  intros Hy Hline Hx. unfold insert_newline.
  pose proof (lookup_in_range _ _ _ Hy Hline) as Hr.
  rewrite (getitem_lookup _ _ _ Hy Hline). simpl_result.
  rewrite setitem_in_range by exact Hr. simpl_result.
  rewrite insert_in_range
    by (unfold Py.len in *; rewrite length_insert; lia).
  rewrite slice_to_in_range, slice_from_in_range by exact Hx.
  do 6 f_equal.
  assert (Hn : (Z.to_nat (cy e) < length (lines (buf e)))%nat)
    by (unfold Py.len in Hr; lia).
  replace (Z.to_nat (cy e + 1)) with (S (Z.to_nat (cy e))) by lia.
  rewrite drop_insert_lt by lia.
  rewrite (take_S_r _ _ (take (Z.to_nat (cx e)) line))
    by (now apply list_lookup_insert_eq).
  rewrite take_insert_ge by lia.
  now rewrite <- app_assoc.
Qed.

(** C8.  On a line of length [n] with the cursor at a column [k],
    [0 <= k <= n], insert_newline followed by backspace gives back the
    lines it started from, with the cursor on the same row at column
    [k]. *)
Theorem newline_then_backspace (e : Editor) (line : pystr) :
  0 <= cy e -> lines (buf e) !! Z.to_nat (cy e) = Some line ->
  0 <= cx e <= Py.len line ->
  exists e1 e2,
    insert_newline e = Ok e1 /\ backspace e1 = Ok e2 /\
    lines (buf e2) = lines (buf e) /\ cy e2 = cy e /\ cx e2 = cx e.
Proof.
  intros Hy Hline Hx.
  pose proof (lookup_in_range _ _ _ Hy Hline) as Hr.
  assert (Hn : (Z.to_nat (cy e) < length (lines (buf e)))%nat)
    by (unfold Py.len in Hr; lia).
  assert (Hk : (Z.to_nat (cx e) <= length line)%nat)
    by (unfold Py.len in Hx; lia).
  rewrite (insert_newline_in_range e line Hy Hline Hx).
  set (n := Z.to_nat (cy e)) in *. set (k := Z.to_nat (cx e)) in *.
  set (ls := lines (buf e)) in *.
  set (pre := take n ls). set (post := drop (S n) ls).
  assert (Hpre : length pre = n) by (unfold pre; rewrite length_take; lia).
  eexists _, _. split; [reflexivity|].
  unfold backspace.
  rewrite ensure_cursor_visible_cx, ensure_cursor_visible_cy,
    ensure_cursor_visible_buf. cbn [cx cy buf lines mark_modified set_cx set_cy
    set_buf_lines set_buf set_lines set_modified].
  replace (cy e + 1 >? 0) with true by (symmetry; apply Z.gtb_lt; lia).
  cbn [Z.gtb Z.compare].
  replace (cy e + 1 - 1) with (cy e) by lia.
  rewrite (getitem_lookup _ _ (take k line)); [|lia|].
  2:{ fold n. rewrite lookup_app_r by lia. now rewrite Hpre, Nat.sub_diag. }
  simpl_result.
  rewrite (pop_lookup _ _ (drop k line)); [|lia|].
  2:{ replace (Z.to_nat (cy e + 1)) with (S n) by lia.
      rewrite lookup_app_r by lia. rewrite Hpre.
      now replace (S n - n)%nat with 1%nat by lia. }
  simpl_result.
  replace (Z.to_nat (cy e + 1)) with (length (pre ++ [take k line])) 
    by (rewrite length_app; cbn; lia).
  assert (Hd : delete (length (pre ++ [take k line]))
                 (pre ++ take k line :: drop k line :: post)
               = pre ++ take k line :: post).
  { change (pre ++ take k line :: drop k line :: post)
      with (pre ++ [take k line] ++ drop k line :: post).
    now rewrite app_assoc, delete_middle, <- app_assoc. }
  rewrite Hd.
  cbn [cx cy buf lines mark_modified set_cx set_cy
    set_buf_lines set_buf set_lines set_modified].
  rewrite setitem_in_range.
  2:{ unfold Py.len. rewrite length_app, Hpre. cbn. lia. }
  simpl_result. split; [reflexivity|].
  rewrite ensure_cursor_visible_cx, ensure_cursor_visible_cy,
    ensure_cursor_visible_buf. cbn.
  split; [|split].
  - fold n. rewrite <- Hpre at 1. rewrite <- (Nat.add_0_r (length pre)).
    rewrite insert_app_r. cbn. rewrite take_drop.
    unfold pre, post. now apply take_drop_middle.
  - reflexivity.
  - unfold Py.len. rewrite length_take. lia.
Qed.

Lemma newline_then_backspace_witness :
  exists e1 e2,
    insert_newline (sample [Py.lit "hello"; Py.lit "x"] 0 2) = Ok e1 /\
    backspace e1 = Ok e2 /\
    lines (buf e2) = [Py.lit "hello"; Py.lit "x"] /\ cy e2 = 0 /\ cx e2 = 2.
Proof.
  apply (newline_then_backspace (sample [Py.lit "hello"; Py.lit "x"] 0 2)
           (Py.lit "hello")); [by_compute | reflexivity | by_compute].
Defined.

(** ** The cursor stays inside the viewport *)

Ltac crack_result :=
  repeat match goal with
    | H : Ok _ = Ok _ |- _ => injection H as H; try subst
    | H : Raise _ = Ok _ |- _ => discriminate H
    | H : (_, _) = (_, _) |- _ => injection H as ? ?; try subst
    | H : context [mbind _ _] |- _ => unfold mbind, result_bind, Py.bind in H
    | H : context [match ?x with _ => _ end] |- _ => destruct x eqn:?
    end.






(** ** Saving *)

Section SaveFacts.
Context {W : Type} `{FileSystem W}.

Lemma write_lines_ok (fn : pystr) (ls : list pystr) (w w' : W) (u : unit) :
  write_lines fn ls w = (w', IoOk u) ->
  writes_ok fn (map terminated ls) w w'.
Proof.
  revert w. induction ls as [|line ls IH]; intros w Hw; cbn in Hw.
  - injection Hw as -> _. constructor.
  - destruct (fs_write w fn (line ++ [Py.LF])) as [w1 [[]|m]] eqn:Hw1.
    + cbn. econstructor; [exact Hw1 | now apply IH].
    + discriminate Hw.
Qed.

Lemma save_failure_buffer (w w' : W) (b b' : Buffer) (m : pystr) :
  save w b = (w', b', (false, m)) -> b' = b.
Proof.
  unfold save.
  destruct (truthy_filename b) as [fn|]; [|now intros [= _ <- _]].
  destruct (readonly b); [now intros [= _ <- _]|].
  destruct (fs_open_w w fn) as [w1 [[]|m1]]; [|now intros [= _ <- _]].
  destruct (write_lines fn (lines b) w1) as [w2 [[]|m2]];
    destruct (fs_close w2 fn) as [w3 [[]|m3]]; now intros [= _ <- _].
Qed.

Lemma save_success (w w' : W) (b b' : Buffer) (m : pystr) :
  save w b = (w', b', (true, m)) ->
  (true, m) = Saved /\ b' = set_modified false b /\
  exists fn w1 w2,
    truthy_filename b = Some fn /\ readonly b = false /\
    fs_open_w w fn = (w1, IoOk tt) /\
    writes_ok fn (map terminated (lines b)) w1 w2 /\
    fs_close w2 fn = (w', IoOk tt).
Proof.
  unfold save.
  destruct (truthy_filename b) as [fn|]; [|discriminate].
  destruct (readonly b); [discriminate|].
  destruct (fs_open_w w fn) as [w1 [[]|m1]] eqn:Ho; [|discriminate].
  destruct (write_lines fn (lines b) w1) as [w2 [[]|m2]] eqn:Hw;
    destruct (fs_close w2 fn) as [w3 [[]|m3]] eqn:Hc; try discriminate.
  intros [= <- <- <-]. split; [reflexivity|]. split; [reflexivity|].
  exists fn, w1, w2. repeat split; auto.
  now apply write_lines_ok in Hw.
Qed.



End SaveFacts.


(** ** Saving and loading again *)

Section RoundTrip.
Import MemFS.

Lemma universal_newlines_no_cr (t : pystr) :
  Py.CR ∉ t -> universal_newlines false t = t.
Proof.
  induction t as [|c t IH]; intros Hcr; [reflexivity|]. cbn.
  apply not_elem_of_cons in Hcr as [Hc Ht].
  destruct (N.eqb_spec c Py.CR); [congruence|].
  rewrite andb_false_r. now rewrite IH.
Qed.

Lemma iter_lines_terminated (cur line rest : pystr) :
  Py.LF ∉ line ->
  iter_lines cur (line ++ Py.LF :: rest) = (cur ++ line ++ [Py.LF]) :: iter_lines [] rest.
Proof.
  revert cur. induction line as [|c line IH]; intros cur Hlf.
  - reflexivity.
  - apply not_elem_of_cons in Hlf as [Hc Hl]. cbn.
    destruct (N.eqb_spec c Py.LF); [congruence|].
    rewrite IH by exact Hl. now rewrite <- app_assoc.
Qed.

Lemma iter_lines_concat (ls : list pystr) :
  Forall (fun l => Py.LF ∉ l) ls ->
  iter_lines [] (concat (map terminated ls)) = map terminated ls.
Proof.
  induction 1 as [|l ls Hl _ IH]; [reflexivity|]. cbn.
  unfold terminated at 1. rewrite <- app_assoc. cbn.
  rewrite iter_lines_terminated by exact Hl. now rewrite IH.
Qed.

Lemma rstrip_nl_terminated (l : pystr) :
  Py.LF ∉ l -> Py.rstrip_nl (terminated l) = l.
Proof.
  unfold terminated, Py.rstrip_nl. induction l as [|c l IH]; intros Hlf.
  - reflexivity.
  - apply not_elem_of_cons in Hlf as [Hc Hl]. cbn. rewrite IH by exact Hl.
    destruct l; [|reflexivity].
    destruct (N.eqb_spec c Py.LF); [congruence | reflexivity].
Qed.

Lemma no_cr_concat (ls : list pystr) :
  Forall (fun l => Py.CR ∉ l) ls -> Py.CR ∉ concat (map terminated ls).
Proof.
  induction 1 as [|l ls Hl _ IH]; cbn; [apply not_elem_of_nil|].
  unfold terminated at 1. rewrite !not_elem_of_app. repeat split; auto.
  apply not_elem_of_cons. split; [discriminate | apply not_elem_of_nil].
Qed.

(** What the successful writes of [save] leave in the file. *)
Lemma writes_ok_text (fn : pystr) (ts : list pystr) (w w' : world) (f : file) :
  writes_ok fn ts w w' -> w !! fn = Some f ->
  w' !! fn = Some (mkFile (f_text f ++ concat ts) (f_writable f)).
Proof.
  intros Hw. revert f. induction Hw as [w|t ts w w1 w2 Hw1 _ IH]; intros f Hf.
  - cbn. rewrite app_nil_r. now destruct f.
  - cbn in Hw1. unfold write in Hw1.
    destruct (forallb encodable t); [|discriminate].
    injection Hw1 as <-.
    rewrite (IH (mkFile (f_text f ++ t) (f_writable f))).
    + cbn. now rewrite <- app_assoc.
    + rewrite lookup_alter_eq, Hf. reflexivity.
Qed.

Lemma open_w_ok (fn : pystr) (w w1 : world) :
  open_w w fn = (w1, IoOk tt) -> w1 !! fn = Some (mkFile [] true).
Proof.
  unfold open_w. destruct (w !! fn) as [f|].
  - destruct (f_writable f); [|discriminate].
    intros [= <-]. apply lookup_insert_eq.
  - intros [= <-]. apply lookup_insert_eq.
Qed.

End RoundTrip.

(** A line that holds a carriage return and no line feed is saved, and
    comes back from the file as two lines. *)
Lemma carriage_return_breaks_round_trip :
  filename cr_buffer = Some (Py.lit "notes.txt") /\
  readonly cr_buffer = false /\
  Forall (fun l => Py.LF ∉ l) (lines cr_buffer) /\
  exists w' b' b2,
    save empty_disk cr_buffer = (w', b', Saved) /\
    Buffer_init w' (Some (Py.lit "notes.txt")) = Ok b2 /\
    lines b2 = [[97%N]; [98%N]] /\
    lines b2 <> lines cr_buffer.
Proof.
  split; [reflexivity|]. split; [reflexivity|]. split.
  - repeat constructor. apply (bool_decide_unpack _). vm_compute. reflexivity.
  - eexists _, _, _. split; [vm_compute; reflexivity|].
    split; [vm_compute; reflexivity|].
    split; [reflexivity | discriminate].
Qed.

(** C10 (amended).  For a buffer with a path, the read-only flag clear
    and at least one line, no line holding a line feed or a carriage
    return: after a successful save the file holds every line followed by
    a line feed, and a Buffer constructed from the same path has the same
    lines. *)
Theorem save_then_load (w w' : MemFS.world) (b b' : Buffer) (fn : pystr) :
  truthy_filename b = Some fn -> readonly b = false ->
  lines b <> [] ->
  Forall (fun l => (Py.LF ∉ l) /\ (Py.CR ∉ l)) (lines b) ->
  save w b = (w', b', Saved) ->
  (exists f, w' !! fn = Some f /\
             MemFS.f_text f = concat (map terminated (lines b))) /\
  exists b2, Buffer_init w' (Some fn) = Ok b2 /\ lines b2 = lines b.
Proof.
  intros Hfn Hro Hne Hls Hsave.
  destruct (save_success w w' b b' _ Hsave)
    as (_ & _ & fn' & w1 & w2 & Hfn' & _ & Ho & Hw & Hc).
  rewrite Hfn in Hfn'. injection Hfn' as <-.
  cbn in Ho, Hc. injection Hc as <-.
  apply open_w_ok in Ho.
  pose proof (writes_ok_text _ _ _ _ _ Hw Ho) as Hf. cbn in Hf.
  split; [eexists; split; [exact Hf | reflexivity]|].
  assert (Hfn0 : exists c fn0, fn = c :: fn0).
  { unfold truthy_filename in Hfn. destruct (filename b) as [[|c fn0]|];
      try discriminate. injection Hfn as <-. eauto. }
  destruct Hfn0 as (c & fn0 & ->).
  unfold Buffer_init. cbn [truthy_filename filename].
  cbn [fs_exists fs_read_lines fs_access_w MemFS.memfs]. unfold MemFS.read_lines.
  rewrite Hf. cbn [MemFS.f_text MemFS.f_writable].
  rewrite bool_decide_eq_true_2 by eauto.
  rewrite universal_newlines_no_cr.
  2:{ apply no_cr_concat. eapply Forall_impl; [exact Hls|]. now intros l [_ Hcr]. }
  rewrite iter_lines_concat.
  2:{ eapply Forall_impl; [exact Hls|]. now intros l [Hlf _]. }
  rewrite map_map.
  assert (Hid : map (fun l => Py.rstrip_nl (terminated l)) (lines b) = lines b).
  { rewrite <- (map_id (lines b)) at 2. apply map_ext_Forall.
    eapply Forall_impl; [exact Hls|]. intros l [Hlf _].
    now apply rstrip_nl_terminated. }
  rewrite Hid. destruct (lines b) as [|l ls]; [congruence|].
  eexists. split; reflexivity.
Qed.

Lemma save_then_load_witness :
  exists b2,
    Buffer_init (save empty_disk notes_buffer).1.1 (Some (Py.lit "notes.txt")) = Ok b2 /\
    lines b2 = [Py.lit "ab"; []; Py.lit "c"].
Proof.
  refine (proj2 (save_then_load empty_disk (save empty_disk notes_buffer).1.1
                   notes_buffer (save empty_disk notes_buffer).1.2
                   (Py.lit "notes.txt") _ _ _ _ _)).
  - reflexivity.
  - reflexivity.
  - discriminate.
  - repeat constructor; apply (bool_decide_unpack _); vm_compute; reflexivity.
  - vm_compute. reflexivity.
Defined.

(** ** Substring search *)

Lemma startswith_spec (s p : pystr) :
  Py.startswith s p = true <-> exists post, s = p ++ post.
Proof.
  revert s. induction p as [|a p IH]; intros s; cbn.
  - split; [eauto|reflexivity].
  - destruct s as [|b s]; [split; [discriminate | now intros [? [=]]]|].
    rewrite andb_true_iff, N.eqb_eq, IH. split.
    + intros [-> [post ->]]. eauto.
    + intros [post [= -> ->]]. eauto.
Qed.

Lemma find_from_None (sub s : pystr) (i : nat) :
  Py.find_from sub s i = None -> ~ occurs sub s.
Proof.
  revert i. induction s as [|c s IH]; intros i Hf (j & pre & post & Hs & _).
  - cbn in Hf. destruct (Py.startswith [] sub) eqn:Hp; [discriminate|].
    apply not_true_iff_false in Hp. apply Hp, startswith_spec.
    destruct pre; [|discriminate]. eauto.
  - cbn [Py.find_from] in Hf.
    destruct (Py.startswith (c :: s) sub) eqn:Hp; [discriminate|].
    apply not_true_iff_false in Hp. destruct pre as [|c' pre].
    + apply Hp, startswith_spec. eauto.
    + injection Hs as -> ->. apply (IH _ Hf). exists (length pre), pre, post. auto.
Qed.

(** A match reported by [find_from] is an occurrence, and the leftmost
    one. *)
Lemma find_from_Some (sub s : pystr) (i j : nat) :
  Py.find_from sub s i = Some j ->
  (i <= j)%nat /\ occurs_at sub s (j - i) /\
  forall k, occurs_at sub s k -> (j - i <= k)%nat.
Proof.
  revert i. induction s as [|c s IH]; intros i Hf.
  - cbn in Hf. destruct (Py.startswith [] sub) eqn:Hp; [|discriminate].
    injection Hf as <-. apply startswith_spec in Hp as [post Hp].
    rewrite Nat.sub_diag. repeat split; [lia| |lia].
    exists [], post. auto.
  - cbn [Py.find_from] in Hf.
    destruct (Py.startswith (c :: s) sub) eqn:Hp.
    + injection Hf as <-. apply startswith_spec in Hp as [post Hp].
      rewrite Nat.sub_diag. repeat split; [lia| |lia].
      exists [], post. auto.
    + apply IH in Hf as (Hij & (pre & post & -> & Hlen) & Hmin).
      repeat split; [lia| |].
      * exists (c :: pre), post. cbn. split; [reflexivity|lia].
      * intros k (pre' & post' & Hs & <-). destruct pre' as [|c' pre'].
        -- apply not_true_iff_false in Hp. exfalso. apply Hp, startswith_spec.
           rewrite Hs. eauto.
        -- injection Hs as -> Hs. specialize (Hmin (length pre')).
           cbn. assert (j - S i <= length pre')%nat; [|lia].
           apply Hmin. exists pre', post'. auto.
Qed.

Lemma occurs_drop (sub s : pystr) (n : nat) : occurs sub (drop n s) -> occurs sub s.
Proof.
  intros (i & pre & post & Hs & _).
  exists (length (take n s ++ pre)), (take n s ++ pre), post.
  split; [|reflexivity]. rewrite <- app_assoc, <- Hs. now rewrite take_drop.
Qed.

(** [s.find(sub, start)] is -1 when [sub] does not occur in [s]. *)
Lemma find_no_occurrence (s sub : pystr) (start : Z) :
  ~ occurs sub s -> Py.find s sub start = -1.
Proof.
  intros Hno. unfold Py.find.
  destruct (Py.len s <? _); [reflexivity|].
  destruct (Py.find_from sub _ _) as [j|] eqn:Hf; [|reflexivity].
  exfalso. apply Hno. apply find_from_Some in Hf as (_ & Hocc & _).
  eapply occurs_drop. eexists. exact Hocc.
Qed.

(** A column reported by [s.find(sub, start)] is the start of an
    occurrence of [sub], hence at most [len(s) - len(sub)]; from a
    non-negative [start] it is the leftmost occurrence at or after
    [start]. *)
Lemma find_found (s sub : pystr) (start x : Z) :
  Py.find s sub start = x -> x <> -1 ->
  0 <= x /\ occurs_at sub s (Z.to_nat x) /\ x + Py.len sub <= Py.len s /\
  (0 <= start -> start <= x /\
     forall k, occurs_at sub s k -> (Z.to_nat start <= k)%nat -> (Z.to_nat x <= k)%nat).
Proof.
  unfold Py.find. intros Hx Hne.
  set (st := if start <? 0 then Z.max 0 (start + Py.len s) else start) in *.
  assert (Hst0 : 0 <= st) by (unfold st; destruct (Z.ltb_spec start 0); lia).
  destruct (Z.ltb_spec (Py.len s) st) as [|Hst]; [congruence|].
  destruct (Py.find_from sub _ _) as [j|] eqn:Hf; [|congruence].
  apply find_from_Some in Hf as (Hij & (pre & post & Hs & Hlen) & Hmin).
  subst x. rewrite Nat2Z.id.
  assert (Hocc : occurs_at sub s j).
  { exists (take (Z.to_nat st) s ++ pre), post. split.
    - rewrite <- app_assoc, <- Hs. now rewrite take_drop.
    - rewrite length_app, length_take, Hlen. unfold Py.len in Hst. lia. }
  split; [lia|]. split; [exact Hocc|]. split.
  - destruct Hocc as (pre' & post' & -> & <-). unfold Py.len.
    rewrite !length_app. lia.
  - intros Hs0. assert (st = start) as ->
      by (unfold st; destruct (Z.ltb_spec start 0); lia).
    split; [lia|]. intros k (pre' & post' & Hs' & <-) Hk.
    assert (j - Z.to_nat start <= length pre' - Z.to_nat start)%nat; [|lia].
    apply Hmin. exists (drop (Z.to_nat start) pre'), post'. split.
    + rewrite Hs'. rewrite drop_app_le by lia. reflexivity.
    + rewrite length_drop. reflexivity.
Qed.

(** ** The order in which find scans the document *)

Lemma first_match_app (term : pystr) (ls : list pystr) (o1 o2 : list (Z * Z)) :
  first_match term ls (o1 ++ o2) =
    match first_match term ls o1 with
    | Some r => Some r
    | None => first_match term ls o2
    end.
Proof.
  induction o1 as [|[y c] o1 IH]; [reflexivity|]. cbn.
  destruct (ls !! Z.to_nat y) as [line|]; [|exact IH].
  now destruct (Py.find line term c =? -1).
Qed.

(** One loop of [find] over rows inside the document is [first_match]
    on those rows. *)
Lemma find_loop_first_match (term : pystr) (e : Editor) (fc : bool) (ys : list Z) :
  Forall (fun y => 0 <= y < Py.len (lines (buf e))) ys ->
  find_loop term e fc ys =
    Ok (first_match term (lines (buf e))
          (map (fun y => (y, if fc && (y =? cy e) then cx e else 0)) ys)).
Proof.
  induction 1 as [|y ys Hy _ IH]; [reflexivity|]. cbn.
  destruct (lookup_lt_is_Some_2 (lines (buf e)) (Z.to_nat y)) as [line Hline];
    [unfold Py.len in Hy; lia|].
  rewrite (getitem_lookup _ _ line) by (lia || exact Hline). simpl_result.
  rewrite Hline.
  destruct (Py.find line term _ =? -1); [exact IH | reflexivity].
Qed.

Lemma range_in_bounds (a b n : Z) :
  0 <= a -> b <= n -> Forall (fun y => 0 <= y < n) (Py.range a b).
Proof.
  intros Ha Hb. apply Forall_forall. intros y Hy.
  apply elem_of_seqZ in Hy. lia.
Qed.

Lemma scan_order_loops (n cy0 cx0 : Z) :
  0 <= cy0 < n ->
  scan_order n cy0 cx0 =
    map (fun y => (y, if true && (y =? cy0) then cx0 else 0)) (Py.range cy0 n)
      ++ map (fun y => (y, if false && (y =? cy0) then cx0 else 0)) (Py.range 0 cy0).
Proof.
  intros Hy. unfold scan_order, Py.range.
  rewrite (seqZ_cons cy0) by lia. cbn [map andb]. rewrite Z.eqb_refl.
  replace (Z.succ cy0) with (cy0 + 1) by lia.
  replace (Z.pred (n - cy0)) with (n - (cy0 + 1)) by lia.
  cbn [app]. do 2 f_equal.
  apply map_ext_Forall, Forall_forall. intros y Hin.
  apply elem_of_seqZ in Hin. destruct (Z.eqb_spec y cy0); [lia | reflexivity].
Qed.

(** With the cursor on a row of the document, [find] returns the first
    match in the scan order, and fails when there is none. *)
Lemma find_scan_order (term : pystr) (e : Editor) :
  0 <= cy e < Py.len (lines (buf e)) ->
  find term e =
    Ok match first_match term (lines (buf e))
               (scan_order (Py.len (lines (buf e))) (cy e) (cx e)) with
       | Some (y, x) => (true, found_at term y x e)
       | None => (false, e)
       end.
Proof.
  intros Hy. unfold find.
  rewrite !find_loop_first_match by (apply range_in_bounds; lia).
  simpl_result. rewrite scan_order_loops by exact Hy. rewrite first_match_app.
  destruct (first_match _ _ (map _ (Py.range (cy e) _))) as [[y x]|]; [reflexivity|].
  now destruct (first_match _ _ _) as [[y x]|].
Qed.

Lemma first_match_no_occurrence (term : pystr) (ls : list pystr) (order : list (Z * Z)) :
  (forall line, line ∈ ls -> ~ occurs term line) ->
  first_match term ls order = None.
Proof.
  intros Hno. induction order as [|[y c] order IH]; [reflexivity|]. cbn.
  destruct (ls !! Z.to_nat y) as [line|] eqn:Hline; [|exact IH].
  rewrite find_no_occurrence; [exact IH|].
  apply Hno. eapply list_elem_of_lookup_2, Hline.
Qed.

(** C9.  When find returns not-found, the editor state it returns is the
    state it was given (cursor, viewport, lines, modified and the rest);
    and with the cursor on a row of the document, it does return
    not-found when the term occurs in no line. *)
Theorem find_not_found (term : pystr) (e : Editor) :
  (forall e', find term e = Ok (false, e') -> e' = e) /\
  (0 <= cy e < Py.len (lines (buf e)) ->
   (forall line, line ∈ lines (buf e) -> ~ occurs term line) ->
   find term e = Ok (false, e)).
Proof.
  split.
  - intros e' Hf. unfold find in Hf. crack_result; congruence.
  - intros Hy Hno. rewrite find_scan_order by exact Hy.
    now rewrite first_match_no_occurrence.
Qed.

Lemma find_not_found_witness :
  find (Py.lit "x") (sample ab_cb 1 1) = Ok (false, sample ab_cb 1 1).
Proof.
  apply (proj2 (find_not_found (Py.lit "x") (sample ab_cb 1 1))).
  - by_compute.
  - intros line Hin (i & pre & post & Hs & _).
    assert (Hx : 120%N ∈ line).
    { rewrite Hs. apply elem_of_app. right. apply elem_of_app. left.
      change (Py.lit "x") with [120%N]. apply list_elem_of_here. }
    revert Hx. unfold ab_cb in Hin. cbn in Hin.
    apply elem_of_cons in Hin as [-> | Hin];
      [|apply elem_of_cons in Hin as [-> | Hin]; [|now apply elem_of_nil in Hin]];
      apply (bool_decide_unpack _); vm_compute; reflexivity.
Defined.




(** ** Replace-all *)







(** A line without the term is left as it is. *)
Lemma replace_go_absent (old new s : pystr) (i : nat) :
  old <> [] -> Py.find_from old s i = None ->
  Py.replace_go old new 0 s = s /\ Py.count_go old 0 s = 0%nat.
Proof.
  intros Hne. revert i. induction s as [|c s IH]; intros i Hf; [auto|].
  cbn [Py.find_from] in Hf. cbn [Py.replace_go Py.count_go].
  destruct (Py.startswith (c :: s) old); [discriminate|].
  destruct (IH _ Hf) as [-> ->]. auto.
Qed.

Lemma not_contains_replace (sub new s : pystr) :
  Py.contains sub s = false ->
  Py.replace s sub new = s /\ Py.count s sub = 0.
Proof.
  unfold Py.contains. destruct (Py.find_from sub s 0) eqn:Hf; [discriminate|].
  intros _. destruct sub as [|c sub].
  - destruct s; discriminate Hf.
  - unfold Py.replace, Py.count.
    destruct (replace_go_absent (c :: sub) new s 0) as [-> ->];
      [discriminate | exact Hf | auto].
Qed.

Lemma count_nonneg (s sub : pystr) : 0 <= Py.count s sub.
Proof. unfold Py.count, Py.len. destruct sub; lia. Qed.

Lemma total_count_nonneg (sub : pystr) (ls : list pystr) : 0 <= total_count sub ls.
Proof.
  unfold total_count. induction ls as [|l ls IH]; cbn; [lia|].
  pose proof (count_nonneg l sub). lia.
Qed.

(** The loop of [replace_all], started at row [length pre] with the rows
    [pre] before it done. *)
Lemma replace_loop_map (f r : pystr) (rest pre : list pystr) (c : Z) :
  replace_loop f r (seqZ (Py.len pre) (Py.len rest)) (c, pre ++ rest) =
    Ok (c + total_count f rest, pre ++ map (fun l => Py.replace l f r) rest).
Proof.
  revert pre c. induction rest as [|l rest IH]; intros pre c.
  - cbn. now rewrite Z.add_0_r.
  - rewrite seqZ_cons by (unfold Py.len; cbn; lia).
    cbn [replace_loop snd fst].
    assert (Hl : (pre ++ l :: rest) !! Z.to_nat (Py.len pre) = Some l).
    { unfold Py.len. rewrite Nat2Z.id. apply list_lookup_middle. reflexivity. }
    rewrite (getitem_lookup _ _ l) by (apply len_nonneg || exact Hl).
    simpl_result.
    replace (Z.succ (Py.len pre)) with (Py.len (pre ++ [l]))
      by (rewrite len_app; unfold Py.len; cbn; lia).
    replace (Z.pred (Py.len (l :: rest))) with (Py.len rest)
      by (unfold Py.len; cbn; lia).
    unfold total_count. cbn [map fold_right]. fold (total_count f rest).
    destruct (Py.contains f l) eqn:Hc.
    + rewrite setitem_in_range
        by (split; [apply len_nonneg | rewrite len_app; unfold Py.len; cbn; lia]).
      simpl_result.
      replace (Z.to_nat (Py.len pre)) with (length pre + 0)%nat
        by (unfold Py.len; lia).
      rewrite insert_app_r. cbn [insert list_insert].
      replace (pre ++ Py.replace l f r :: rest)
        with ((pre ++ [Py.replace l f r]) ++ rest) by (now rewrite <- app_assoc).
      replace (Py.len (pre ++ [l])) with (Py.len (pre ++ [Py.replace l f r]))
        by (rewrite !len_app; reflexivity).
      rewrite IH. rewrite <- app_assoc. cbn. f_equal; f_equal; lia.
    + destruct (not_contains_replace f r l Hc) as [Hr Hn]. rewrite Hr, Hn.
      replace (pre ++ l :: rest) with ((pre ++ [l]) ++ rest)
        by (now rewrite <- app_assoc).
      rewrite IH, <- app_assoc. cbn. f_equal; f_equal; lia.
Qed.


Lemma replace_all_map (f r : pystr) (e : Editor) :
  replace_all f r e =
    Ok (total_count f (lines (buf e)),
        let e1 := set_buf_lines (map (fun l => Py.replace l f r) (lines (buf e))) e in
        if total_count f (lines (buf e)) >? 0 then mark_modified e1 else e1).
Proof.
  unfold replace_all, Py.range. rewrite Z.sub_0_r.
  pose proof (replace_loop_map f r (lines (buf e)) [] 0) as Hl.
  cbn [app] in Hl. change (Py.len []) with 0 in Hl. rewrite Hl.
  simpl_result. reflexivity.
Qed.



(** ** Python list operations on any index *)

Section PyListInversion.
Context {A : Type}.
Implicit Types (l : list A) (i : Z).

Lemma getitem_Ok l i x :
  Py.getitem l i = Ok x -> exists n, Py.norm_index l i = Some n /\ l !! n = Some x.
Proof.
  unfold Py.getitem. destruct (Py.norm_index l i) as [n|]; [|discriminate].
  destruct (l !! n) eqn:Hn; [|discriminate]. intros [= ->]. eauto.
Qed.

Lemma setitem_Ok l i v l' :
  Py.setitem l i v = Ok l' -> exists n, Py.norm_index l i = Some n /\ l' = <[n:=v]> l.
Proof.
  unfold Py.setitem. destruct (Py.norm_index l i) as [n|]; [|discriminate].
  intros [= <-]. eauto.
Qed.

Lemma pop_Ok l i x l' :
  Py.pop l i = Ok (x, l') ->
  exists n, Py.norm_index l i = Some n /\ l !! n = Some x /\ l' = delete n l.
Proof.
  unfold Py.pop. destruct (Py.norm_index l i) as [n|]; [|discriminate].
  destruct (l !! n) eqn:Hn; [|discriminate]. intros [= -> <-]. eauto.
Qed.

Lemma norm_index_nonneg l i n :
  0 <= i -> Py.norm_index l i = Some n -> n = Z.to_nat i.
Proof.
  intros Hi. unfold Py.norm_index. destruct (Z.ltb_spec i 0); [lia|].
  destruct ((0 <=? i) && (i <? Py.len l)); [|discriminate]. now intros [= <-].
Qed.

End PyListInversion.

(** ** Control characters do not enter the document *)

Lemma doc_count_app (c : pychar) (l1 l2 : list pystr) :
  doc_count c (l1 ++ l2) = (doc_count c l1 + doc_count c l2)%nat.
Proof. induction l1 as [|l l1 IH]; cbn; [reflexivity|]. rewrite IH. lia. Qed.

Lemma doc_count_lookup (c : pychar) (ls : list pystr) (n : nat) (l : pystr) :
  ls !! n = Some l ->
  doc_count c ls
  = (doc_count c (take n ls) + count_occ N.eq_dec l c + doc_count c (drop (S n) ls))%nat.
Proof.
  intros Hl.
  transitivity (doc_count c (take n ls ++ l :: drop (S n) ls));
    [now rewrite take_drop_middle|].
  rewrite doc_count_app. cbn. lia.
Qed.

Lemma doc_count_insert (c : pychar) (ls : list pystr) (n : nat) (l v : pystr) :
  ls !! n = Some l ->
  (doc_count c (<[n:=v]> ls) + count_occ N.eq_dec l c
   = doc_count c ls + count_occ N.eq_dec v c)%nat.
Proof.
  intros Hl. pose proof (lookup_lt_Some _ _ _ Hl) as Hn.
  rewrite (doc_count_lookup c ls n l Hl).
  rewrite (doc_count_lookup c (<[n:=v]> ls) n v)
    by (now apply list_lookup_insert_eq).
  rewrite take_insert_ge, drop_insert_lt by lia. lia.
Qed.

Lemma doc_count_delete (c : pychar) (ls : list pystr) (n : nat) (l : pystr) :
  ls !! n = Some l ->
  doc_count c ls = (doc_count c (delete n ls) + count_occ N.eq_dec l c)%nat.
Proof.
  intros Hl. rewrite (doc_count_lookup c ls n l Hl).
  rewrite delete_take_drop, doc_count_app. lia.
Qed.

Lemma doc_count_py_insert (c : pychar) (ls : list pystr) (i : Z) (v : pystr) :
  doc_count c (Py.insert ls i v) = (doc_count c ls + count_occ N.eq_dec v c)%nat.
Proof.
  unfold Py.insert. rewrite doc_count_app. cbn.
  pose proof (doc_count_app c (take (Py.clamp_bound ls i) ls)
                (drop (Py.clamp_bound ls i) ls)) as Happ.
  rewrite take_drop in Happ. lia.
Qed.

Lemma count_occ_drop_le (c : pychar) (s : pystr) (a b : nat) :
  (a <= b)%nat ->
  (count_occ N.eq_dec (drop b s) c <= count_occ N.eq_dec (drop a s) c)%nat.
Proof.
  intros Hab.
  pose proof (count_occ_app N.eq_dec (take (b - a) (drop a s))
                (drop (b - a) (drop a s)) c) as Happ.
  rewrite take_drop, drop_drop in Happ.
  replace (a + (b - a))%nat with b in Happ by lia. lia.
Qed.

(** Cutting a piece out of a string adds no character. *)
Lemma count_occ_cut (c : pychar) (s : pystr) (a b : nat) :
  (a <= b)%nat ->
  (count_occ N.eq_dec (take a s ++ drop b s) c <= count_occ N.eq_dec s c)%nat.
Proof.
  intros Hab. rewrite count_occ_app.
  pose proof (count_occ_app N.eq_dec (take a s) (drop a s) c) as Happ.
  rewrite take_drop in Happ.
  pose proof (count_occ_drop_le c s a b Hab). lia.
Qed.

Lemma backspace_doc_count (c : pychar) (e e' : Editor) :
  backspace e = Ok e' ->
  (doc_count c (lines (buf e')) <= doc_count c (lines (buf e)))%nat.
Proof.
  unfold backspace. destruct (Z.gtb_spec (cx e) 0) as [Hx|Hx].
  - destruct (Py.getitem (lines (buf e)) (cy e)) as [line|] eqn:Hg;
      simpl_result; [|discriminate].
    destruct (Py.setitem _ _ _) as [ls|] eqn:Hs; simpl_result; [|discriminate].
    intros [= <-]. cbn.
    apply getitem_Ok in Hg as (n & Hn & Hline).
    apply setitem_Ok in Hs as (n' & Hn' & ->).
    rewrite Hn in Hn'. injection Hn' as <-.
    pose proof (doc_count_insert c _ n line
                  (Py.slice_to line (cx e - 1) ++ Py.slice_from line (cx e)) Hline).
    pose proof (count_occ_cut c line (Py.clamp_bound line (cx e - 1))
                  (Py.clamp_bound line (cx e))
                  (clamp_bound_mono line (cx e - 1) (cx e) ltac:(lia))).
    unfold Py.slice_to, Py.slice_from in *. lia.
  - destruct (Z.gtb_spec (cy e) 0) as [Hy|Hy]; [|now intros [= <-]].
    destruct (Py.getitem (lines (buf e)) (cy e - 1)) as [prev|] eqn:Hg;
      simpl_result; [|discriminate].
    destruct (Py.pop (lines (buf e)) (cy e)) as [[cur ls]|] eqn:Hp;
      simpl_result; [|discriminate].
    cbn [cy cx buf lines set_cx set_cy set_buf_lines set_buf set_lines].
    destruct (Py.setitem ls (cy e - 1) (prev ++ cur)) as [ls'|] eqn:Hs;
      simpl_result; [|discriminate].
    intros [= <-]. rewrite ensure_cursor_visible_buf. cbn.
    apply getitem_Ok in Hg as (n1 & Hn1 & Hprev).
    apply norm_index_nonneg in Hn1; [|lia].
    apply pop_Ok in Hp as (n2 & Hn2 & Hcur & ->).
    apply norm_index_nonneg in Hn2; [|lia].
    apply setitem_Ok in Hs as (n3 & Hn3 & ->).
    apply norm_index_nonneg in Hn3; [|lia]. subst n1 n2 n3.
    assert (Hprev' : delete (Z.to_nat (cy e)) (lines (buf e)) !! Z.to_nat (cy e - 1)
                     = Some prev).
    { rewrite list_lookup_delete_lt by lia. exact Hprev. }
    pose proof (doc_count_insert c _ _ prev (prev ++ cur) Hprev') as Hi.
    pose proof (doc_count_delete c _ _ cur Hcur) as Hd.
    rewrite count_occ_app in Hi. lia.
Qed.

Lemma insert_newline_doc_count (c : pychar) (e e' : Editor) :
  insert_newline e = Ok e' ->
  doc_count c (lines (buf e')) = doc_count c (lines (buf e)).
Proof.
  unfold insert_newline.
  destruct (Py.getitem (lines (buf e)) (cy e)) as [line|] eqn:Hg;
    simpl_result; [|discriminate].
  destruct (Py.setitem _ _ _) as [ls|] eqn:Hs; simpl_result; [|discriminate].
  intros [= <-]. rewrite ensure_cursor_visible_buf. cbn.
  apply getitem_Ok in Hg as (n & Hn & Hline).
  apply setitem_Ok in Hs as (n' & Hn' & ->).
  rewrite Hn in Hn'. injection Hn' as <-.
  rewrite doc_count_py_insert.
  pose proof (doc_count_insert c _ n line (Py.slice_to line (cx e)) Hline) as Hi.
  pose proof (count_occ_app N.eq_dec (Py.slice_to line (cx e))
                (Py.slice_from line (cx e)) c) as Happ.
  rewrite slice_to_from in Happ. lia.
Qed.

Lemma replace_go_count_occ (c : pychar) (old new : pystr) (k : nat) (s : pystr) :
  count_occ N.eq_dec new c = 0%nat ->
  (count_occ N.eq_dec (Py.replace_go old new k s) c <= count_occ N.eq_dec s c)%nat.
Proof.
  intros Hnew. revert k. induction s as [|a s IH]; intros k; [reflexivity|].
  cbn [Py.replace_go]. destruct k as [|k].
  - destruct (Py.startswith (a :: s) old).
    + rewrite count_occ_app, Hnew. specialize (IH (length old - 1)%nat).
      cbn [count_occ]. destruct (N.eq_dec a c); lia.
    + specialize (IH 0%nat). cbn [count_occ]. destruct (N.eq_dec a c); lia.
  - specialize (IH k). cbn [count_occ]. destruct (N.eq_dec a c); lia.
Qed.

(** Replacing by a text without the character [c] adds no [c]. *)
Lemma replace_count_occ (c : pychar) (s old new : pystr) :
  count_occ N.eq_dec new c = 0%nat ->
  (count_occ N.eq_dec (Py.replace s old new) c <= count_occ N.eq_dec s c)%nat.
Proof.
  intros Hnew. unfold Py.replace. destruct old as [|o old].
  - rewrite count_occ_app, Hnew. cbn. induction s as [|a s IH]; [reflexivity|].
    cbn [flat_map app count_occ]. rewrite count_occ_app, Hnew.
    destruct (N.eq_dec a c); lia.
  - now apply replace_go_count_occ.
Qed.

Lemma replace_all_doc_count (c : pychar) (f r : pystr) (e e' : Editor) (n : Z) :
  count_occ N.eq_dec r c = 0%nat ->
  replace_all f r e = Ok (n, e') ->
  (doc_count c (lines (buf e')) <= doc_count c (lines (buf e)))%nat.
Proof.
  intros Hr Hra. rewrite replace_all_map in Hra.
  injection Hra as _ <-.
  assert (Hmap : (doc_count c (map (fun l => Py.replace l f r) (lines (buf e)))
                  <= doc_count c (lines (buf e)))%nat).
  { induction (lines (buf e)) as [|l ls IH]; cbn; [lia|].
    pose proof (replace_count_occ c l f r Hr). lia. }
  cbv zeta. now destruct (total_count f (lines (buf e)) >? 0).
Qed.

(** The prompt hands over only characters from code point 32 on. *)
Lemma prompt_loop_printable (input : list key) (chars : pystr) (pos : Z)
  (t : pystr) (rest : list key) :
  Forall (fun ch => 32 <= Py.ord ch) chars ->
  prompt_loop chars pos input = Ok (Some t, rest) ->
  Forall (fun ch => 32 <= Py.ord ch) t.
Proof.
  revert chars pos. induction input as [|k input IH]; intros chars pos Hchars Hp;
    [discriminate|].
  cbn [prompt_loop] in Hp. destruct k as [ch|code].
  - destruct (ch =? 10)%N; [now injection Hp as <- _|].
    destruct (ch =? 27)%N; [discriminate|].
    destruct ((ch =? 127)%N || (ch =? 8)%N).
    + destruct (pos >? 0); [|now apply IH in Hp].
      destruct (Py.pop chars (pos - 1)) as [[x chars']|] eqn:Hpop;
        simpl_result_in Hp; [|discriminate].
      apply pop_Ok in Hpop as (n & _ & _ & ->).
      apply IH in Hp; [exact Hp|]. now apply Forall_delete.
    + destruct (Z.geb_spec (Py.ord ch) 32) as [Hch|_]; [|now apply IH in Hp].
      apply IH in Hp; [exact Hp|]. unfold Py.insert.
      apply Forall_app. split; [now apply Forall_take|].
      apply Forall_cons. split; [exact Hch | now apply Forall_drop].
  - destruct ((code =? KEY_LEFT) && (pos >? 0)); [now apply IH in Hp|].
    destruct ((code =? KEY_RIGHT) && (pos <? Py.len chars)); now apply IH in Hp.
Qed.

Lemma prompt_input_printable (prompt : string) (input : list key)
  (t : pystr) (rest : list key) :
  prompt_input prompt [] input = Ok (Some t, rest) ->
  Forall (fun ch => 32 <= Py.ord ch) t.
Proof. apply prompt_loop_printable. constructor. Qed.

Lemma printable_without_control (c : pychar) (t : pystr) :
  Py.ord c < 32 -> Forall (fun ch => 32 <= Py.ord ch) t ->
  count_occ N.eq_dec t c = 0%nat.
Proof.
  intros Hc. induction 1 as [|a t Ha _ IH]; [reflexivity|]. cbn.
  destruct (N.eq_dec a c) as [->|_]; [lia | exact IH].
Qed.

Lemma find_buf (term : pystr) (e e' : Editor) (found : bool) :
  find term e = Ok (found, e') -> buf e' = buf e.
Proof.
  unfold find, found_at. intros Hf. crack_result; cbn;
    try rewrite ensure_cursor_visible_buf; reflexivity.
Qed.

Section DispatchFacts.
Context {W : Type} `{FileSystem W}.

Lemma save_lines (w : W) (b : Buffer) : lines (save w b).1.2 = lines b.
Proof.
  destruct (save w b) as [[w' b'] [[] m]] eqn:Hs; cbn.
  - now destruct (save_success _ _ _ _ _ Hs) as (_ & -> & _).
  - now rewrite (save_failure_buffer _ _ _ _ _ Hs).
Qed.

Lemma save_and_report_lines (rest rest' : list key) (w w' : W) (e e' : Editor)
  (ctl : control) :
  save_and_report rest w e = Ok (ctl, rest', w', e') ->
  lines (buf e') = lines (buf e).
Proof.
  unfold save_and_report. pose proof (save_lines w (buf e)) as Hl.
  destruct (save w (buf e)) as [[w1 b1] [ok m]]. now intros [= _ _ _ <-].
Qed.

Lemma exit_without_saving_lines (input rest : list key) (w w' : W) (e e' : Editor)
  (ctl : control) :
  exit_without_saving input w e = Ok (ctl, rest, w', e') ->
  lines (buf e') = lines (buf e).
Proof.
  unfold exit_without_saving. intros Hx. crack_result; reflexivity.
Qed.



End DispatchFacts.

(** ** Typing a character *)

Lemma insert_char_in_range (c : pychar) (e : Editor) (line : pystr) :
  0 <= cy e -> lines (buf e) !! Z.to_nat (cy e) = Some line ->
  0 <= cx e <= Py.len line ->
  insert_char c e =
    Ok (mark_modified
          (set_cx (cx e + 1)
             (set_buf_lines
                (<[Z.to_nat (cy e) :=
                     take (Z.to_nat (cx e)) line ++ c :: drop (Z.to_nat (cx e)) line]>
                   (lines (buf e))) e))).
Proof.
  intros Hy Hline Hx. unfold insert_char.
  rewrite (getitem_lookup _ _ _ Hy Hline). simpl_result.
  rewrite setitem_in_range by eauto using lookup_in_range. simpl_result.
  now rewrite slice_to_in_range, slice_from_in_range by exact Hx.
Qed.




(** ** The cursor bounds are not kept by every operation *)

(** C1 (the code breaks it).  Two runs of the code that start inside the
    cursor bounds and end outside them.  The file notes.txt holds the
    line "aaa"; after End, and Ctrl-R answered with "a", "" and "y", the
    line is empty and the cursor column is still 3: replace_all does not
    bring the column back.  And on the lines "abc", "" with the cursor
    at (0,3), Page Down moves the cursor to row 1 and leaves the column
    at 3, beyond the end of the empty line; move_down from the same state
    brings the column to 0. *)
Theorem cursor_bounds_broken :
  (exists b w e,
      Buffer_init aaa_disk (Some (Py.lit "notes.txt")) = Ok b /\
      cursor_ok (Editor_init (mkScreen 24 80) b) /\
      run shrink_keys aaa_disk (Editor_init (mkScreen 24 80) b) = Ok (Continue, w, e) /\
      lines (buf e) = [[]] /\ cy e = 0 /\ cx e = 3 /\ ~ cursor_ok e) /\
  (exists e,
      cursor_ok (sample [Py.lit "abc"; []] 0 3) /\
      loop_body (KInt KEY_NPAGE) [] empty_disk (sample [Py.lit "abc"; []] 0 3)
        = Ok (Continue, [], empty_disk, e) /\
      lines (buf e) = [Py.lit "abc"; []] /\ cy e = 1 /\ cx e = 3 /\ ~ cursor_ok e) /\
  (exists e,
      move_down (sample [Py.lit "abc"; []] 0 3) = Ok e /\ cy e = 1 /\ cx e = 0).
Proof.
  split; [|split].
  - eexists _, _, _. split; [vm_compute; reflexivity|].
    split; [split; [by_compute | eexists; split; [reflexivity | by_compute]]|].
    split; [vm_compute; reflexivity|].
    do 3 (split; [reflexivity|]).
    intros (_ & line & Hline & _ & Hx). vm_compute in Hline.
    injection Hline as <-. vm_compute in Hx. now apply Hx.
  - eexists. split; [split; [by_compute | eexists; split; [reflexivity | by_compute]]|].
    split; [vm_compute; reflexivity|].
    do 3 (split; [reflexivity|]).
    intros (_ & line & Hline & _ & Hx). vm_compute in Hline.
    injection Hline as <-. vm_compute in Hx. now apply Hx.
  - eexists. split; [vm_compute; reflexivity|]. split; reflexivity.
Qed.

(** ** The operations that keep the cursor bounds *)

Lemma cursor_ok_ensure (e : Editor) :
  cursor_ok (ensure_cursor_visible e) <-> cursor_ok e.
Proof.
  unfold cursor_ok.
  now rewrite ensure_cursor_visible_buf, ensure_cursor_visible_cy,
    ensure_cursor_visible_cx.
Qed.

Lemma len_take_le (s : pystr) (k : Z) :
  0 <= k <= Py.len s -> Py.len (take (Z.to_nat k) s) = k.
Proof. intros Hk. unfold Py.len in *. rewrite length_take. lia. Qed.

Lemma len_drop (s : pystr) (k : Z) :
  0 <= k <= Py.len s -> Py.len (drop (Z.to_nat k) s) = Py.len s - k.
Proof. intros Hk. unfold Py.len in *. rewrite length_drop. lia. Qed.

Lemma move_left_keeps (e e' : Editor) :
  cursor_ok e -> move_left e = Ok e' -> cursor_ok e'.
Proof.
  intros (Hy & line & Hline & Hx) Hm. unfold move_left in Hm.
  destruct (Z.gtb_spec (cx e) 0).
  - simpl_result_in Hm. injection Hm as <-. apply cursor_ok_ensure.
    split; [exact Hy|]. exists line. cbn. split; [exact Hline | lia].
  - destruct (Z.gtb_spec (cy e) 0).
    + cbn [cy buf set_cy] in Hm.
      destruct (Py.getitem (lines (buf e)) (cy e - 1)) as [prev|] eqn:Hg;
        simpl_result_in Hm; [|discriminate].
      injection Hm as <-. apply cursor_ok_ensure.
      apply getitem_Ok in Hg as (n & Hn & Hprev).
      apply norm_index_nonneg in Hn; [|lia]. subst n.
      split; [cbn; lia|]. exists prev. cbn. split; [exact Hprev|].
      pose proof (len_nonneg prev). lia.
    + simpl_result_in Hm. injection Hm as <-. apply cursor_ok_ensure.
      split; [exact Hy|]. now exists line.
Qed.

Lemma move_right_keeps (e e' : Editor) :
  cursor_ok e -> move_right e = Ok e' -> cursor_ok e'.
Proof.
  intros (Hy & line & Hline & Hx) Hm. unfold move_right in Hm.
  rewrite (getitem_lookup _ _ _ Hy Hline) in Hm. simpl_result_in Hm.
  injection Hm as <-. apply cursor_ok_ensure.
  destruct (Z.ltb_spec (cx e) (Py.len line)).
  - split; [exact Hy|]. exists line. cbn. split; [exact Hline | lia].
  - destruct (Z.ltb_spec (cy e) (Py.len (lines (buf e)) - 1)) as [Hlt|].
    + destruct (lookup_lt_is_Some_2 (lines (buf e)) (Z.to_nat (cy e + 1)))
        as [nxt Hnxt]; [unfold Py.len in Hlt; lia|].
      split; [cbn; lia|]. exists nxt. cbn. split; [exact Hnxt|].
      pose proof (len_nonneg nxt). lia.
    + split; [exact Hy|]. now exists line.
Qed.



Lemma insert_char_keeps (c : pychar) (e e' : Editor) :
  cursor_ok e -> insert_char c e = Ok e' -> cursor_ok e'.
Proof.
  intros (Hy & line & Hline & Hx) Hm.
  rewrite (insert_char_in_range c e line Hy Hline Hx) in Hm. injection Hm as <-.
  split; [exact Hy|]. eexists. cbn. split.
  - apply list_lookup_insert_eq. now apply lookup_lt_Some in Hline.
  - rewrite len_app, len_take_le by exact Hx.
    change (c :: drop (Z.to_nat (cx e)) line) with ([c] ++ drop (Z.to_nat (cx e)) line).
    rewrite len_app. pose proof (len_nonneg (drop (Z.to_nat (cx e)) line)).
    change (Py.len [c]) with 1. lia.
Qed.

Lemma backspace_keeps (e e' : Editor) :
  cursor_ok e -> backspace e = Ok e' -> cursor_ok e'.
Proof.
  intros (Hy & line & Hline & Hx) Hm. unfold backspace in Hm.
  pose proof (lookup_in_range _ _ _ Hy Hline) as Hr.
  destruct (Z.gtb_spec (cx e) 0).
  - rewrite (getitem_lookup _ _ _ Hy Hline) in Hm. simpl_result_in Hm.
    rewrite setitem_in_range in Hm by exact Hr. simpl_result_in Hm.
    injection Hm as <-. split; [exact Hy|]. eexists. cbn. split.
    + apply list_lookup_insert_eq. now apply lookup_lt_Some in Hline.
    + rewrite slice_to_in_range, slice_from_in_range by lia.
      rewrite len_app, len_take_le, len_drop by lia. lia.
  - destruct (Z.gtb_spec (cy e) 0); [|now injection Hm as <-; split; eauto].
    destruct (Py.getitem (lines (buf e)) (cy e - 1)) as [prev|] eqn:Hg;
      simpl_result_in Hm; [|discriminate].
    rewrite (pop_lookup _ _ _ Hy Hline) in Hm. simpl_result_in Hm.
    cbn [cy cx buf lines set_cx set_cy set_buf_lines set_buf set_lines] in Hm.
    apply getitem_Ok in Hg as (n & Hn & Hprev).
    apply norm_index_nonneg in Hn; [|lia]. subst n.
    assert (Hlt : (Z.to_nat (cy e - 1) < length (delete (Z.to_nat (cy e)) (lines (buf e))))%nat).
    { rewrite length_delete by eauto. apply lookup_lt_Some in Hline. lia. }
    rewrite setitem_in_range in Hm by (unfold Py.len; lia).
    simpl_result_in Hm. injection Hm as <-. apply cursor_ok_ensure.
    split; [cbn; lia|]. eexists. cbn. split.
    + now apply list_lookup_insert_eq.
    + rewrite len_app. pose proof (len_nonneg prev). pose proof (len_nonneg line). lia.
Qed.

Lemma insert_newline_keeps (e e' : Editor) :
  cursor_ok e -> insert_newline e = Ok e' -> cursor_ok e'.
Proof.
  intros (Hy & line & Hline & Hx) Hm.
  rewrite (insert_newline_in_range e line Hy Hline Hx) in Hm. injection Hm as <-.
  apply cursor_ok_ensure. split; [cbn; lia|].
  exists (drop (Z.to_nat (cx e)) line). cbn. split.
  - replace (Z.to_nat (cy e + 1)) with (S (Z.to_nat (cy e))) by lia.
    apply lookup_lt_Some in Hline.
    rewrite lookup_app_r by (rewrite length_take; lia).
    rewrite length_take.
    now replace (S (Z.to_nat (cy e)) - Z.to_nat (cy e) `min` length (lines (buf e)))%nat
      with 1%nat by lia.
  - pose proof (len_nonneg (drop (Z.to_nat (cx e)) line)). lia.
Qed.

Lemma delete_char_keeps (e e' : Editor) :
  cursor_ok e -> delete_char e = Ok e' -> cursor_ok e'.
Proof.
  intros (Hy & line & Hline & Hx) Hm. unfold delete_char in Hm.
  pose proof (lookup_in_range _ _ _ Hy Hline) as Hr.
  rewrite (getitem_lookup _ _ _ Hy Hline) in Hm. simpl_result_in Hm.
  destruct (Z.ltb_spec (cx e) (Py.len line)).
  - rewrite setitem_in_range in Hm by exact Hr. simpl_result_in Hm.
    injection Hm as <-. split; [exact Hy|]. eexists. cbn. split.
    + apply list_lookup_insert_eq. now apply lookup_lt_Some in Hline.
    + rewrite slice_to_in_range, slice_from_in_range by lia.
      rewrite len_app, len_take_le, len_drop by lia. lia.
  - destruct (Z.ltb_spec (cy e) (Py.len (lines (buf e)) - 1)) as [Hlt|];
      [|now injection Hm as <-; split; eauto].
    destruct (Py.pop (lines (buf e)) (cy e + 1)) as [[nxt ls]|] eqn:Hp;
      simpl_result_in Hm; [|discriminate].
    apply pop_Ok in Hp as (n & Hn & Hnxt & ->).
    apply norm_index_nonneg in Hn; [|lia]. subst n.
    assert (Hlen : (Z.to_nat (cy e) < length (delete (Z.to_nat (cy e + 1)) (lines (buf e))))%nat).
    { rewrite length_delete by eauto. unfold Py.len in Hlt. lia. }
    rewrite setitem_in_range in Hm by (unfold Py.len; lia).
    simpl_result_in Hm. injection Hm as <-.
    split; [exact Hy|]. eexists. cbn. split.
    + now apply list_lookup_insert_eq.
    + rewrite len_app. pose proof (len_nonneg nxt). lia.
Qed.

Lemma first_match_Some (term : pystr) (ls : list pystr) (order : list (Z * Z))
  (y x : Z) :
  first_match term ls order = Some (y, x) ->
  exists c line,
    (y, c) ∈ order /\ ls !! Z.to_nat y = Some line /\
    x = Py.find line term c /\ x <> -1.
Proof.
  induction order as [|[y0 c0] order IH]; [discriminate|]. cbn.
  destruct (ls !! Z.to_nat y0) as [line|] eqn:Hline.
  - destruct (Z.eqb_spec (Py.find line term c0) (-1)) as [|Hne].
    + intros Hf. destruct (IH Hf) as (c & l & Hin & Hrest).
      exists c, l. split; [now apply list_elem_of_further | exact Hrest].
    + intros [= <- <-]. exists c0, line. repeat split; auto. apply list_elem_of_here.
  - intros Hf. destruct (IH Hf) as (c & l & Hin & Hrest).
    exists c, l. split; [now apply list_elem_of_further | exact Hrest].
Qed.

Lemma scan_order_rows (n cy0 cx0 y c : Z) :
  0 <= cy0 -> (y, c) ∈ scan_order n cy0 cx0 -> 0 <= y.
Proof.
  intros Hy. unfold scan_order, Py.range.
  rewrite elem_of_cons, elem_of_app, !list_elem_of_fmap.
  intros [[= -> _]|[(y' & [= -> _] & Hin)|(y' & [= -> _] & Hin)]];
    [exact Hy | apply elem_of_seqZ in Hin; lia | apply elem_of_seqZ in Hin; lia].
Qed.



(** * Further properties of the code *)

(** ** The editing operations on a document cut at the cursor row *)

Section SplitFacts.
Context {A : Type}.
Implicit Types (pre post : list A) (x v : A).

Lemma getitem_middle pre x post : Py.getitem (pre ++ x :: post) (Py.len pre) = Ok x.
Proof.
  apply getitem_lookup; [apply len_nonneg|].
  unfold Py.len. rewrite Nat2Z.id. now apply list_lookup_middle.
Qed.

Lemma setitem_middle pre x post v :
  Py.setitem (pre ++ x :: post) (Py.len pre) v = Ok (pre ++ v :: post).
Proof.
  rewrite setitem_in_range
    by (split; [apply len_nonneg | rewrite len_app; unfold Py.len; cbn; lia]).
  f_equal. unfold Py.len. rewrite Nat2Z.id.
  replace (length pre) with (length pre + 0)%nat by lia.
  now rewrite insert_app_r.
Qed.

Lemma pop_middle pre x post :
  Py.pop (pre ++ x :: post) (Py.len pre) = Ok (x, pre ++ post).
Proof.
  rewrite (pop_lookup _ _ x);
    [|apply len_nonneg | unfold Py.len; rewrite Nat2Z.id; now apply list_lookup_middle].
  unfold Py.len. rewrite Nat2Z.id. now rewrite delete_middle.
Qed.

Lemma py_insert_middle pre post v : Py.insert (pre ++ post) (Py.len pre) v = pre ++ v :: post.
Proof.
  rewrite insert_in_range
    by (split; [apply len_nonneg | rewrite len_app; pose proof (len_nonneg post); lia]).
  unfold Py.len. rewrite Nat2Z.id. now rewrite take_app_length, drop_app_length.
Qed.

End SplitFacts.

(** A state inside the cursor bounds cuts its lines at the cursor row. *)
Lemma cursor_ok_split (e : Editor) :
  cursor_ok e ->
  exists pre line post,
    lines (buf e) = pre ++ line :: post /\ cy e = Py.len pre /\
    0 <= cx e <= Py.len line.
Proof.
  intros (Hy & line & Hline & Hx).
  exists (take (Z.to_nat (cy e)) (lines (buf e))), line,
    (drop (S (Z.to_nat (cy e))) (lines (buf e))).
  split; [symmetry; now apply take_drop_middle|]. split; [|exact Hx].
  apply lookup_lt_Some in Hline. unfold Py.len. rewrite length_take. lia.
Qed.

Lemma split_cursor_ok (e : Editor) (pre post : list pystr) (line : pystr) :
  lines (buf e) = pre ++ line :: post -> cy e = Py.len pre ->
  0 <= cx e <= Py.len line -> cursor_ok e.
Proof.
  intros Hl Hy Hx. split; [rewrite Hy; apply len_nonneg|]. exists line.
  split; [|exact Hx]. rewrite Hl, Hy. unfold Py.len. rewrite Nat2Z.id.
  now apply list_lookup_middle.
Qed.

Lemma list_snoc_or_nil {A : Type} (l : list A) :
  l = [] \/ exists l' x, l = l' ++ [x].
Proof. induction l as [|x l' _] using rev_ind; eauto. Qed.

Section OnSplit.
Variables (e : Editor) (pre post : list pystr) (line : pystr).
Hypothesis Hl : lines (buf e) = pre ++ line :: post.
Hypothesis Hy : cy e = Py.len pre.
Hypothesis Hx : 0 <= cx e <= Py.len line.

Lemma insert_char_split (c : pychar) :
  exists e',
    insert_char c e = Ok e' /\
    lines (buf e')
      = pre ++ (take (Z.to_nat (cx e)) line ++ c :: drop (Z.to_nat (cx e)) line) :: post /\
    cy e' = cy e /\ cx e' = cx e + 1 /\ modified (buf e') = true.
Proof.
  unfold insert_char. rewrite Hl, Hy, getitem_middle. simpl_result.
  rewrite setitem_middle. simpl_result.
  rewrite slice_to_in_range, slice_from_in_range by exact Hx.
  eexists. split; [reflexivity|]. cbn. auto.
Qed.

Lemma insert_newline_split :
  exists e',
    insert_newline e = Ok e' /\
    lines (buf e')
      = pre ++ take (Z.to_nat (cx e)) line :: drop (Z.to_nat (cx e)) line :: post /\
    cy e' = cy e + 1 /\ cx e' = 0 /\ modified (buf e') = true.
Proof.
  unfold insert_newline. rewrite Hl, Hy, getitem_middle. simpl_result.
  rewrite setitem_middle. simpl_result.
  rewrite slice_to_in_range, slice_from_in_range by exact Hx.
  set (l1 := take (Z.to_nat (cx e)) line).
  replace (pre ++ l1 :: post) with ((pre ++ [l1]) ++ post) by (now rewrite <- app_assoc).
  replace (Py.len pre + 1) with (Py.len (pre ++ [l1]))
    by (rewrite len_app; reflexivity).
  rewrite py_insert_middle, <- app_assoc.
  eexists. split; [reflexivity|].
  rewrite ensure_cursor_visible_buf, ensure_cursor_visible_cy, ensure_cursor_visible_cx.
  cbn. rewrite len_app. auto.
Qed.

Lemma backspace_split :
  exists e',
    backspace e = Ok e' /\
    ((0 < cx e /\
      lines (buf e')
        = pre ++ (take (Z.to_nat (cx e - 1)) line ++ drop (Z.to_nat (cx e)) line) :: post /\
      cy e' = cy e /\ cx e' = cx e - 1 /\ modified (buf e') = true) \/
     (cx e = 0 /\ pre = [] /\ e' = e) \/
     (cx e = 0 /\ exists pre0 prev,
         pre = pre0 ++ [prev] /\
         lines (buf e') = pre0 ++ (prev ++ line) :: post /\
         cy e' = cy e - 1 /\ cx e' = Py.len prev /\ modified (buf e') = true)).
Proof.
  unfold backspace. destruct (Z.gtb_spec (cx e) 0) as [Hpos|Hzero].
  - rewrite Hl, Hy, getitem_middle. simpl_result.
    rewrite setitem_middle. simpl_result.
    rewrite slice_to_in_range, slice_from_in_range by lia.
    eexists. split; [reflexivity|]. left. cbn. repeat split; auto; lia.
  - assert (Hx0 : cx e = 0) by lia.
    destruct (list_snoc_or_nil pre) as [->|(pre0 & prev & ->)].
    + rewrite Hy. cbn. eexists. split; [reflexivity|]. right. left. auto.
    + assert (Hgt : (cy e >? 0) = true).
      { apply Z.gtb_lt. rewrite Hy, len_app. pose proof (len_nonneg pre0).
        change (Py.len [prev]) with 1. lia. }
      rewrite Hgt.
      replace (cy e - 1) with (Py.len pre0)
        by (rewrite Hy, len_app; change (Py.len [prev]) with 1; lia).
      rewrite Hl, Hy. rewrite <- app_assoc. cbn [app].
      rewrite getitem_middle. simpl_result.
      replace (pre0 ++ prev :: line :: post) with ((pre0 ++ [prev]) ++ line :: post)
        by (now rewrite <- app_assoc).
      rewrite pop_middle. simpl_result.
      cbn [cy cx buf lines set_cx set_cy set_buf_lines set_buf set_lines].
      replace (Py.len (pre0 ++ [prev]) - 1) with (Py.len pre0)
        by (rewrite len_app; change (Py.len [prev]) with 1; lia).
      rewrite <- app_assoc. cbn [app]. rewrite setitem_middle. simpl_result.
      eexists. split; [reflexivity|]. right. right. split; [exact Hx0|].
      exists pre0, prev. split; [reflexivity|].
      rewrite ensure_cursor_visible_buf, ensure_cursor_visible_cy,
        ensure_cursor_visible_cx. cbn. auto.
Qed.

Lemma delete_char_split :
  exists e',
    delete_char e = Ok e' /\ cy e' = cy e /\ cx e' = cx e /\
    ((cx e < Py.len line /\
      lines (buf e')
        = pre ++ (take (Z.to_nat (cx e)) line ++ drop (Z.to_nat (cx e + 1)) line) :: post /\
      modified (buf e') = true) \/
     (cx e = Py.len line /\ post = [] /\ e' = e) \/
     (cx e = Py.len line /\ exists nxt post0,
         post = nxt :: post0 /\
         lines (buf e') = pre ++ (line ++ nxt) :: post0 /\
         modified (buf e') = true)).
Proof.
  unfold delete_char. rewrite Hl, Hy, getitem_middle. simpl_result.
  destruct (Z.ltb_spec (cx e) (Py.len line)) as [Hlt|Hge].
  - rewrite setitem_middle. simpl_result.
    rewrite slice_to_in_range, slice_from_in_range by lia.
    eexists. split; [reflexivity|]. cbn. repeat split; auto.
  - assert (Hend : cx e = Py.len line) by lia.
    destruct post as [|nxt post0].
    + replace (Py.len pre <? Py.len (pre ++ [line]) - 1) with false
        by (symmetry; apply Z.ltb_ge; rewrite len_app; change (Py.len [line]) with 1; lia).
      eexists. split; [reflexivity|]. repeat split; auto.
    + replace (Py.len pre <? Py.len (pre ++ line :: nxt :: post0) - 1) with true
        by (symmetry; apply Z.ltb_lt; rewrite len_app; unfold Py.len; cbn; lia).
      replace (pre ++ line :: nxt :: post0) with ((pre ++ [line]) ++ nxt :: post0)
        by (now rewrite <- app_assoc).
      replace (Py.len pre + 1) with (Py.len (pre ++ [line]))
        by (rewrite len_app; reflexivity).
      rewrite pop_middle. simpl_result. rewrite <- app_assoc. cbn [app].
      rewrite setitem_middle. simpl_result.
      eexists. split; [reflexivity|]. cbn. repeat split; auto.
      right. right. split; [exact Hend|]. exists nxt, post0. auto.
Qed.

End OnSplit.

Section MovesOnSplit.
Variables (e : Editor) (pre post : list pystr) (line : pystr).
Hypothesis Hl : lines (buf e) = pre ++ line :: post.
Hypothesis Hy : cy e = Py.len pre.
Hypothesis Hx : 0 <= cx e <= Py.len line.

Lemma move_left_split :
  exists e',
    move_left e = Ok e' /\ buf e' = buf e /\
    ((0 < cx e /\ cy e' = cy e /\ cx e' = cx e - 1) \/
     (cx e = 0 /\ pre = [] /\ cy e' = cy e /\ cx e' = cx e) \/
     (cx e = 0 /\ exists pre0 prev,
         pre = pre0 ++ [prev] /\ cy e' = cy e - 1 /\ cx e' = Py.len prev)).
Proof.
  unfold move_left. destruct (Z.gtb_spec (cx e) 0) as [Hpos|Hzero].
  - simpl_result. eexists. split; [reflexivity|].
    rewrite ensure_cursor_visible_buf, ensure_cursor_visible_cy,
      ensure_cursor_visible_cx. cbn. split; [reflexivity|]. left. auto.
  - assert (Hx0 : cx e = 0) by lia.
    destruct (list_snoc_or_nil pre) as [->|(pre0 & prev & ->)].
    + rewrite Hy. cbn [Py.len length Z.of_nat Z.gtb Z.compare]. simpl_result.
      eexists. split; [reflexivity|].
      rewrite ensure_cursor_visible_buf, ensure_cursor_visible_cy,
        ensure_cursor_visible_cx. split; [reflexivity|]. right. left. auto.
    + assert (Hgt : (cy e >? 0) = true).
      { apply Z.gtb_lt. rewrite Hy, len_app. pose proof (len_nonneg pre0).
        change (Py.len [prev]) with 1. lia. }
      rewrite Hgt. cbn [cy buf set_cy].
      replace (cy e - 1) with (Py.len pre0)
        by (rewrite Hy, len_app; change (Py.len [prev]) with 1; lia).
      rewrite Hl, <- app_assoc. cbn [app]. rewrite getitem_middle. simpl_result.
      eexists. split; [reflexivity|].
      rewrite ensure_cursor_visible_buf, ensure_cursor_visible_cy,
        ensure_cursor_visible_cx. cbn. split; [reflexivity|]. right. right.
      split; [exact Hx0|]. exists pre0, prev. auto.
Qed.

Lemma move_right_split :
  exists e',
    move_right e = Ok e' /\ buf e' = buf e /\
    ((cx e < Py.len line /\ cy e' = cy e /\ cx e' = cx e + 1) \/
     (cx e = Py.len line /\ post = [] /\ cy e' = cy e /\ cx e' = cx e) \/
     (cx e = Py.len line /\ post <> [] /\ cy e' = cy e + 1 /\ cx e' = 0)).
Proof.
  unfold move_right. rewrite Hl, Hy, getitem_middle. simpl_result.
  eexists. split; [reflexivity|].
  rewrite ensure_cursor_visible_buf, ensure_cursor_visible_cy,
    ensure_cursor_visible_cx.
  destruct (Z.ltb_spec (cx e) (Py.len line)) as [Hlt|Hge].
  - cbn. split; [reflexivity|]. left. auto.
  - assert (Hend : cx e = Py.len line) by lia.
    destruct post as [|nxt post0].
    + replace (Py.len pre <? Py.len (pre ++ [line]) - 1) with false
        by (symmetry; apply Z.ltb_ge; rewrite len_app; change (Py.len [line]) with 1; lia).
      split; [reflexivity|]. right. left. auto.
    + replace (Py.len pre <? Py.len (pre ++ line :: nxt :: post0) - 1) with true
        by (symmetry; apply Z.ltb_lt; rewrite len_app; unfold Py.len; cbn; lia).
      cbn. split; [reflexivity|]. right. right. repeat split; auto; discriminate.
Qed.

End MovesOnSplit.

(** ** The document as one text *)

Lemma flat_app (l1 l2 : list pystr) : flat (l1 ++ l2) = flat l1 ++ flat l2.
Proof. unfold flat. now rewrite map_app, concat_app. Qed.

Lemma flat_middle (pre post : list pystr) (line : pystr) :
  flat (pre ++ line :: post) = flat pre ++ line ++ Py.LF :: flat post.
Proof.
  rewrite flat_app. unfold flat at 2. cbn. unfold terminated at 1.
  now rewrite <- app_assoc.
Qed.

Lemma offset_split (e : Editor) (pre post : list pystr) (line : pystr) :
  lines (buf e) = pre ++ line :: post -> cy e = Py.len pre ->
  offset e = Py.len (flat pre) + cx e.
Proof.
  intros Hl Hy. unfold offset. rewrite Hl, Hy. unfold Py.len at 2.
  now rewrite Nat2Z.id, take_app_length.
Qed.

Lemma text_take (F s R : pystr) (k : Z) :
  0 <= k <= Py.len s ->
  take (Z.to_nat (Py.len F + k)) (F ++ s ++ R) = F ++ take (Z.to_nat k) s.
Proof.
  intros Hk. replace (Z.to_nat (Py.len F + k)) with (length F + Z.to_nat k)%nat
    by (unfold Py.len; lia).
  rewrite take_app_add. f_equal. apply take_app_le. unfold Py.len in Hk. lia.
Qed.

Lemma text_drop (F s R : pystr) (k : Z) :
  0 <= k <= Py.len s ->
  drop (Z.to_nat (Py.len F + k)) (F ++ s ++ R) = drop (Z.to_nat k) s ++ R.
Proof.
  intros Hk. replace (Z.to_nat (Py.len F + k)) with (length F + Z.to_nat k)%nat
    by (unfold Py.len; lia).
  rewrite drop_app_add. apply drop_app_le. unfold Py.len in Hk. lia.
Qed.

Lemma flat_cons (line : pystr) (post : list pystr) :
  flat (line :: post) = line ++ Py.LF :: flat post.
Proof. exact (flat_middle [] post line). Qed.

Lemma len_flat_snoc (pre : list pystr) (line : pystr) :
  Py.len (flat (pre ++ [line])) = Py.len (flat pre) + Py.len line + 1.
Proof.
  rewrite flat_middle, !len_app. change (flat []) with (@nil N).
  change (Py.len [Py.LF]) with 1. lia.
Qed.

(** X1.  Typing acts on the text of the document as an insertion at the
    cursor: insert_char puts its character there, insert_newline a line
    feed, and the cursor moves one position on. *)
Theorem typing_splices_text (e : Editor) :
  cursor_ok e ->
  (forall c, exists e',
      insert_char c e = Ok e' /\
      flat (lines (buf e'))
        = take (Z.to_nat (offset e)) (flat (lines (buf e)))
            ++ c :: drop (Z.to_nat (offset e)) (flat (lines (buf e))) /\
      offset e' = offset e + 1 /\ cursor_ok e') /\
  (exists e',
      insert_newline e = Ok e' /\
      flat (lines (buf e'))
        = take (Z.to_nat (offset e)) (flat (lines (buf e)))
            ++ Py.LF :: drop (Z.to_nat (offset e)) (flat (lines (buf e))) /\
      offset e' = offset e + 1 /\ cursor_ok e').
Proof.
  intros Hok. destruct (cursor_ok_split e Hok) as (pre & line & post & Hl & Hy & Hx).
  pose proof (offset_split e pre post line Hl Hy) as Hoff.
  split.
  - intros c.
    destruct (insert_char_split e pre post line Hl Hy Hx c)
      as (e' & He & Hl' & Hy' & Hx' & _).
    exists e'. split; [exact He|]. split; [|split].
    + rewrite Hoff, Hl', Hl, !flat_middle.
      rewrite text_take, text_drop by exact Hx.
      now rewrite <- !app_assoc.
    + rewrite Hy in Hy'. rewrite (offset_split e' pre post _ Hl' Hy'). lia.
    + now apply (insert_char_keeps c e).
  - destruct (insert_newline_split e pre post line Hl Hy Hx)
      as (e' & He & Hl' & Hy' & Hx' & _).
    exists e'. split; [exact He|]. split; [|split].
    + rewrite Hoff, Hl', Hl, !flat_middle, flat_cons.
      rewrite text_take, text_drop by exact Hx.
      now rewrite <- !app_assoc.
    + assert (Hl2 : lines (buf e')
                    = (pre ++ [take (Z.to_nat (cx e)) line])
                        ++ drop (Z.to_nat (cx e)) line :: post)
        by (now rewrite <- app_assoc).
      rewrite (offset_split e' _ _ _ Hl2)
        by (rewrite Hy', Hy, len_app; reflexivity).
      rewrite len_flat_snoc, len_take_le by exact Hx. lia.
    + now apply (insert_newline_keeps e).
Qed.

Lemma typing_splices_text_witness :
  exists e',
    insert_newline (sample ab_cb 1 1) = Ok e' /\
    flat (lines (buf e')) = Py.lit "ab" ++ [Py.LF] ++ Py.lit "c" ++ [Py.LF] ++ Py.lit "b" ++ [Py.LF] /\
    offset e' = 5.
Proof.
  destruct (proj2 (typing_splices_text (sample ab_cb 1 1)
                     ltac:(split; [by_compute | exists (Py.lit "cb"); by_compute])))
    as (e' & He & Hf & Ho & _).
  exists e'. split; [exact He|]. split; [exact Hf | exact Ho].
Defined.

(** X2.  Backspace acts on the text as the removal of the character before
    the cursor (a line feed when two lines are joined), and does nothing
    at the start of the text. *)
Theorem backspace_splices_text (e : Editor) :
  cursor_ok e ->
  exists e',
    backspace e = Ok e' /\ cursor_ok e' /\
    (offset e = 0 -> e' = e) /\
    (0 < offset e ->
     flat (lines (buf e'))
       = take (Z.to_nat (offset e - 1)) (flat (lines (buf e)))
           ++ drop (Z.to_nat (offset e)) (flat (lines (buf e))) /\
     offset e' = offset e - 1).
Proof.
  intros Hok. destruct (cursor_ok_split e Hok) as (pre & line & post & Hl & Hy & Hx).
  pose proof (offset_split e pre post line Hl Hy) as Hoff.
  pose proof (len_nonneg (flat pre)) as HF.
  destruct (backspace_split e pre post line Hl Hy Hx) as (e' & He & Hcases).
  exists e'. split; [exact He|]. split; [now apply (backspace_keeps e)|].
  destruct Hcases as [(Hpos & Hl' & Hy' & Hx' & _)
                     |[(Hx0 & -> & ->)
                      |(Hx0 & pre0 & prev & -> & Hl' & Hy' & Hx' & _)]].
  - split; [lia|]. intros _. split.
    + rewrite Hoff, Hl', Hl, !flat_middle.
      replace (Py.len (flat pre) + cx e - 1) with (Py.len (flat pre) + (cx e - 1)) by lia.
      rewrite text_take, text_drop by lia. now rewrite <- !app_assoc.
    + rewrite Hy in Hy'. rewrite (offset_split e' pre post _ Hl' Hy'). lia.
  - split; [reflexivity|]. intros Hlt. exfalso.
    rewrite Hoff, Hx0 in Hlt. vm_compute in Hlt. discriminate Hlt.
  - rewrite len_flat_snoc in Hoff. pose proof (len_nonneg (flat pre0)).
    pose proof (len_nonneg prev). split; [lia|]. intros _. split.
    + rewrite Hoff, Hl', Hl, Hx0, <- app_assoc. cbn [app]. rewrite !flat_middle, flat_cons.
      replace (Py.len (flat pre0) + Py.len prev + 1 + 0 - 1)
        with (Py.len (flat pre0) + Py.len prev) by lia.
      rewrite text_take by lia.
      replace (Py.len (flat pre0) + Py.len prev + 1 + 0)
        with (Py.len (flat pre0) + Py.len (prev ++ [Py.LF]))
        by (rewrite len_app; change (Py.len [Py.LF]) with 1; lia).
      change (prev ++ Py.LF :: line ++ Py.LF :: flat post)
        with (prev ++ [Py.LF] ++ (line ++ Py.LF :: flat post)).
      rewrite (app_assoc prev [Py.LF]).
      rewrite text_drop by (pose proof (len_nonneg (prev ++ [Py.LF])); lia).
      unfold Py.len. rewrite !Nat2Z.id, take_ge, drop_ge by lia.
      now rewrite <- !app_assoc.
    + rewrite (offset_split e' pre0 post _ Hl')
        by (rewrite Hy', Hy, len_app; change (Py.len [prev]) with 1; lia).
      lia.
Qed.

Lemma backspace_splices_text_witness :
  exists e',
    backspace (sample ab_cb 1 0) = Ok e' /\
    flat (lines (buf e')) = Py.lit "abcb" ++ [Py.LF] /\ offset e' = 2.
Proof.
  destruct (backspace_splices_text (sample ab_cb 1 0)
              ltac:(split; [by_compute | exists (Py.lit "cb"); by_compute]))
    as (e' & He & _ & _ & Hs).
  exists e'. split; [exact He|]. exact (Hs ltac:(by_compute)).
Defined.

(** X3.  Forward delete acts on the text as the removal of the character at
    the cursor (the line feed at the end of a line joins the next line);
    the cursor stays, and at the line feed that ends the text nothing
    happens. *)
Theorem delete_char_splices_text (e : Editor) :
  cursor_ok e ->
  exists e',
    delete_char e = Ok e' /\ cursor_ok e' /\ offset e' = offset e /\
    (offset e + 1 = Py.len (flat (lines (buf e))) -> e' = e) /\
    (offset e + 1 < Py.len (flat (lines (buf e))) ->
     flat (lines (buf e'))
       = take (Z.to_nat (offset e)) (flat (lines (buf e)))
           ++ drop (Z.to_nat (offset e + 1)) (flat (lines (buf e)))).
Proof.
  intros Hok. destruct (cursor_ok_split e Hok) as (pre & line & post & Hl & Hy & Hx).
  pose proof (offset_split e pre post line Hl Hy) as Hoff.
  destruct (delete_char_split e pre post line Hl Hy Hx) as (e' & He & Hy' & Hx' & Hcases).
  exists e'. split; [exact He|]. split; [now apply (delete_char_keeps e)|].
  assert (Hlen : Py.len (flat (lines (buf e)))
                 = Py.len (flat pre) + Py.len line + 1 + Py.len (flat post)).
  { rewrite Hl, flat_middle, !len_app.
    change (Py.LF :: flat post) with ([Py.LF] ++ flat post). rewrite len_app.
    change (Py.len [Py.LF]) with 1. lia. }
  pose proof (len_nonneg (flat post)) as HR.
  destruct Hcases as [(Hlt & Hl' & _)
                     |[(Hend & -> & ->)
                      |(Hend & nxt & post0 & -> & Hl' & _)]].
  - split; [rewrite Hy in Hy'; rewrite (offset_split e' pre post _ Hl' Hy'); lia|].
    split; [lia|]. intros _.
    rewrite Hoff, Hl', Hl, !flat_middle.
    replace (Py.len (flat pre) + cx e + 1) with (Py.len (flat pre) + (cx e + 1)) by lia.
    rewrite text_take, text_drop by lia. now rewrite <- !app_assoc.
  - split; [reflexivity|]. split; [reflexivity|].
    intros Hlt. exfalso. change (flat []) with (@nil N) in Hlen.
    change (Py.len []) with 0 in Hlen. lia.
  - split; [rewrite Hy in Hy'; rewrite (offset_split e' pre post0 _ Hl' Hy'); lia|].
    rewrite flat_cons in Hlen.
    change (Py.LF :: flat post0) with ([Py.LF] ++ flat post0) in Hlen.
    rewrite !len_app in Hlen. change (Py.len [Py.LF]) with 1 in Hlen.
    pose proof (len_nonneg nxt). pose proof (len_nonneg (flat post0)).
    split; [intros Heq; exfalso; lia|].
    intros _.
    rewrite Hoff, Hl', Hl, Hend, !flat_middle, flat_cons.
    rewrite text_take by lia.
    replace (Py.len (flat pre) + Py.len line + 1)
      with (Py.len (flat pre) + Py.len (line ++ [Py.LF]))
      by (rewrite len_app; change (Py.len [Py.LF]) with 1; lia).
    change (line ++ Py.LF :: nxt ++ Py.LF :: flat post0)
      with (line ++ [Py.LF] ++ (nxt ++ Py.LF :: flat post0)).
    rewrite (app_assoc line [Py.LF]).
    rewrite text_drop by (pose proof (len_nonneg (line ++ [Py.LF])); lia).
    unfold Py.len. rewrite !Nat2Z.id, take_ge, drop_ge by lia.
    now rewrite <- !app_assoc.
Qed.

Lemma delete_char_splices_text_witness :
  exists e',
    delete_char (sample ab_cb 0 2) = Ok e' /\
    flat (lines (buf e')) = Py.lit "abcb" ++ [Py.LF] /\ offset e' = 2.
Proof.
  destruct (delete_char_splices_text (sample ab_cb 0 2)
              ltac:(split; [by_compute | exists (Py.lit "ab"); by_compute]))
    as (e' & He & _ & Ho & _ & Hs).
  exists e'. split; [exact He|]. split; [exact (Hs ltac:(by_compute)) | exact Ho].
Defined.

(** X4.  The left and right arrows walk the text one position at a time,
    stopping at its start and at the line feed that ends it, and change
    nothing in the buffer. *)
Theorem arrows_walk_text (e : Editor) :
  cursor_ok e ->
  (exists e',
      move_left e = Ok e' /\ buf e' = buf e /\ cursor_ok e' /\
      offset e' = Z.max 0 (offset e - 1)) /\
  (exists e',
      move_right e = Ok e' /\ buf e' = buf e /\ cursor_ok e' /\
      offset e' = Z.min (Py.len (flat (lines (buf e))) - 1) (offset e + 1)).
Proof.
  intros Hok. destruct (cursor_ok_split e Hok) as (pre & line & post & Hl & Hy & Hx).
  pose proof (offset_split e pre post line Hl Hy) as Hoff.
  pose proof (len_nonneg (flat pre)) as HF.
  split.
  - destruct (move_left_split e pre post line Hl Hy Hx) as (e' & He & Hb & Hcases).
    exists e'. split; [exact He|]. split; [exact Hb|].
    split; [now apply (move_left_keeps e)|].
    assert (Hl' : lines (buf e') = pre ++ line :: post) by now rewrite Hb.
    destruct Hcases as [(Hpos & Hy' & Hx')
                       |[(Hx0 & -> & Hy' & Hx')
                        |(Hx0 & pre0 & prev & -> & Hy' & Hx')]].
    + rewrite Hy in Hy'. rewrite (offset_split e' pre post _ Hl' Hy'). lia.
    + rewrite Hy in Hy'. rewrite (offset_split e' [] post _ Hl' Hy'), Hoff.
      change (Py.len (flat [])) with 0. lia.
    + rewrite len_flat_snoc in Hoff. rewrite <- app_assoc in Hl'. cbn [app] in Hl'.
      rewrite (offset_split e' pre0 _ _ Hl')
        by (rewrite Hy', Hy, len_app; change (Py.len [prev]) with 1; lia).
      pose proof (len_nonneg (flat pre0)). pose proof (len_nonneg prev). lia.
  - destruct (move_right_split e pre post line Hl Hy Hx) as (e' & He & Hb & Hcases).
    exists e'. split; [exact He|]. split; [exact Hb|].
    split; [now apply (move_right_keeps e)|].
    assert (Hl' : lines (buf e') = pre ++ line :: post) by now rewrite Hb.
    assert (Hlen : Py.len (flat (lines (buf e)))
                   = Py.len (flat pre) + Py.len line + 1 + Py.len (flat post)).
    { rewrite Hl, flat_middle, !len_app.
      change (Py.LF :: flat post) with ([Py.LF] ++ flat post). rewrite len_app.
      change (Py.len [Py.LF]) with 1. lia. }
    pose proof (len_nonneg (flat post)) as HR.
    destruct Hcases as [(Hlt & Hy' & Hx')
                       |[(Hend & -> & Hy' & Hx')
                        |(Hend & Hpost & Hy' & Hx')]].
    + rewrite Hy in Hy'. rewrite (offset_split e' pre post _ Hl' Hy'). lia.
    + rewrite Hy in Hy'. rewrite (offset_split e' pre [] _ Hl' Hy').
      change (flat []) with (@nil N) in Hlen. change (Py.len []) with 0 in Hlen. lia.
    + destruct post as [|nxt post0]; [congruence|].
      assert (Hl2 : lines (buf e') = (pre ++ [line]) ++ nxt :: post0)
        by (now rewrite <- app_assoc).
      rewrite (offset_split e' _ _ _ Hl2)
        by (rewrite Hy', Hy, len_app; reflexivity).
      rewrite len_flat_snoc. rewrite flat_cons in Hlen.
      change (Py.LF :: flat post0) with ([Py.LF] ++ flat post0) in Hlen.
      rewrite !len_app in Hlen. change (Py.len [Py.LF]) with 1 in Hlen.
      pose proof (len_nonneg nxt). pose proof (len_nonneg (flat post0)). lia.
Qed.

Lemma arrows_walk_text_witness :
  exists e',
    move_right (sample ab_cb 0 2) = Ok e' /\ offset e' = 3 /\ cy e' = 1 /\ cx e' = 0.
Proof.
  destruct (proj2 (arrows_walk_text (sample ab_cb 0 2)
                     ltac:(split; [by_compute | exists (Py.lit "ab"); by_compute])))
    as (e' & He & _ & _ & Ho).
  exists e'. split; [exact He|]. split; [exact Ho|].
  vm_compute in He. injection He as <-. split; reflexivity.
Defined.

(** ** How the operations compose *)

Lemma len_text (pre post : list pystr) (line : pystr) :
  Py.len (flat (pre ++ line :: post))
  = Py.len (flat pre) + Py.len line + 1 + Py.len (flat post).
Proof.
  rewrite flat_middle, !len_app.
  change (Py.LF :: flat post) with ([Py.LF] ++ flat post). rewrite len_app.
  change (Py.len [Py.LF]) with 1. lia.
Qed.

(** X5.  Away from the end of the text, forward delete is the right arrow
    followed by backspace: both leave the same lines and the same
    cursor. *)
Theorem delete_is_right_then_backspace (e : Editor) :
  cursor_ok e -> offset e + 1 < Py.len (flat (lines (buf e))) ->
  exists e1 e2 e3,
    move_right e = Ok e1 /\ backspace e1 = Ok e2 /\ delete_char e = Ok e3 /\
    lines (buf e2) = lines (buf e3) /\ cy e2 = cy e3 /\ cx e2 = cx e3 /\
    modified (buf e2) = modified (buf e3).
Proof.
  intros Hok Hnotend.
  destruct (cursor_ok_split e Hok) as (pre & line & post & Hl & Hy & Hx).
  rewrite (offset_split e pre post line Hl Hy), Hl, len_text in Hnotend.
  destruct (move_right_split e pre post line Hl Hy Hx) as (e1 & He1 & Hb1 & Hc1).
  destruct (delete_char_split e pre post line Hl Hy Hx) as (e3 & He3 & Hy3 & Hx3 & Hc3).
  assert (Hl1 : lines (buf e1) = pre ++ line :: post) by now rewrite Hb1.
  destruct Hc1 as [(Hlt & Hy1 & Hx1)|[(Hend & -> & _)|(Hend & Hpost & Hy1 & Hx1)]].
  - destruct (backspace_split e1 pre post line Hl1 ltac:(lia) ltac:(lia))
      as (e2 & He2 & Hc2).
    exists e1, e2, e3. repeat (split; [assumption|]).
    destruct Hc2 as [(_ & Hl2 & Hy2 & Hx2 & Hm2)|[(? & _)|(? & _)]]; [|lia|lia].
    destruct Hc3 as [(_ & Hl3 & Hm3)|[(? & _)|(? & _)]]; [|lia|lia].
    rewrite Hl2, Hl3, Hx1, Hm2, Hm3.
    replace (cx e + 1 - 1) with (cx e) by lia. repeat split; lia.
  - change (Py.len (flat [])) with 0 in Hnotend. lia.
  - destruct post as [|nxt post0]; [congruence|].
    assert (Hl1' : lines (buf e1) = (pre ++ [line]) ++ nxt :: post0)
      by (now rewrite Hl1, <- app_assoc).
    destruct (backspace_split e1 (pre ++ [line]) post0 nxt Hl1'
                ltac:(rewrite Hy1, Hy, len_app; reflexivity)
                ltac:(pose proof (len_nonneg nxt); lia))
      as (e2 & He2 & Hc2).
    exists e1, e2, e3. repeat (split; [assumption|]).
    destruct Hc2 as [(? & _)|[(_ & Hnil & _)|(_ & pre0 & prev & Hsn & Hl2 & Hy2 & Hx2 & Hm2)]];
      [lia | now destruct pre |].
    apply app_inj_tail in Hsn as [<- <-].
    destruct Hc3 as [(? & _)|[(_ & ? & _)|(_ & nxt' & post' & [= <- <-] & Hl3 & Hm3)]];
      [lia | discriminate |].
    rewrite Hl2, Hl3, Hm2, Hm3. repeat split; lia.
Qed.

Lemma delete_is_right_then_backspace_witness :
  exists e1 e2 e3,
    move_right (sample ab_cb 0 2) = Ok e1 /\ backspace e1 = Ok e2 /\
    delete_char (sample ab_cb 0 2) = Ok e3 /\
    lines (buf e2) = lines (buf e3) /\ cy e2 = cy e3 /\ cx e2 = cx e3 /\
    modified (buf e2) = modified (buf e3).
Proof.
  apply (delete_is_right_then_backspace (sample ab_cb 0 2));
    [split; [by_compute | exists (Py.lit "ab"); by_compute] | by_compute].
Defined.

(** X6.  The two horizontal arrows undo each other: right then left returns
    to the cursor it started from unless the cursor is at the end of the
    text, and left then right unless it is at the start. *)
Theorem arrows_undo_each_other (e : Editor) :
  cursor_ok e ->
  (offset e + 1 < Py.len (flat (lines (buf e))) ->
   exists e1 e2,
     move_right e = Ok e1 /\ move_left e1 = Ok e2 /\
     buf e2 = buf e /\ cy e2 = cy e /\ cx e2 = cx e) /\
  (0 < offset e ->
   exists e1 e2,
     move_left e = Ok e1 /\ move_right e1 = Ok e2 /\
     buf e2 = buf e /\ cy e2 = cy e /\ cx e2 = cx e).
Proof.
  intros Hok.
  destruct (cursor_ok_split e Hok) as (pre & line & post & Hl & Hy & Hx).
  pose proof (offset_split e pre post line Hl Hy) as Hoff.
  split.
  - intros Hnotend. rewrite Hoff, Hl, len_text in Hnotend.
    destruct (move_right_split e pre post line Hl Hy Hx) as (e1 & He1 & Hb1 & Hc1).
    assert (Hl1 : lines (buf e1) = pre ++ line :: post) by now rewrite Hb1.
    destruct Hc1 as [(Hlt & Hy1 & Hx1)|[(Hend & -> & _)|(Hend & Hpost & Hy1 & Hx1)]].
    + destruct (move_left_split e1 pre post line Hl1 ltac:(lia) ltac:(lia))
        as (e2 & He2 & Hb2 & Hc2).
      exists e1, e2. repeat (split; [assumption|]).
      split; [congruence|].
      destruct Hc2 as [(_ & Hy2 & Hx2)|[(? & _)|(? & _)]]; lia.
    + change (Py.len (flat [])) with 0 in Hnotend. lia.
    + destruct post as [|nxt post0]; [congruence|].
      assert (Hl1' : lines (buf e1) = (pre ++ [line]) ++ nxt :: post0)
        by (now rewrite Hl1, <- app_assoc).
      destruct (move_left_split e1 (pre ++ [line]) post0 nxt Hl1'
                  ltac:(rewrite Hy1, Hy, len_app; reflexivity)
                  ltac:(pose proof (len_nonneg nxt); lia))
        as (e2 & He2 & Hb2 & Hc2).
      exists e1, e2. repeat (split; [assumption|]).
      split; [congruence|].
      destruct Hc2 as [(? & _)|[(_ & Hnil & _)|(_ & pre0 & prev & Hsn & Hy2 & Hx2)]];
        [lia | now destruct pre |].
      apply app_inj_tail in Hsn as [<- <-]. lia.
  - intros Hnotstart. rewrite Hoff in Hnotstart.
    destruct (move_left_split e pre post line Hl Hy Hx) as (e1 & He1 & Hb1 & Hc1).
    assert (Hl1 : lines (buf e1) = pre ++ line :: post) by now rewrite Hb1.
    destruct Hc1 as [(Hpos & Hy1 & Hx1)
                    |[(Hx0 & -> & _)|(Hx0 & pre0 & prev & -> & Hy1 & Hx1)]].
    + destruct (move_right_split e1 pre post line Hl1 ltac:(lia) ltac:(lia))
        as (e2 & He2 & Hb2 & Hc2).
      exists e1, e2. repeat (split; [assumption|]).
      split; [congruence|].
      destruct Hc2 as [(_ & Hy2 & Hx2)|[(? & _)|(? & _)]]; lia.
    + change (Py.len (flat [])) with 0 in Hnotstart. lia.
    + assert (Hl1' : lines (buf e1) = pre0 ++ prev :: line :: post)
        by (now rewrite Hl1, <- app_assoc).
      destruct (move_right_split e1 pre0 (line :: post) prev Hl1'
                  ltac:(rewrite Hy1, Hy, len_app; change (Py.len [prev]) with 1; lia)
                  ltac:(pose proof (len_nonneg prev); lia))
        as (e2 & He2 & Hb2 & Hc2).
      exists e1, e2. repeat (split; [assumption|]).
      split; [congruence|].
      destruct Hc2 as [(? & _)|[(_ & ? & _)|(_ & _ & Hy2 & Hx2)]];
        [lia | discriminate |].
      rewrite Hy, len_app in *. change (Py.len [prev]) with 1 in *. lia.
Qed.

Lemma arrows_undo_each_other_witness :
  exists e1 e2,
    move_right (sample ab_cb 0 2) = Ok e1 /\ move_left e1 = Ok e2 /\
    buf e2 = buf (sample ab_cb 0 2) /\ cy e2 = 0 /\ cx e2 = 2.
Proof.
  apply (proj1 (arrows_undo_each_other (sample ab_cb 0 2)
                  ltac:(split; [by_compute | exists (Py.lit "ab"); by_compute])));
    by_compute.
Defined.

(** X7.  Typing a character and then backspacing gives back the lines and
    the cursor. *)
Theorem insert_char_then_backspace (c : pychar) (e : Editor) :
  cursor_ok e ->
  exists e1 e2,
    insert_char c e = Ok e1 /\ backspace e1 = Ok e2 /\
    lines (buf e2) = lines (buf e) /\ cy e2 = cy e /\ cx e2 = cx e.
Proof.
  intros Hok.
  destruct (cursor_ok_split e Hok) as (pre & line & post & Hl & Hy & Hx).
  destruct (insert_char_split e pre post line Hl Hy Hx c)
    as (e1 & He1 & Hl1 & Hy1 & Hx1 & _).
  set (k := Z.to_nat (cx e)) in *.
  assert (Hk : (k <= length line)%nat) by (unfold Py.len in Hx; lia).
  assert (Hlen1 : Py.len (take k line ++ c :: drop k line) = Py.len line + 1).
  { unfold Py.len. rewrite length_app, length_take. cbn. rewrite length_drop. lia. }
  destruct (backspace_split e1 pre post _ Hl1 ltac:(lia) ltac:(lia))
    as (e2 & He2 & Hc2).
  exists e1, e2. repeat (split; [assumption|]).
  destruct Hc2 as [(_ & Hl2 & Hy2 & Hx2 & _)|[(? & _)|(? & _)]]; [|lia|lia].
  split; [|lia]. rewrite Hl2, Hl, Hx1. do 2 f_equal.
  replace (Z.to_nat (cx e + 1 - 1)) with k by lia.
  replace (Z.to_nat (cx e + 1)) with (S k) by lia.
  rewrite take_app_le by (rewrite length_take; lia).
  rewrite take_take, Nat.min_id.
  change (take k line ++ c :: drop k line) with (take k line ++ [c] ++ drop k line).
  rewrite app_assoc.
  rewrite drop_app_length' by (rewrite length_app, length_take; cbn; lia).
  apply take_drop.
Qed.

Lemma insert_char_then_backspace_witness :
  exists e1 e2,
    insert_char 120%N (sample ab_cb 1 1) = Ok e1 /\ backspace e1 = Ok e2 /\
    lines (buf e2) = ab_cb /\ cy e2 = 1 /\ cx e2 = 1.
Proof.
  apply (insert_char_then_backspace 120%N (sample ab_cb 1 1)).
  split; [by_compute | exists (Py.lit "cb"); by_compute].
Defined.

(** ** The prompt *)





(** With the position inside the text, the prompt reads keys up to the
    first Enter or Escape and returns there; without such a key it ends
    in the error of [get_wch].  It raises nothing else. *)
Lemma prompt_loop_outcome (input : list key) (chars : pystr) (pos : Z) :
  0 <= pos <= Py.len chars ->
  (Forall (fun k => ends_prompt k = false) input ->
   prompt_loop chars pos input = Raise Py.CursesError) /\
  (forall before k rest,
      input = before ++ k :: rest ->
      Forall (fun k => ends_prompt k = false) before -> ends_prompt k = true ->
      exists r, prompt_loop chars pos input = Ok (r, rest) /\
                (k = KStr 10%N -> r <> None) /\ (k = KStr 27%N -> r = None)).
Proof.
  revert chars pos. induction input as [|k0 input IH]; intros chars pos Hpos.
  { split; [reflexivity|]. intros [|? ?] ? ? [=]. }
  assert (Hstep : ends_prompt k0 = false ->
                  exists chars' pos', 0 <= pos' <= Py.len chars' /\
                    prompt_loop chars pos (k0 :: input) = prompt_loop chars' pos' input).
  { intros Hk0. cbn [prompt_loop]. destruct k0 as [ch|code].
    - cbn in Hk0. apply orb_false_iff in Hk0 as [-> ->].
      destruct ((ch =? 127)%N || (ch =? 8)%N).
      + destruct (Z.gtb_spec pos 0); [|now exists chars, pos].
        destruct (lookup_lt_is_Some_2 chars (Z.to_nat (pos - 1))) as [x Hx];
          [unfold Py.len in Hpos; lia|].
        rewrite (pop_lookup _ _ x) by (lia || exact Hx). simpl_result.
        exists (delete (Z.to_nat (pos - 1)) chars), (pos - 1). split; [|reflexivity].
        unfold Py.len in *. rewrite length_delete by eauto. lia.
      + destruct (Py.ord ch >=? 32); [|now exists chars, pos].
        exists (Py.insert chars pos ch), (pos + 1). split; [|reflexivity].
        rewrite insert_in_range by exact Hpos. unfold Py.len in *.
        rewrite length_app, length_take. cbn. rewrite length_drop. lia.
    - destruct (Z.eqb_spec code KEY_LEFT), (Z.gtb_spec pos 0); cbn [andb];
        try (exists chars, (pos - 1); split; [lia | reflexivity]);
        destruct (Z.eqb_spec code KEY_RIGHT), (Z.ltb_spec pos (Py.len chars)); cbn [andb];
        try (exists chars, (pos + 1); split; [lia | reflexivity]);
        now exists chars, pos. }
  split.
  - intros Hall. apply Forall_cons in Hall as [Hk0 Hall].
    destruct (Hstep Hk0) as (chars' & pos' & Hpos' & ->). now apply IH.
  - intros before k rest Hin Hbefore Hk. destruct before as [|b before].
    + injection Hin as <- <-. destruct k0 as [ch|code]; [|discriminate]. cbn in Hk.
      cbn [prompt_loop]. destruct (N.eqb_spec ch 10) as [->|Hne].
      * eexists. split; [reflexivity|]. split; [discriminate | discriminate].
      * cbn in Hk. apply N.eqb_eq in Hk as ->. eexists. split; [reflexivity|].
        split; [congruence | reflexivity].
    + injection Hin as <- ->. apply Forall_cons in Hbefore as [Hk0 Hbefore].
      destruct (Hstep Hk0) as (chars' & pos' & Hpos' & ->).
      now apply (proj2 (IH chars' pos' Hpos') before k rest).
Qed.





(** ** No IndexError *)

Lemma ensure_cursor_visible_screen e : stdscr (ensure_cursor_visible e) = stdscr e.
Proof. apply ensure_cursor_visible_frame. Qed.

Lemma index_safe_ensure (e : Editor) :
  index_safe (ensure_cursor_visible e) <-> index_safe e.
Proof.
  unfold index_safe.
  now rewrite ensure_cursor_visible_buf, ensure_cursor_visible_cy,
    ensure_cursor_visible_cx.
Qed.

Lemma row_split (e : Editor) :
  0 <= cy e < Py.len (lines (buf e)) ->
  exists pre line post, lines (buf e) = pre ++ line :: post /\ cy e = Py.len pre.
Proof.
  intros Hy.
  destruct (lookup_lt_is_Some_2 (lines (buf e)) (Z.to_nat (cy e))) as [line Hline];
    [unfold Py.len in Hy; lia|].
  exists (take (Z.to_nat (cy e)) (lines (buf e))), line,
    (drop (S (Z.to_nat (cy e))) (lines (buf e))).
  split; [symmetry; now apply take_drop_middle|].
  apply lookup_lt_Some in Hline. unfold Py.len. rewrite length_take. lia.
Qed.

Ltac len_lia := unfold Py.len in *; rewrite ?length_app in *; cbn [length] in *; lia.

(** What "the operation raises nothing and keeps the indices safe"
    means for an operation on the editor. *)
Local Abbreviation safe_step op e :=
  (exists e', op = Ok e' /\ index_safe e' /\ stdscr e' = stdscr e).

Ltac finish_safe Hl :=
  eexists; split; [reflexivity|];
  rewrite ?index_safe_ensure, ?ensure_cursor_visible_screen;
  split; [unfold index_safe; cbn; rewrite ?Hl; len_lia | reflexivity].

Section SafeSteps.
Variables (e : Editor) (pre post : list pystr) (line : pystr).
Hypothesis Hl : lines (buf e) = pre ++ line :: post.
Hypothesis Hy : cy e = Py.len pre.
Hypothesis Hx : 0 <= cx e.

Lemma move_left_safe : safe_step (move_left e) e.
Proof.
  unfold move_left. destruct (Z.gtb_spec (cx e) 0).
  - simpl_result. finish_safe Hl.
  - destruct (list_snoc_or_nil pre) as [->|(pre0 & prev & ->)].
    + rewrite Hy. cbn [Py.len length Z.of_nat Z.gtb Z.compare]. simpl_result.
      finish_safe Hl.
    + replace (cy e >? 0) with true by (symmetry; apply Z.gtb_lt; len_lia).
      cbn [cy buf set_cy].
      replace (cy e - 1) with (Py.len pre0) by len_lia.
      rewrite Hl, <- app_assoc. cbn [app]. rewrite getitem_middle. simpl_result.
      eexists. split; [reflexivity|].
      rewrite index_safe_ensure, ensure_cursor_visible_screen.
      split; [|reflexivity]. unfold index_safe. cbn. rewrite Hl. len_lia.
Qed.

Lemma move_right_safe : safe_step (move_right e) e.
Proof.
  unfold move_right. rewrite Hl, Hy, getitem_middle. simpl_result.
  eexists. split; [reflexivity|].
  rewrite index_safe_ensure, ensure_cursor_visible_screen.
  destruct (cx e <? Py.len line).
  - split; [|reflexivity]. unfold index_safe. cbn. rewrite Hl. len_lia.
  - destruct (Z.ltb_spec (Py.len pre) (Py.len (pre ++ line :: post) - 1)).
    + split; [|reflexivity]. unfold index_safe. cbn. rewrite Hl. len_lia.
    + split; [|reflexivity]. unfold index_safe. rewrite Hl. len_lia.
Qed.

Lemma move_up_safe : safe_step (move_up e) e.
Proof.
  unfold move_up.
  destruct (list_snoc_or_nil pre) as [->|(pre0 & prev & ->)].
  - rewrite Hy. cbn [Py.len length Z.of_nat Z.gtb Z.compare]. simpl_result.
    finish_safe Hl.
  - replace (cy e >? 0) with true by (symmetry; apply Z.gtb_lt; len_lia).
    cbn [cy cx buf set_cy].
    replace (cy e - 1) with (Py.len pre0) by len_lia.
    rewrite Hl, <- app_assoc. cbn [app]. rewrite getitem_middle. simpl_result.
    eexists. split; [reflexivity|].
    rewrite index_safe_ensure, ensure_cursor_visible_screen.
    split; [|reflexivity]. unfold index_safe. cbn. rewrite Hl. len_lia.
Qed.

Lemma move_down_safe : safe_step (move_down e) e.
Proof.
  unfold move_down. rewrite Hl, Hy.
  destruct (Z.ltb_spec (Py.len pre) (Py.len (pre ++ line :: post) - 1)) as [Hlt|].
  - destruct post as [|nxt post0]; [len_lia|].
    cbn [cy cx buf set_cy]. rewrite ?Hl, ?Hy.
    replace (pre ++ line :: nxt :: post0) with ((pre ++ [line]) ++ nxt :: post0)
      by (now rewrite <- app_assoc).
    replace (Py.len pre + 1) with (Py.len (pre ++ [line])) by len_lia.
    rewrite getitem_middle. simpl_result.
    eexists. split; [reflexivity|].
    rewrite index_safe_ensure, ensure_cursor_visible_screen.
    split; [|reflexivity]. unfold index_safe. cbn. rewrite Hl. len_lia.
  - simpl_result. eexists. split; [reflexivity|].
    rewrite index_safe_ensure, ensure_cursor_visible_screen.
    split; [|reflexivity]. unfold index_safe. rewrite Hl. len_lia.
Qed.

Lemma insert_char_safe (c : pychar) : safe_step (insert_char c e) e.
Proof.
  unfold insert_char. rewrite Hl, Hy, getitem_middle. simpl_result.
  rewrite setitem_middle. simpl_result. finish_safe Hl.
Qed.

Lemma insert_newline_safe : safe_step (insert_newline e) e.
Proof.
  unfold insert_newline. rewrite Hl, Hy, getitem_middle. simpl_result.
  rewrite setitem_middle. simpl_result.
  eexists. split; [reflexivity|].
  rewrite index_safe_ensure, ensure_cursor_visible_screen.
  split; [|reflexivity]. unfold index_safe. cbn. unfold Py.insert.
  unfold Py.len. rewrite length_app, length_take. cbn. rewrite length_drop.
  rewrite !length_app. cbn. lia.
Qed.

Lemma backspace_safe : safe_step (backspace e) e.
Proof.
  unfold backspace. destruct (Z.gtb_spec (cx e) 0).
  - rewrite Hl, Hy, getitem_middle. simpl_result.
    rewrite setitem_middle. simpl_result. finish_safe Hl.
  - destruct (list_snoc_or_nil pre) as [->|(pre0 & prev & ->)].
    + rewrite Hy. cbn [Py.len length Z.of_nat Z.gtb Z.compare].
      finish_safe Hl.
    + replace (cy e >? 0) with true by (symmetry; apply Z.gtb_lt; len_lia).
      replace (cy e - 1) with (Py.len pre0) by len_lia.
      rewrite Hl, Hy. rewrite <- app_assoc. cbn [app].
      rewrite getitem_middle. simpl_result.
      replace (pre0 ++ prev :: line :: post) with ((pre0 ++ [prev]) ++ line :: post)
        by (now rewrite <- app_assoc).
      rewrite pop_middle. simpl_result.
      cbn [cy cx buf lines set_cx set_cy set_buf_lines set_buf set_lines].
      replace (Py.len (pre0 ++ [prev]) - 1) with (Py.len pre0) by len_lia.
      rewrite <- app_assoc. cbn [app]. rewrite setitem_middle. simpl_result.
      finish_safe Hl.
Qed.

Lemma delete_char_safe : safe_step (delete_char e) e.
Proof.
  unfold delete_char. rewrite Hl, Hy, getitem_middle. simpl_result.
  destruct (cx e <? Py.len line).
  - rewrite setitem_middle. simpl_result. finish_safe Hl.
  - destruct (Z.ltb_spec (Py.len pre) (Py.len (pre ++ line :: post) - 1)) as [Hlt|].
    + destruct post as [|nxt post0]; [len_lia|].
      replace (pre ++ line :: nxt :: post0) with ((pre ++ [line]) ++ nxt :: post0)
        by (now rewrite <- app_assoc).
      replace (Py.len pre + 1) with (Py.len (pre ++ [line])) by len_lia.
      rewrite pop_middle. simpl_result. rewrite <- app_assoc. cbn [app].
      rewrite setitem_middle. simpl_result. finish_safe Hl.
    + finish_safe Hl.
Qed.

End SafeSteps.

Lemma find_safe (term : pystr) (e : Editor) :
  index_safe e ->
  exists found e',
    find term e = Ok (found, e') /\ index_safe e' /\ stdscr e' = stdscr e.
Proof.
  intros [Hy Hx]. rewrite find_scan_order by exact Hy.
  destruct (first_match _ _ _) as [[y x]|] eqn:Hfm.
  - eexists _, _. split; [reflexivity|].
    apply first_match_Some in Hfm as (c & l & Hin & Hl & Hxl & Hne).
    apply scan_order_rows in Hin; [|lia].
    symmetry in Hxl. destruct (find_found l term c x Hxl Hne) as (Hx0 & _).
    pose proof (lookup_in_range _ _ _ Hin Hl).
    unfold found_at, index_safe. cbn.
    rewrite ensure_cursor_visible_buf, ensure_cursor_visible_cy,
      ensure_cursor_visible_cx, ensure_cursor_visible_screen. cbn. auto.
  - eexists _, _. split; [reflexivity|]. split; [split; assumption | reflexivity].
Qed.

Lemma replace_all_safe (f r : pystr) (e : Editor) :
  index_safe e ->
  exists n e',
    replace_all f r e = Ok (n, e') /\ index_safe e' /\ stdscr e' = stdscr e.
Proof.
  intros [Hy Hx]. rewrite replace_all_map. eexists _, _. split; [reflexivity|].
  cbv zeta. destruct (total_count f (lines (buf e)) >? 0);
    (split; [|reflexivity]); unfold index_safe; cbn;
    unfold Py.len in *; rewrite length_map; auto.
Qed.

Lemma first_ending_key (input : list key) :
  Forall (fun k => ends_prompt k = false) input \/
  exists before k rest,
    input = before ++ k :: rest /\
    Forall (fun k => ends_prompt k = false) before /\ ends_prompt k = true.
Proof.
  induction input as [|k input [IH|(before & k' & rest & -> & Hb & Hk)]].
  - left. constructor.
  - destruct (ends_prompt k) eqn:Hk.
    + right. exists [], k, input. auto.
    + left. now constructor.
  - destruct (ends_prompt k) eqn:Hk0.
    + right. exists [], k, (before ++ k' :: rest). auto.
    + right. exists (k :: before), k', rest. repeat split; auto.
Qed.

(** A prompt returns with fewer keys left than it was given, or fails
    with the error of [get_wch]. *)
Lemma prompt_input_safe (prompt : string) (initial : pystr) (input : list key) :
  (exists r rest, prompt_input prompt initial input = Ok (r, rest) /\
                  (length rest < length input)%nat) \/
  prompt_input prompt initial input = Raise Py.CursesError.
Proof.
  assert (Hpos : 0 <= Py.len initial <= Py.len initial)
    by (pose proof (len_nonneg initial); lia).
  destruct (prompt_loop_outcome input initial (Py.len initial) Hpos) as [Hnone Hsome].
  destruct (first_ending_key input) as [Hall|(before & k & rest & Hin & Hb & Hk)].
  - right. now apply Hnone.
  - left. destruct (Hsome before k rest Hin Hb Hk) as (r & Hr & _).
    exists r, rest. split; [exact Hr|]. rewrite Hin, length_app. cbn. lia.
Qed.

Section LoopSafe.
Context {W : Type} `{FileSystem W}.

Lemma save_and_report_safe (rest input : list key) (w : W) (e0 e : Editor) :
  index_safe e0 -> stdscr e0 = stdscr e -> (length rest <= length input)%nat ->
  step_safe input e (save_and_report rest w e0).
Proof.
  intros [Hy Hx] Hscr Hlen. unfold save_and_report.
  pose proof (save_lines w (buf e0)) as Hl.
  destruct (save w (buf e0)) as [[w1 b1] [ok m]]. cbn in Hl. cbn.
  unfold index_safe. cbn. rewrite Hl. auto.
Qed.

Lemma exit_without_saving_safe (input : list key) (w : W) (e : Editor) :
  index_safe e -> step_safe input e (exit_without_saving input w e).
Proof.
  intros Hs. unfold exit_without_saving, confirm_prompt.
  destruct (prompt_input_safe "Exit without saving? (y/n)" (Py.lit "n") input)
    as [(r & rest & -> & Hlen)| ->]; simpl_result; [|cbn; auto].
  destruct r as [a|]; simpl_result;
    [destruct (Py.lower_strip_startswith_y a)|]; cbn; repeat split;
    try apply Hs; lia.
Qed.

(** One iteration of the loop of [run], from safe indices on a terminal
    of at least two rows, raises no [IndexError] and leaves the indices
    safe. *)
Lemma loop_body_safe (k : key) (input : list key) (w : W) (e : Editor) :
  index_safe e -> 2 <= scr_h (stdscr e) ->
  step_safe input e (loop_body k input w e).
Proof.
  intros Hs Hh. pose proof Hs as [Hy Hx].
  destruct (row_split e Hy) as (pre & line & post & Hl & Hyy).
  assert (Hsame : forall ctl, step_safe input e (Ok (ctl, input, w, e)))
    by (intros ctl; cbn; repeat split; try apply Hs; lia).
  assert (Hop : forall r : result Editor,
             (exists e', r = Ok e' /\ index_safe e' /\ stdscr e' = stdscr e) ->
             step_safe input e (e' ← r; Ok (Continue, input, w, e'))).
  { intros r (e' & -> & Hs' & Hscr). cbn. auto. }
  unfold loop_body. destruct k as [c|code].
  - destruct (c =? 17)%N.
    { destruct (modified (buf e)); [now apply exit_without_saving_safe|].
      unfold confirm_prompt.
      destruct (prompt_input_safe "Quit? (y/n)" (Py.lit "n") input)
        as [(r & rest & -> & Hlen)| ->]; simpl_result; [|cbn; auto].
      destruct r as [a|]; simpl_result;
        [destruct (Py.lower_strip_startswith_y a)|]; cbn; repeat split;
        try apply Hs; lia. }
    destruct (c =? 19)%N.
    { destruct (truthy_filename (buf e)); [now apply save_and_report_safe|].
      destruct (prompt_input_safe "Save as:" [] input)
        as [(r & rest & -> & Hlen)| ->]; simpl_result; [|cbn; auto].
      destruct r as [[|a fn]|];
        try (cbn; repeat split; try apply Hs; lia).
      apply save_and_report_safe; [exact Hs | reflexivity | lia]. }
    destruct ((c =? 8)%N || (c =? 127)%N);
      [apply Hop; now apply (backspace_safe e pre post line)|].
    destruct (c =? 10)%N;
      [apply Hop; now apply (insert_newline_safe e pre post line)|].
    destruct (c =? 3)%N; [cbn; auto|].
    destruct ((c =? 113)%N || (c =? 81)%N).
    { destruct (modified (buf e)); [now apply exit_without_saving_safe | apply Hsame]. }
    destruct (c =? 6)%N.
    { destruct (prompt_input_safe "Find:" [] input)
        as [(r & rest & -> & Hlen)| ->]; simpl_result; [|cbn; auto].
      destruct r as [[|a term]|];
        try (cbn; repeat split; try apply Hs; lia).
      destruct (find_safe (a :: term) e Hs) as (found & e' & -> & Hs' & Hscr).
      simpl_result. destruct found; cbn; repeat split; try apply Hs'; auto; lia. }
    destruct (c =? 18)%N.
    { destruct (prompt_input_safe "Replace - find:" [] input)
        as [(r & rest & -> & Hlen)| ->]; simpl_result; [|cbn; auto].
      destruct r as [[|a ft]|];
        try (cbn; repeat split; try apply Hs; lia).
      destruct (prompt_input_safe "Replace - with:" [] rest)
        as [(r2 & rest2 & -> & Hlen2)| ->]; simpl_result; [|cbn; auto].
      destruct r2 as [rt|];
        [|cbn; repeat split; try apply Hs; lia].
      destruct (prompt_input_safe "Replace all occurrences? (y/n):" [] rest2)
        as [(r3 & rest3 & -> & Hlen3)| ->]; simpl_result; [|cbn; auto].
      destruct r3 as [[|b ans]|];
        try (cbn; repeat split; try apply Hs; lia).
      destruct (Py.lower_startswith_y (b :: ans));
        [|cbn; repeat split; try apply Hs; lia].
      destruct (replace_all_safe (a :: ft) rt e Hs) as (n & e' & -> & Hs' & Hscr).
      simpl_result. cbn. repeat split; try apply Hs'; auto; lia. }
    destruct (Py.ord c >=? 32); [|apply Hsame].
    apply Hop. now apply (insert_char_safe e pre post line).
  - destruct (code =? KEY_LEFT); [apply Hop; now apply (move_left_safe e pre post line)|].
    destruct (code =? KEY_RIGHT); [apply Hop; now apply (move_right_safe e pre post line)|].
    destruct (code =? KEY_UP); [apply Hop; now apply (move_up_safe e pre post line)|].
    destruct (code =? KEY_DOWN); [apply Hop; now apply (move_down_safe e pre post line)|].
    destruct (code =? KEY_BACKSPACE);
      [apply Hop; now apply (backspace_safe e pre post line)|].
    destruct (code =? KEY_DC); [apply Hop; now apply (delete_char_safe e pre post line)|].
    destruct (code =? KEY_HOME); [cbn; unfold index_safe; cbn; repeat split; lia|].
    destruct (code =? KEY_END).
    { rewrite Hl, Hyy, getitem_middle. simpl_result. cbn. unfold index_safe. cbn.
      rewrite Hl. pose proof (len_nonneg line). repeat split; len_lia. }
    destruct ((code =? KEY_PPAGE) || (code =? KEY_NPAGE)); [|apply Hsame].
    cbn. rewrite index_safe_ensure, ensure_cursor_visible_screen.
    destruct (code =? KEY_PPAGE); unfold index_safe; cbn; repeat split; lia.
Qed.

End LoopSafe.

Section SessionSafe.
Context {W : Type} `{FileSystem W}.

(** The constructor leaves at least one line and a clear [modified]
    flag. *)
Lemma Buffer_init_nonempty (w0 : W) (fname : option pystr) (b : Buffer) :
  Buffer_init w0 fname = Ok b -> lines b <> [] /\ modified b = false.
Proof.
  unfold Buffer_init. intros Hinit.
  destruct fname as [[|c fn]|]; cbn in Hinit;
    try (injection Hinit as <-; split; [discriminate | reflexivity]).
  destruct (fs_exists w0 (c :: fn));
    [|injection Hinit as <-; split; [discriminate | reflexivity]].
  destruct (fs_read_lines w0 (c :: fn)) as [file_lines|]; [|discriminate Hinit].
  injection Hinit as <-. cbn.
  split; [|reflexivity]. now destruct (map Py.rstrip_nl file_lines).
Qed.

Lemma run_loop_safe (fuel : nat) (input : list key) (w : W) (e : Editor) :
  index_safe e -> 2 <= scr_h (stdscr e) ->
  match run_loop fuel input w e with
  | Ok (_, _, e') => index_safe e' /\ stdscr e' = stdscr e
  | Raise x => x = Py.KeyboardInterrupt \/ x = Py.CursesError
  end.
Proof.
  revert input w e. induction fuel as [|n IH]; intros input w e Hs Hh.
  - destruct input; cbn; auto.
  - destruct input as [|ch rest]; cbn [run_loop]; [auto|].
    pose proof (loop_body_safe ch rest w e Hs Hh) as Hstep.
    destruct (loop_body ch rest w e) as [[[[ctl rest'] w'] e']|x]; [|exact Hstep].
    cbn in Hstep. destruct Hstep as (Hs' & Hscr & _).
    destruct ctl; [|auto].
    specialize (IH rest' w' e' Hs' ltac:(rewrite Hscr; exact Hh)).
    destruct (run_loop n rest' w' e') as [[[ctl2 w2] e2]|x2]; [|exact IH].
    destruct IH as [Hs2 Hscr2]. split; [exact Hs2 | congruence].
Qed.


End SessionSafe.


(** ** No key adds a control character *)

Lemma doc_count_middle (d : pychar) (pre post : list pystr) (line : pystr) :
  doc_count d (pre ++ line :: post)
  = (doc_count d pre + count_occ N.eq_dec line d + doc_count d post)%nat.
Proof. rewrite doc_count_app. cbn. lia. Qed.

Section CountOnSplit.
Variables (d : pychar) (e : Editor) (pre post : list pystr) (line : pystr).
Hypothesis Hl : lines (buf e) = pre ++ line :: post.
Hypothesis Hy : cy e = Py.len pre.
Hypothesis Hx : 0 <= cx e.

Lemma insert_char_doc_count (c : pychar) (e' : Editor) :
  c <> d -> insert_char c e = Ok e' ->
  doc_count d (lines (buf e')) = doc_count d (lines (buf e)).
Proof.
  intros Hcd. unfold insert_char. rewrite Hl, Hy, getitem_middle. simpl_result.
  rewrite setitem_middle. simpl_result. intros [= <-]. cbn.
  rewrite !doc_count_middle, !count_occ_app. cbn [count_occ].
  pose proof (count_occ_app N.eq_dec (Py.slice_to line (cx e))
                (Py.slice_from line (cx e)) d) as Happ.
  rewrite slice_to_from in Happ. destruct (N.eq_dec c d); [congruence|]. lia.
Qed.

Lemma delete_char_doc_count (e' : Editor) :
  delete_char e = Ok e' ->
  (doc_count d (lines (buf e')) <= doc_count d (lines (buf e)))%nat.
Proof.
  unfold delete_char. rewrite Hl, Hy, getitem_middle. simpl_result.
  destruct (cx e <? Py.len line).
  - rewrite setitem_middle. simpl_result. intros [= <-]. cbn.
    rewrite !doc_count_middle.
    pose proof (count_occ_cut d line (Py.clamp_bound line (cx e))
                  (Py.clamp_bound line (cx e + 1))
                  (clamp_bound_mono line (cx e) (cx e + 1) ltac:(lia))).
    unfold Py.slice_to, Py.slice_from. lia.
  - destruct (Z.ltb_spec (Py.len pre) (Py.len (pre ++ line :: post) - 1)) as [Hlt|];
      [|intros [= <-]; now rewrite Hl].
    destruct post as [|nxt post0]; [len_lia|].
    replace (pre ++ line :: nxt :: post0) with ((pre ++ [line]) ++ nxt :: post0)
      by (now rewrite <- app_assoc).
    replace (Py.len pre + 1) with (Py.len (pre ++ [line])) by len_lia.
    rewrite pop_middle. simpl_result. rewrite <- !app_assoc. cbn [app].
    rewrite setitem_middle. simpl_result. intros [= <-]. cbn.
    rewrite !doc_count_middle, count_occ_app. cbn. lia.
Qed.

End CountOnSplit.

Lemma move_keeps_buf (e e' : Editor) :
  move_left e = Ok e' \/ move_right e = Ok e' \/ move_up e = Ok e' \/
  move_down e = Ok e' ->
  buf e' = buf e.
Proof.
  intros [Hm|[Hm|[Hm|Hm]]];
    [unfold move_left in Hm | unfold move_right in Hm | unfold move_up in Hm
    | unfold move_down in Hm];
    crack_result;
    repeat match goal with |- context [if ?b then _ else _] => destruct b end;
    now rewrite ensure_cursor_visible_buf.
Qed.

Section NoControl.
Context {W : Type} `{FileSystem W}.

Lemma loop_body_no_control (d : pychar) (k : key) (input rest : list key)
  (w w' : W) (e e' : Editor) (ctl : control) :
  index_safe e -> Py.ord d < 32 ->
  loop_body k input w e = Ok (ctl, rest, w', e') ->
  (doc_count d (lines (buf e')) <= doc_count d (lines (buf e)))%nat.
Proof.
  intros [Hy Hx] Hd Hb.
  destruct (row_split e Hy) as (pre & line & post & Hl & Hyy).
  unfold loop_body in Hb. destruct k as [c|code].
  - destruct (c =? 17)%N.
    { destruct (modified (buf e)).
      - now rewrite (exit_without_saving_lines _ _ _ _ _ _ _ Hb).
      - crack_result; reflexivity. }
    destruct (c =? 19)%N.
    { destruct (truthy_filename (buf e)).
      - now rewrite (save_and_report_lines _ _ _ _ _ _ _ Hb).
      - crack_result; try reflexivity;
          match goal with
          | Hs : save_and_report _ _ _ = _ |- _ =>
              now rewrite (save_and_report_lines _ _ _ _ _ _ _ Hs)
          end. }
    destruct ((c =? 8)%N || (c =? 127)%N).
    { destruct (backspace e) as [e1|] eqn:Hbs; simpl_result_in Hb; [|discriminate].
      injection Hb as _ _ _ <-. now apply backspace_doc_count. }
    destruct (c =? 10)%N.
    { destruct (insert_newline e) as [e1|] eqn:Hnl; simpl_result_in Hb; [|discriminate].
      injection Hb as _ _ _ <-. now rewrite (insert_newline_doc_count d e e1). }
    destruct (c =? 3)%N; [discriminate|].
    destruct ((c =? 113)%N || (c =? 81)%N).
    { destruct (modified (buf e)).
      - now rewrite (exit_without_saving_lines _ _ _ _ _ _ _ Hb).
      - now injection Hb as _ _ _ <-. }
    destruct (c =? 6)%N.
    { destruct (prompt_input "Find:" [] input) as [[[[|a term]|] rest1]|];
        simpl_result_in Hb; try discriminate; try (now injection Hb as _ _ _ <-).
      destruct (find (a :: term) e) as [[found e1]|] eqn:Hf; simpl_result_in Hb;
        [|discriminate].
      apply find_buf in Hf. destruct found; injection Hb as _ _ _ <-; cbn;
        now rewrite Hf. }
    destruct (c =? 18)%N.
    { destruct (prompt_input "Replace - find:" [] input) as [[[[|a ft]|] rest1]|];
        simpl_result_in Hb; try discriminate; try (now injection Hb as _ _ _ <-).
      destruct (prompt_input "Replace - with:" [] rest1) as [[[rt|] rest2]|] eqn:Hrt;
        simpl_result_in Hb; try discriminate; try (now injection Hb as _ _ _ <-).
      destruct (prompt_input "Replace all occurrences? (y/n):" [] rest2)
        as [[[[|b ans]|] rest3]|];
        simpl_result_in Hb; try discriminate; try (now injection Hb as _ _ _ <-).
      destruct (Py.lower_startswith_y (b :: ans)); [|now injection Hb as _ _ _ <-].
      destruct (replace_all (a :: ft) rt e) as [[n e1]|] eqn:Hra; simpl_result_in Hb;
        [|discriminate].
      injection Hb as _ _ _ <-. cbn.
      apply (replace_all_doc_count d _ _ _ _ _ (printable_without_control d rt Hd
               (prompt_input_printable _ _ _ _ Hrt)) Hra). }
    destruct (Z.geb_spec (Py.ord c) 32) as [Hc|]; [|now injection Hb as _ _ _ <-].
    destruct (insert_char c e) as [e1|] eqn:Hic; simpl_result_in Hb; [|discriminate].
    injection Hb as _ _ _ <-.
    rewrite (insert_char_doc_count d e pre post line Hl Hyy c e1); [lia| |exact Hic].
    intros ->. lia.
  - assert (Hmove : forall op : Editor -> result Editor,
               (forall e1, op e = Ok e1 -> buf e1 = buf e) ->
               (e1 ← op e; Ok (Continue, input, w, e1)) = Ok (ctl, rest, w', e') ->
               (doc_count d (lines (buf e')) <= doc_count d (lines (buf e)))%nat).
    { intros op Hop Hr. destruct (op e) as [e1|] eqn:Hoe; simpl_result_in Hr;
        [|discriminate]. injection Hr as _ _ _ <-. now rewrite (Hop e1 eq_refl). }
    destruct (code =? KEY_LEFT);
      [apply (Hmove move_left); [intros; apply move_keeps_buf; auto | exact Hb]|].
    destruct (code =? KEY_RIGHT);
      [apply (Hmove move_right); [intros; apply move_keeps_buf; auto | exact Hb]|].
    destruct (code =? KEY_UP);
      [apply (Hmove move_up); [intros; apply move_keeps_buf; auto | exact Hb]|].
    destruct (code =? KEY_DOWN);
      [apply (Hmove move_down); [intros; apply move_keeps_buf; auto | exact Hb]|].
    destruct (code =? KEY_BACKSPACE).
    { destruct (backspace e) as [e1|] eqn:Hbs; simpl_result_in Hb; [|discriminate].
      injection Hb as _ _ _ <-. now apply backspace_doc_count. }
    destruct (code =? KEY_DC).
    { destruct (delete_char e) as [e1|] eqn:Hdc; simpl_result_in Hb; [|discriminate].
      injection Hb as _ _ _ <-.
      now apply (delete_char_doc_count d e pre post line Hl Hyy Hx). }
    destruct (code =? KEY_HOME); [now injection Hb as _ _ _ <-|].
    destruct (code =? KEY_END).
    { destruct (Py.getitem (lines (buf e)) (cy e)); simpl_result_in Hb; [|discriminate].
      now injection Hb as _ _ _ <-. }
    destruct ((code =? KEY_PPAGE) || (code =? KEY_NPAGE));
      [|now injection Hb as _ _ _ <-].
    injection Hb as _ _ _ <-. rewrite ensure_cursor_visible_buf.
    now destruct (code =? KEY_PPAGE).
Qed.

Lemma run_loop_no_control (d : pychar) (fuel : nat) (input : list key)
  (w w' : W) (e e' : Editor) (ctl : control) :
  index_safe e -> 2 <= scr_h (stdscr e) -> Py.ord d < 32 ->
  run_loop fuel input w e = Ok (ctl, w', e') ->
  (doc_count d (lines (buf e')) <= doc_count d (lines (buf e)))%nat.
Proof.
  revert input w e. induction fuel as [|n IH]; intros input w e Hs Hh Hd Hr.
  - destruct input; [|discriminate]. now injection Hr as _ _ <-.
  - destruct input as [|ch rest]; cbn [run_loop] in Hr; [now injection Hr as _ _ <-|].
    pose proof (loop_body_safe ch rest w e Hs Hh) as Hstep.
    destruct (loop_body ch rest w e) as [[[[ctl1 rest1] w1] e1]|x] eqn:Hb; [|discriminate].
    pose proof (loop_body_no_control d _ _ _ _ _ _ _ _ Hs Hd Hb) as Hle.
    cbn in Hstep. destruct Hstep as (Hs1 & Hscr & _).
    destruct ctl1.
    + specialize (IH rest1 w1 e1 Hs1 ltac:(rewrite Hscr; exact Hh) Hd Hr). lia.
    + now injection Hr as _ _ <-.
Qed.

(** X12.  Whatever key comes, the document holds no more occurrences of any
    control character (code point below 32) afterwards than before, in
    one iteration of the loop and over a whole run: typing takes only
    characters from 32 on, and the prompts for search and replacement
    texts do the same.  In particular no line ever gains a line feed or
    a carriage return. *)
Theorem keys_add_no_control_character (d : pychar) (e : Editor) :
  index_safe e -> 2 <= scr_h (stdscr e) -> Py.ord d < 32 ->
  (forall k input w ctl rest w' e',
      loop_body k input w e = Ok (ctl, rest, w', e') ->
      (doc_count d (lines (buf e')) <= doc_count d (lines (buf e)))%nat) /\
  (forall input w ctl w' e',
      run input w e = Ok (ctl, w', e') ->
      (doc_count d (lines (buf e')) <= doc_count d (lines (buf e)))%nat).
Proof.
  intros Hs Hh Hd. split.
  - intros k input w ctl rest w' e'. now apply loop_body_no_control.
  - intros input w ctl w' e'. now apply run_loop_no_control.
Qed.

End NoControl.

Lemma keys_add_no_control_character_witness :
  exists e',
    run [KStr 10%N; KStr 9%N; KStr 120%N] empty_disk (sample ab_cb 0 1)
      = Ok (Continue, empty_disk, e') /\
    (doc_count 10%N (lines (buf e')) <= doc_count 10%N ab_cb)%nat.
Proof.
  eexists. split; [vm_compute; reflexivity|].
  apply (proj2 (@keys_add_no_control_character MemFS.world MemFS.memfs 10%N
                  (sample ab_cb 0 1) ltac:(by_compute) ltac:(by_compute)
                  ltac:(by_compute))
           [KStr 10%N; KStr 9%N; KStr 120%N] empty_disk Continue empty_disk).
  vm_compute. reflexivity.
Defined.

(** ** Loading, and loading what was saved *)

Section Loading.
Import MemFS.

Lemma universal_newlines_out (after_cr : bool) (t : pystr) :
  Py.CR ∉ universal_newlines after_cr t.
Proof.
  revert after_cr. induction t as [|c t IH]; intros after_cr; cbn.
  - apply not_elem_of_nil.
  - destruct (N.eqb_spec c Py.CR).
    + apply not_elem_of_cons. split; [discriminate | apply IH].
    + destruct ((c =? Py.LF)%N && after_cr); [apply IH|].
      apply not_elem_of_cons. split; [congruence | apply IH].
Qed.

Lemma rstrip_nl_no_lf (s : pystr) : Py.LF ∉ s -> Py.rstrip_nl s = s.
Proof.
  unfold Py.rstrip_nl. induction s as [|c s IH]; intros Hlf; [reflexivity|].
  apply not_elem_of_cons in Hlf as [Hc Hs]. cbn. rewrite IH by exact Hs.
  destruct s; [|reflexivity].
  destruct (N.eqb_spec c Py.LF); [congruence | reflexivity].
Qed.

Lemma iter_lines_stripped (cur t : pystr) :
  Py.LF ∉ cur ->
  Forall (fun l => Py.LF ∉ Py.rstrip_nl l) (iter_lines cur t).
Proof.
  revert cur. induction t as [|c t IH]; intros cur Hcur; cbn.
  - destruct cur; [constructor|]. repeat constructor. now rewrite rstrip_nl_no_lf.
  - destruct (N.eqb_spec c Py.LF) as [->|Hne].
    + constructor; [|apply IH, not_elem_of_nil].
      pose proof (rstrip_nl_terminated cur Hcur) as Ht. unfold terminated in Ht.
      now rewrite Ht.
    + apply IH. rewrite not_elem_of_app. split; [exact Hcur|].
      apply not_elem_of_cons. split; [congruence | apply not_elem_of_nil].
Qed.

Lemma rstrip_nl_sub (x : pychar) (s : pystr) : x ∈ Py.rstrip_nl s -> x ∈ s.
Proof.
  unfold Py.rstrip_nl. induction s as [|c s IH]; [trivial|]. cbn.
  destruct (fold_right _ [] s) as [|a r] eqn:Hr.
  - destruct (c =? Py.LF)%N; [intros Hin; now apply elem_of_nil in Hin|].
    intros Hin. apply list_elem_of_singleton in Hin as ->. apply list_elem_of_here.
  - intros Hin. apply elem_of_cons in Hin as [->|Hin];
      [apply list_elem_of_here | apply list_elem_of_further, IH, Hin].
Qed.

Lemma iter_lines_no_cr (cur t : pystr) :
  Py.CR ∉ cur -> Py.CR ∉ t -> Forall (fun l => Py.CR ∉ l) (iter_lines cur t).
Proof.
  revert cur. induction t as [|c t IH]; intros cur Hcur Ht; cbn.
  - destruct cur; [constructor|]. now repeat constructor.
  - apply not_elem_of_cons in Ht as [Hc Ht].
    assert (Hcur' : Py.CR ∉ cur ++ [c]).
    { rewrite not_elem_of_app. split; [exact Hcur|].
      apply not_elem_of_cons. split; [exact Hc | apply not_elem_of_nil]. }
    destruct (c =? Py.LF)%N.
    + constructor; [exact Hcur' | apply IH; [apply not_elem_of_nil | exact Ht]].
    + now apply IH.
Qed.

Lemma Buffer_init_clean (w : world) (fname : option pystr) (b : Buffer) :
  Buffer_init w fname = Ok b ->
  lines b <> [] /\ no_line_breaks (lines b) /\ modified b = false /\
  filename b = fname.
Proof.
  intros Hinit. destruct (Buffer_init_nonempty w fname b Hinit) as [Hne Hmod].
  split; [exact Hne|]. split; [|split; [exact Hmod|]].
  - assert (Hempty : no_line_breaks [[]]).
    { repeat constructor; apply not_elem_of_nil. }
    unfold Buffer_init in Hinit.
    destruct fname as [[|c fn]|]; cbn in Hinit; try (now injection Hinit as <-).
    destruct (bool_decide _); [|now injection Hinit as <-].
    unfold read_lines in Hinit.
    destruct (w !! (c :: fn)) as [f|]; [|discriminate Hinit].
    injection Hinit as <-. cbn [lines].
    set (ls := iter_lines [] (universal_newlines false (f_text f))).
    assert (Hclean : no_line_breaks (map Py.rstrip_nl ls)).
    { apply Forall_fmap, Forall_forall. intros l Hin. cbn. split.
      - pose proof (iter_lines_stripped [] (universal_newlines false (f_text f))
                      ltac:(apply not_elem_of_nil)) as Hs.
        rewrite Forall_forall in Hs. now apply Hs.
      - intros Hcr. apply rstrip_nl_sub in Hcr.
        pose proof (iter_lines_no_cr [] (universal_newlines false (f_text f))
                      ltac:(apply not_elem_of_nil)
                      (universal_newlines_out false (f_text f))) as Hs.
        rewrite Forall_forall in Hs. now apply (Hs l Hin). }
    now destruct (map Py.rstrip_nl ls).
  - unfold Buffer_init in Hinit.
    destruct fname as [[|c fn]|]; cbn in Hinit; try (now injection Hinit as <-).
    destruct (bool_decide _); [|now injection Hinit as <-].
    destruct (read_lines w (c :: fn)); [|discriminate Hinit].
    now injection Hinit as <-.
Qed.

(** X13.  Every buffer the constructor builds has at least one line, no line
    holding a line feed or a carriage return, and a clear [modified]
    flag: a file is cut at "\n", "\r" and "\r\n" alike and the line
    ends are stripped. *)
Theorem loaded_lines_hold_no_line_breaks (w : world) (fname : option pystr)
  (b : Buffer) :
  Buffer_init w fname = Ok b ->
  lines b <> [] /\ no_line_breaks (lines b) /\ modified b = false /\
  filename b = fname.
Proof. apply Buffer_init_clean. Qed.

Lemma loaded_lines_hold_no_line_breaks_witness :
  exists b,
    Buffer_init aaa_disk (Some (Py.lit "notes.txt")) = Ok b /\
    no_line_breaks (lines b).
Proof.
  eexists. split; [vm_compute; reflexivity|].
  apply (proj1 (proj2 (loaded_lines_hold_no_line_breaks aaa_disk
                         (Some (Py.lit "notes.txt")) _
                         ltac:(vm_compute; reflexivity)))).
Defined.

Lemma save_then_init (w w' : world) (b b' : Buffer) :
  lines b <> [] -> no_line_breaks (lines b) ->
  save w b = (w', b', Saved) ->
  Buffer_init w' (filename b) = Ok b'.
Proof.
  intros Hne Hls Hsave.
  destruct (save_success w w' b b' _ Hsave)
    as (_ & -> & fn & w1 & w2 & Hfn & Hro & Ho & Hw & Hc).
  cbn in Ho, Hc. injection Hc as <-.
  apply open_w_ok in Ho.
  pose proof (writes_ok_text _ _ _ _ _ Hw Ho) as Hf. cbn in Hf.
  assert (Hname : filename b = Some fn /\ exists c fn0, fn = c :: fn0).
  { unfold truthy_filename in Hfn. destruct (filename b) as [[|c fn0]|];
      try discriminate. injection Hfn as <-. eauto. }
  destruct Hname as (Hfile & c & fn0 & ->).
  unfold Buffer_init. rewrite Hfile. cbn [truthy_filename filename].
  cbn [fs_exists fs_read_lines fs_access_w memfs]. unfold read_lines.
  rewrite Hf. cbn [f_text f_writable].
  rewrite bool_decide_eq_true_2 by eauto.
  rewrite universal_newlines_no_cr.
  2:{ apply no_cr_concat. eapply Forall_impl; [exact Hls|]. now intros l [_ Hcr]. }
  rewrite iter_lines_concat.
  2:{ eapply Forall_impl; [exact Hls|]. now intros l [Hlf _]. }
  rewrite map_map.
  assert (Hid : map (fun l => Py.rstrip_nl (terminated l)) (lines b) = lines b).
  { rewrite <- (map_id (lines b)) at 2. apply map_ext_Forall.
    eapply Forall_impl; [exact Hls|]. intros l [Hlf _].
    now apply rstrip_nl_terminated. }
  rewrite Hid. unfold set_modified. rewrite Hfile, Hro.
  now destruct (lines b).
Qed.

(** X14.  After a successful save of a buffer with at least one line and no
    line breaks inside its lines, constructing a Buffer from the same
    path gives exactly the buffer that the save left in memory: same
    path, same lines, not modified, not read-only. *)
Theorem reload_equals_saved_buffer (w w' : world) (b b' : Buffer) :
  lines b <> [] -> no_line_breaks (lines b) ->
  save w b = (w', b', Saved) ->
  Buffer_init w' (filename b) = Ok b'.
Proof. apply save_then_init. Qed.

Lemma reload_equals_saved_buffer_witness :
  Buffer_init (save empty_disk notes_buffer).1.1 (filename notes_buffer)
    = Ok (save empty_disk notes_buffer).1.2.
Proof.
  apply (reload_equals_saved_buffer empty_disk _ notes_buffer).
  - discriminate.
  - repeat constructor; apply (bool_decide_unpack _); vm_compute; reflexivity.
  - vm_compute. reflexivity.
Defined.

End Loading.

Lemma doc_count_zero (d : pychar) (ls : list pystr) :
  doc_count d ls = 0%nat <-> Forall (fun l => d ∉ l) ls.
Proof.
  induction ls as [|l ls IH]; cbn.
  - split; [constructor | reflexivity].
  - rewrite Forall_cons, <- IH, list_elem_of_In.
    rewrite (count_occ_not_In N.eq_dec l d). lia.
Qed.

Lemma no_line_breaks_count (ls : list pystr) :
  no_line_breaks ls <-> doc_count Py.LF ls = 0%nat /\ doc_count Py.CR ls = 0%nat.
Proof.
  unfold no_line_breaks. rewrite !doc_count_zero, !Forall_forall. firstorder.
Qed.

(** X15.  Whatever is typed in a session on a terminal of at least two rows
    that starts from a constructed buffer, a successful save of the
    state reached can be loaded back: constructing a Buffer from the
    path gives exactly the buffer the save left in memory. *)
Theorem session_save_reloads (w0 w1 w w' : MemFS.world) (fname : option pystr)
  (scr : Screen) (input : list key) (ctl : control) (b b' : Buffer) (e : Editor) :
  Buffer_init w0 fname = Ok b -> 2 <= scr_h scr ->
  run input w1 (Editor_init scr b) = Ok (ctl, w, e) ->
  save w (buf e) = (w', b', Saved) ->
  Buffer_init w' (filename (buf e)) = Ok b'.
Proof.
  intros Hinit Hh Hrun Hsave.
  destruct (Buffer_init_clean w0 fname b Hinit) as (Hne & Hclean & _).
  assert (Hs : index_safe (Editor_init scr b)).
  { unfold index_safe. cbn. destruct (lines b); [congruence|]. len_lia. }
  pose proof (run_loop_safe (length input) input w1 (Editor_init scr b) Hs Hh) as Hsafe.
  unfold run in Hrun. rewrite Hrun in Hsafe. destruct Hsafe as [[Hy _] _].
  apply no_line_breaks_count in Hclean as [Hlf Hcr].
  pose proof (run_loop_no_control Py.LF _ _ _ _ _ _ _ Hs Hh ltac:(by_compute) Hrun) as Hlf'.
  pose proof (run_loop_no_control Py.CR _ _ _ _ _ _ _ Hs Hh ltac:(by_compute) Hrun) as Hcr'.
  cbn [Editor_init buf] in Hlf', Hcr'.
  apply (save_then_init w w' (buf e) b').
  - intros Hnil. rewrite Hnil in Hy. unfold Py.len in Hy. cbn in Hy. lia.
  - apply no_line_breaks_count. lia.
  - exact Hsave.
Qed.

Lemma session_save_reloads_witness :
  exists b e w w' b',
    Buffer_init aaa_disk (Some (Py.lit "notes.txt")) = Ok b /\
    run shrink_keys aaa_disk (Editor_init (mkScreen 24 80) b) = Ok (Continue, w, e) /\
    save w (buf e) = (w', b', Saved) /\
    Buffer_init w' (filename (buf e)) = Ok b'.
Proof.
  eexists _, _, _, _, _.
  split; [vm_compute; reflexivity|].
  split; [vm_compute; reflexivity|].
  split; [vm_compute; reflexivity|].
  eapply (session_save_reloads aaa_disk aaa_disk _ _ (Some (Py.lit "notes.txt"))
            (mkScreen 24 80) shrink_keys Continue).
  - vm_compute. reflexivity.
  - by_compute.
  - vm_compute. reflexivity.
  - vm_compute. reflexivity.
Defined.

(** ** What find finds and what it misses *)

Lemma occurs_at_drop (sub s : pystr) (c k : nat) :
  occurs_at sub s k -> (c <= k)%nat -> occurs sub (drop c s).
Proof.
  intros (pre & post & -> & <-) Hc. exists (length pre - c)%nat, (drop c pre), post.
  split; [now rewrite drop_app_le by lia | now rewrite length_drop].
Qed.

(** [s.find(sub, start)] is -1 exactly when [sub] does not occur in [s]
    at or after [start]. *)
Lemma find_minus_one (s sub : pystr) (start : Z) :
  0 <= start <= Py.len s ->
  Py.find s sub start = -1 <->
  forall k, (Z.to_nat start <= k)%nat -> ~ occurs_at sub s k.
Proof.
  intros Hst. split.
  - intros Hf k Hk Hocc. unfold Py.find in Hf.
    destruct (Z.ltb_spec start 0); [lia|].
    destruct (Z.ltb_spec (Py.len s) start); [lia|].
    destruct (Py.find_from sub _ _) as [j|] eqn:Hff; [lia|].
    apply find_from_None in Hff. apply Hff. now apply (occurs_at_drop sub s _ k).
  - intros Hno. destruct (Z.eq_dec (Py.find s sub start) (-1)) as [|Hne]; [assumption|].
    exfalso. destruct (find_found s sub start _ eq_refl Hne) as (Hx0 & Hocc & _ & Hmin).
    destruct (Hmin ltac:(lia)) as [Hle _].
    apply (Hno (Z.to_nat (Py.find s sub start))); [lia | exact Hocc].
Qed.

Lemma first_match_None (term : pystr) (ls : list pystr) (order : list (Z * Z)) :
  first_match term ls order = None <->
  forall y c line, (y, c) ∈ order -> ls !! Z.to_nat y = Some line ->
                   Py.find line term c = -1.
Proof.
  induction order as [|[y0 c0] order IH]; cbn.
  - split; [intros _ y c line Hin; now apply elem_of_nil in Hin | reflexivity].
  - destruct (ls !! Z.to_nat y0) as [line0|] eqn:Hl0.
    + destruct (Z.eqb_spec (Py.find line0 term c0) (-1)) as [Hm|Hm].
      * rewrite IH. split.
        -- intros Hall y c line Hin Hl. apply elem_of_cons in Hin as [[= -> ->]|Hin].
           ++ rewrite Hl0 in Hl. now injection Hl as <-.
           ++ now apply (Hall y c line).
        -- intros Hall y c line Hin. apply Hall. now apply list_elem_of_further.
      * split; [discriminate|]. intros Hall. exfalso. apply Hm.
        apply (Hall y0 c0 line0); [apply list_elem_of_here | exact Hl0].
    + rewrite IH. split.
      * intros Hall y c line Hin Hl. apply elem_of_cons in Hin as [[= -> ->]|Hin].
        -- rewrite Hl0 in Hl. discriminate.
        -- now apply (Hall y c line).
      * intros Hall y c line Hin. apply Hall. now apply list_elem_of_further.
Qed.

Lemma scan_order_elem (n cy0 cx0 y c : Z) :
  (y, c) ∈ scan_order n cy0 cx0 <->
  (y = cy0 /\ c = cx0) \/ (cy0 < y < n /\ c = 0) \/ (0 <= y < cy0 /\ c = 0).
Proof.
  unfold scan_order, Py.range.
  rewrite elem_of_cons, elem_of_app, !list_elem_of_fmap. split.
  - intros [[= -> ->]|[(y' & [= -> ->] & Hin)|(y' & [= -> ->] & Hin)]];
      [auto | apply elem_of_seqZ in Hin; right; left; split; [lia | reflexivity]
      | apply elem_of_seqZ in Hin; right; right; split; [lia | reflexivity]].
  - intros [[-> ->]|[[Hy ->]|[Hy ->]]]; [auto | right; left | right; right];
      (exists y; split; [reflexivity | apply elem_of_seqZ; lia]).
Qed.

(** X16.  A successful find changes nothing in the buffer and puts the cursor
    on the start of an occurrence of the term. *)
Theorem find_lands_on_occurrence (term : pystr) (e e' : Editor) :
  0 <= cy e < Py.len (lines (buf e)) ->
  find term e = Ok (true, e') ->
  buf e' = buf e /\ last_search e' = Some term /\ 0 <= cy e' /\ 0 <= cx e' /\
  exists line,
    lines (buf e) !! Z.to_nat (cy e') = Some line /\
    occurs_at term line (Z.to_nat (cx e')).
Proof.
  intros Hy Hf. rewrite find_scan_order in Hf by exact Hy.
  destruct (first_match _ _ _) as [[y x]|] eqn:Hfm; [|discriminate].
  injection Hf as <-.
  apply first_match_Some in Hfm as (c & l & Hin & Hl & Hxl & Hne).
  apply scan_order_rows in Hin; [|lia].
  symmetry in Hxl. destruct (find_found l term c x Hxl Hne) as (Hx0 & Hocc & _).
  unfold found_at. cbn.
  rewrite ensure_cursor_visible_buf, ensure_cursor_visible_cy, ensure_cursor_visible_cx.
  cbn. repeat split; auto. now exists l.
Qed.

Lemma find_lands_on_occurrence_witness :
  exists line,
    lines (buf (sample ab_cb 0 2)) !! Z.to_nat 1 = Some line /\
    occurs_at (Py.lit "b") line (Z.to_nat 1).
Proof.
  destruct (find_lands_on_occurrence (Py.lit "b") (sample ab_cb 0 2)
              (found_at (Py.lit "b") 1 1 (sample ab_cb 0 2))
              ltac:(by_compute) ltac:(vm_compute; reflexivity))
    as (_ & _ & _ & _ & Hline).
  exact Hline.
Defined.

(** X17.  With the cursor inside its bounds, find fails exactly when the term
    occurs neither in the cursor row at or after the cursor column nor
    in any other row.  An occurrence that lies in the cursor row before
    the cursor is never found: the wrap-around stops short of the cursor
    row. *)
Theorem find_fails_exactly_when (term : pystr) (e : Editor) (line : pystr) :
  0 <= cy e -> lines (buf e) !! Z.to_nat (cy e) = Some line ->
  0 <= cx e <= Py.len line ->
  find term e = Ok (false, e) <->
  (forall k, (Z.to_nat (cx e) <= k)%nat -> ~ occurs_at term line k) /\
  (forall y l, y <> Z.to_nat (cy e) -> lines (buf e) !! y = Some l -> ~ occurs term l).
Proof.
  intros Hy Hline Hx. pose proof (lookup_in_range _ _ _ Hy Hline) as Hr.
  rewrite find_scan_order by exact Hr.
  assert (Hnone : first_match term (lines (buf e))
                    (scan_order (Py.len (lines (buf e))) (cy e) (cx e)) = None <->
                  (forall k, (Z.to_nat (cx e) <= k)%nat -> ~ occurs_at term line k) /\
                  (forall y l, y <> Z.to_nat (cy e) -> lines (buf e) !! y = Some l ->
                               ~ occurs term l)).
  { rewrite first_match_None. split.
    - intros Hall. split.
      + apply find_minus_one; [exact Hx|].
        apply (Hall (cy e) (cx e) line); [|exact Hline].
        apply scan_order_elem. auto.
      + intros y l Hne Hl [k Hocc].
        pose proof (lookup_lt_Some _ _ _ Hl) as Hlt.
        assert (Hin : (Z.of_nat y, 0) ∈ scan_order (Py.len (lines (buf e))) (cy e) (cx e)).
        { apply scan_order_elem. unfold Py.len. lia. }
        specialize (Hall (Z.of_nat y) 0 l Hin). rewrite Nat2Z.id in Hall.
        specialize (Hall Hl).
        apply (proj1 (find_minus_one l term 0
                        ltac:(pose proof (len_nonneg l); lia)) Hall k); [lia|exact Hocc].
    - intros [Hrow Hothers] y c l Hin Hl.
      apply scan_order_elem in Hin as [[-> ->]|[[Hyy ->]|[Hyy ->]]].
      + rewrite Hline in Hl. injection Hl as <-. now apply find_minus_one.
      + apply find_minus_one; [pose proof (len_nonneg l); lia|].
        intros k _ Hocc. apply (Hothers (Z.to_nat y) l); [lia | exact Hl | now exists k].
      + apply find_minus_one; [pose proof (len_nonneg l); lia|].
        intros k _ Hocc. apply (Hothers (Z.to_nat y) l); [lia | exact Hl | now exists k]. }
  rewrite <- Hnone.
  destruct (first_match _ _ _) as [[y x]|]; split; try discriminate; auto.
Qed.

Lemma find_fails_exactly_when_witness :
  find (Py.lit "a") (sample ab_cb 0 1) = Ok (false, sample ab_cb 0 1) <->
  (forall k, (Z.to_nat 1 <= k)%nat -> ~ occurs_at (Py.lit "a") (Py.lit "ab") k) /\
  (forall y l, y <> Z.to_nat 0 -> ab_cb !! y = Some l -> ~ occurs (Py.lit "a") l).
Proof.
  apply (find_fails_exactly_when (Py.lit "a") (sample ab_cb 0 1) (Py.lit "ab")).
  - by_compute.
  - vm_compute. reflexivity.
  - by_compute.
Defined.

(** ** Replacing a term that does not occur *)

Lemma count_go_zero (sub s : pystr) (i : nat) :
  sub <> [] -> Py.count_go sub 0 s = 0%nat -> Py.find_from sub s i = None.
Proof.
  intros Hne. revert i. induction s as [|c s IH]; intros i Hc.
  - destruct sub; [congruence | reflexivity].
  - cbn [Py.count_go] in Hc. cbn [Py.find_from].
    destruct (Py.startswith (c :: s) sub); [discriminate|]. now apply IH.
Qed.

Lemma total_count_zero (sub : pystr) (ls : list pystr) :
  total_count sub ls = 0 -> forall l, l ∈ ls -> Py.count l sub = 0.
Proof.
  unfold total_count. induction ls as [|l0 ls IH]; cbn; intros Hz l Hin.
  - now apply elem_of_nil in Hin.
  - pose proof (count_nonneg l0 sub). pose proof (total_count_nonneg sub ls) as Hn.
    unfold total_count in Hn.
    apply elem_of_cons in Hin as [->|Hin]; [lia | apply IH; [lia | exact Hin]].
Qed.

Lemma replace_nothing (f r : pystr) (ls : list pystr) :
  Forall (fun l => Py.replace l f r = l /\ Py.count l f = 0) ls ->
  map (fun l => Py.replace l f r) ls = ls /\ total_count f ls = 0.
Proof.
  unfold total_count. induction 1 as [|l ls [Hl Hc] _ [IHm IHt]]; cbn; [auto|].
  rewrite Hl, IHm. split; [reflexivity | lia].
Qed.

(** X18.  For a non-empty term, replace-all reports zero replacements and
    leaves the whole editor state as it was, the [modified] flag
    included, exactly when no line holds the term. *)
Theorem replace_all_without_occurrence (f r : pystr) (e : Editor) :
  f <> [] ->
  replace_all f r e = Ok (0, e) <->
  forall line, line ∈ lines (buf e) -> ~ occurs f line.
Proof.
  intros Hne. rewrite replace_all_map. split.
  - intros Hr line Hin Hocc.
    assert (Hz : total_count f (lines (buf e)) = 0) by congruence.
    pose proof (total_count_zero f _ Hz line Hin) as Hc.
    unfold Py.count in Hc. destruct f as [|c f]; [congruence|].
    apply (find_from_None (c :: f) line 0); [|exact Hocc].
    apply count_go_zero; [discriminate | lia].
  - intros Hno.
    assert (Hall : Forall (fun l => Py.replace l f r = l /\ Py.count l f = 0)
                     (lines (buf e))).
    { apply Forall_forall. intros l Hin. apply not_contains_replace.
      unfold Py.contains. destruct (Py.find_from f l 0) as [j|] eqn:Hf; [|reflexivity].
      exfalso. apply (Hno l Hin). apply find_from_Some in Hf as (_ & Hocc & _).
      now exists (j - 0)%nat. }
    destruct (replace_nothing f r _ Hall) as [Hmap Htot].
    rewrite Htot, Hmap. cbn. destruct e as [scr [fn ls md ro] y x t l m s].
    reflexivity.
Qed.

Lemma replace_all_without_occurrence_witness :
  replace_all (Py.lit "x") (Py.lit "yy") (sample ab_cb 1 2)
    = Ok (0, sample ab_cb 1 2) <->
  forall line, line ∈ ab_cb -> ~ occurs (Py.lit "x") line.
Proof.
  apply (replace_all_without_occurrence (Py.lit "x") (Py.lit "yy") (sample ab_cb 1 2)).
  discriminate.
Defined.

(** ** The viewport *)

Lemma ensure_cursor_visible_noop (e : Editor) :
  cursor_visible e -> ensure_cursor_visible e = e.
Proof.
  unfold cursor_visible, ensure_cursor_visible. intros [Hy Hx].
  destruct (Z.ltb_spec (cy e) (top e)); [lia|].
  rewrite Z.geb_leb.
  destruct (Z.leb_spec (top e + (scr_h (stdscr e) - 1)) (cy e)); [lia|].
  destruct (Z.ltb_spec (cx e) (left e)); [lia|].
  rewrite Z.geb_leb.
  destruct (Z.leb_spec (left e + scr_w (stdscr e) - 1) (cx e)); [lia|].
  reflexivity.
Qed.

Lemma ensure_cursor_visible_origin (e : Editor) :
  0 <= cy e -> 0 <= cx e -> 0 <= top e -> 0 <= left e ->
  0 <= top (ensure_cursor_visible e) /\ 0 <= left (ensure_cursor_visible e).
Proof.
  unfold ensure_cursor_visible. intros Hy Hx Ht Hl.
  rewrite !Z.geb_leb.
  destruct (Z.ltb_spec (cy e) (top e));
    [|destruct (Z.leb_spec (top e + (scr_h (stdscr e) - 1)) (cy e))]; cbn;
    rewrite ?Z.geb_leb;
    (destruct (Z.ltb_spec (cx e) (left e));
     [|destruct (Z.leb_spec (left e + scr_w (stdscr e) - 1) (cx e))]); cbn; lia.
Qed.

(** X19.  Viewport reclamation scrolls only when it has to: a cursor already
    inside the text area leaves the whole state as it is; on a terminal
    of at least two rows and two columns a second reclamation changes
    nothing; and with the cursor at non-negative indices the viewport's
    origin never becomes negative. *)
Theorem viewport_moves_only_when_needed (e : Editor) :
  (cursor_visible e -> ensure_cursor_visible e = e) /\
  (2 <= scr_h (stdscr e) -> 2 <= scr_w (stdscr e) ->
   ensure_cursor_visible (ensure_cursor_visible e) = ensure_cursor_visible e) /\
  (0 <= cy e -> 0 <= cx e -> 0 <= top e -> 0 <= left e ->
   0 <= top (ensure_cursor_visible e) /\ 0 <= left (ensure_cursor_visible e)).
Proof.
  split; [apply ensure_cursor_visible_noop|]. split.
  - intros Hh Hw. apply ensure_cursor_visible_noop.
    now apply ensure_cursor_visible_visible.
  - apply ensure_cursor_visible_origin.
Qed.

Lemma viewport_moves_only_when_needed_witness :
  ensure_cursor_visible (sample ab_cb 1 2) = sample ab_cb 1 2 /\
  ensure_cursor_visible (ensure_cursor_visible (sample_on (mkScreen 2 2) ab_cb 1 2))
    = ensure_cursor_visible (sample_on (mkScreen 2 2) ab_cb 1 2) /\
  0 <= top (ensure_cursor_visible (sample_on (mkScreen 2 2) ab_cb 1 2)).
Proof.
  split; [|split].
  - apply (proj1 (viewport_moves_only_when_needed (sample ab_cb 1 2))). by_compute.
  - apply (proj1 (proj2 (viewport_moves_only_when_needed
                           (sample_on (mkScreen 2 2) ab_cb 1 2)))); by_compute.
  - apply (proj2 (proj2 (viewport_moves_only_when_needed
                           (sample_on (mkScreen 2 2) ab_cb 1 2)))); by_compute.
Defined.

(** ** What refresh draws *)

Lemma slice_window (line : pystr) (l w : Z) :
  0 <= l -> 1 <= w -> Py.slice line l (l + w - 1) = window l w line.
Proof.
  intros Hl Hw. unfold Py.slice, window, Py.clamp_bound.
  destruct (Z.ltb_spec l 0); [lia|]. destruct (Z.ltb_spec (l + w - 1) 0); [lia|].
  rewrite take_drop_commute.
  replace (Z.to_nat l + Z.to_nat (w - 1))%nat with (Z.to_nat (l + w - 1)) by lia.
  assert (Htake : take (Z.to_nat (Z.min (l + w - 1) (Py.len line))) line
                  = take (Z.to_nat (l + w - 1)) line).
  { destruct (Z.le_gt_cases (l + w - 1) (Py.len line)).
    - now rewrite Z.min_l by lia.
    - rewrite Z.min_r by lia. unfold Py.len. rewrite Nat2Z.id.
      rewrite !take_ge; [reflexivity | unfold Py.len in *; lia | lia]. }
  rewrite Htake.
  destruct (Z.le_gt_cases l (Py.len line)).
  - now rewrite Z.min_l by lia.
  - rewrite Z.min_r by lia.
    rewrite !drop_ge; [reflexivity | | ]; rewrite length_take; unfold Py.len in *; lia.
Qed.

Lemma seqZ_to_nat (m n : Z) : seqZ m n = seqZ m (Z.of_nat (Z.to_nat n)).
Proof. unfold seqZ. now rewrite Nat2Z.id. Qed.

(** The loop over the text rows draws the lines from [top + i] on, one
    for each index, until the document ends. *)
Lemma draw_rows_spec (e : Editor) (w : Z) (k : nat) (i : Z) :
  0 <= top e -> 0 <= i ->
  draw_rows e w (seqZ i (Z.of_nat k)) =
    Ok (map (fun line => Py.slice line (left e) (left e + w - 1))
          (take k (drop (Z.to_nat (top e + i)) (lines (buf e))))).
Proof.
  intros Ht. revert i. induction k as [|k IH]; intros i Hi; [reflexivity|].
  rewrite seqZ_cons by lia. cbn [draw_rows].
  replace (Z.pred (Z.of_nat (S k))) with (Z.of_nat k) by lia.
  rewrite Z.geb_leb.
  destruct (Z.leb_spec (Py.len (lines (buf e))) (top e + i)) as [Hge|Hlt].
  - rewrite drop_ge by (unfold Py.len in Hge; lia). reflexivity.
  - destruct (lookup_lt_is_Some_2 (lines (buf e)) (Z.to_nat (top e + i)))
      as [line Hline]; [unfold Py.len in Hlt; lia|].
    rewrite (getitem_lookup _ _ line) by (lia || exact Hline).
    simpl_result. rewrite IH by lia. simpl_result.
    rewrite (drop_S _ line _ Hline). cbn [take map].
    replace (Z.to_nat (top e + Z.succ i)) with (S (Z.to_nat (top e + i))) by lia.
    reflexivity.
Qed.

Lemma refresh_rows (e : Editor) :
  0 <= top e ->
  exists fr,
    refresh e = Ok fr /\
    text_rows fr =
      map (fun line => Py.slice line (left e) (left e + scr_w (stdscr e) - 1))
        (take (Z.to_nat (scr_h (stdscr e) - 1))
           (drop (Z.to_nat (top e)) (lines (buf e)))).
Proof.
  intros Ht. unfold refresh, Py.range.
  rewrite seqZ_to_nat, draw_rows_spec by lia. simpl_result.
  eexists. split; [reflexivity|]. cbn [text_rows].
  now rewrite Z.sub_0_r, Z.add_0_r.
Qed.






(** X21.  With safe cursor indices and the viewport's origin not negative,
    [refresh] places the terminal's cursor exactly when the editor's
    cursor is inside the text area, and then on the row that shows the
    cursor's line, at the column that shows the cursor's character: the
    drawn row holds there what the line holds at the cursor column
    (nothing, when the cursor is behind the line's last character). *)
Theorem cursor_drawn_on_its_character (e : Editor) (fr : Frame) :
  index_safe e -> view_nonneg e -> refresh e = Ok fr ->
  (cursor_visible e ->
   cursor_at fr = Some (cy e - top e, cx e - left e) /\
   exists line row,
     lines (buf e) !! Z.to_nat (cy e) = Some line /\
     text_rows fr !! Z.to_nat (cy e - top e) = Some row /\
     row !! Z.to_nat (cx e - left e) = line !! Z.to_nat (cx e)) /\
  (~ cursor_visible e -> cursor_at fr = None).
Proof.
  intros [Hy Hx] [Ht Hl] Hr.
  destruct (refresh_rows e Ht) as (fr' & Hr' & Hrows).
  rewrite Hr in Hr'. injection Hr' as <-.
  assert (Hcur : cursor_at fr =
                 if (0 <=? cy e - top e) && (cy e - top e <? scr_h (stdscr e) - 1)
                    && (0 <=? cx e - left e) && (cx e - left e <? scr_w (stdscr e) - 1)
                 then Some (cy e - top e, cx e - left e) else None).
  { unfold refresh in Hr. destruct (draw_rows _ _ _); simpl_result_in Hr; [|discriminate].
    now injection Hr as <-. }
  unfold cursor_visible. split.
  - intros [Hvy Hvx]. split.
    + rewrite Hcur.
      destruct (Z.leb_spec 0 (cy e - top e)); [|lia].
      destruct (Z.ltb_spec (cy e - top e) (scr_h (stdscr e) - 1)); [|lia].
      destruct (Z.leb_spec 0 (cx e - left e)); [|lia].
      destruct (Z.ltb_spec (cx e - left e) (scr_w (stdscr e) - 1)); [|lia].
      reflexivity.
    + destruct (lookup_lt_is_Some_2 (lines (buf e)) (Z.to_nat (cy e)))
        as [line Hline]; [unfold Py.len in Hy; lia|].
      exists line, (window (left e) (scr_w (stdscr e)) line).
      split; [exact Hline|]. split.
      * rewrite Hrows, list_lookup_fmap, lookup_take_lt by lia.
        rewrite lookup_drop.
        replace (Z.to_nat (top e) + Z.to_nat (cy e - top e))%nat
          with (Z.to_nat (cy e)) by lia.
        rewrite Hline. cbn. f_equal. apply slice_window; lia.
      * unfold window. rewrite lookup_take_lt by lia. rewrite lookup_drop.
        f_equal. lia.
  - intros Hnv. rewrite Hcur.
    destruct (Z.leb_spec 0 (cy e - top e)); [|reflexivity].
    destruct (Z.ltb_spec (cy e - top e) (scr_h (stdscr e) - 1)); [|reflexivity].
    destruct (Z.leb_spec 0 (cx e - left e)); [|reflexivity].
    destruct (Z.ltb_spec (cx e - left e) (scr_w (stdscr e) - 1)); [|reflexivity].
    exfalso. apply Hnv. lia.
Qed.

Lemma cursor_drawn_on_its_character_witness :
  cursor_at (mkFrame [Py.lit "ab"; Py.lit "cb"] (Py.lit " [No Name] - 2 lines ")
               None (Some (1, 1)))
    = Some (1 - 0, 1 - 0).
Proof.
  apply (proj1 (cursor_drawn_on_its_character (sample_on (mkScreen 3 22) ab_cb 1 1) _
                  ltac:(by_compute) ltac:(by_compute) ltac:(vm_compute; reflexivity))).
  by_compute.
Defined.

(** ** The viewport during a session *)






Section Drawn.
Context {W : Type} `{FileSystem W}.





End Drawn.


(** ** The cursor bounds during a session *)

(** A prompt hands back the keys it has not read. *)
Lemma prompt_loop_rest (input : list key) (chars : pystr) (pos : Z)
  (r : option pystr) (rest : list key) :
  prompt_loop chars pos input = Ok (r, rest) -> exists used, input = used ++ rest.
Proof.
  revert chars pos. induction input as [|k input IH]; intros chars pos Hp;
    [discriminate|].
  destruct k as [ch|code]; cbn [prompt_loop] in Hp; crack_result;
    first [ now exists [KStr ch]
          | match goal with
            | Hq : prompt_loop _ _ _ = Ok _ |- _ =>
                destruct (IH _ _ Hq) as [used ->]; eexists (_ :: used); reflexivity
            end ].
Qed.


Section Bounds.
Context {W : Type} `{FileSystem W}.

Lemma loop_body_rest (k : key) (input rest : list key) (w w' : W)
  (e e' : Editor) (ctl : control) :
  loop_body k input w e = Ok (ctl, rest, w', e') -> exists used, input = used ++ rest.
Proof.
  unfold loop_body, exit_without_saving, save_and_report, confirm_prompt, prompt_input.
  intros Hb. crack_result;
    repeat match goal with
      | Hq : prompt_loop _ _ _ = Ok _ |- _ => apply prompt_loop_rest in Hq as [? ->]
      end;
    first [ now exists [] | eexists; rewrite ?app_assoc; reflexivity ].
Qed.



End Bounds.


(** ** Up and Down *)

Lemma move_up_row (e : Editor) (other : pystr) :
  0 < cy e -> lines (buf e) !! Z.to_nat (cy e - 1) = Some other ->
  exists u, move_up e = Ok u /\ buf u = buf e /\ cy u = cy e - 1 /\
            cx u = Z.min (cx e) (Py.len other).
Proof.
  intros Hpos Hother. unfold move_up.
  destruct (Z.gtb_spec (cy e) 0); [|lia]. cbn [cy buf set_cy cx].
  rewrite (getitem_lookup _ _ other) by (lia || exact Hother). simpl_result.
  eexists. split; [reflexivity|].
  now rewrite ensure_cursor_visible_buf, ensure_cursor_visible_cy,
    ensure_cursor_visible_cx.
Qed.

Lemma move_down_row (e : Editor) (other : pystr) :
  0 <= cy e -> lines (buf e) !! Z.to_nat (cy e + 1) = Some other ->
  exists d, move_down e = Ok d /\ buf d = buf e /\ cy d = cy e + 1 /\
            cx d = Z.min (cx e) (Py.len other).
Proof.
  intros Hy Hother.
  assert (Hlt : cy e + 1 < Py.len (lines (buf e))).
  { apply lookup_lt_Some in Hother. unfold Py.len. lia. }
  unfold move_down.
  destruct (Z.ltb_spec (cy e) (Py.len (lines (buf e)) - 1)); [|lia].
  cbn [cy buf set_cy cx].
  rewrite (getitem_lookup _ _ other) by (lia || exact Hother). simpl_result.
  eexists. split; [reflexivity|].
  now rewrite ensure_cursor_visible_buf, ensure_cursor_visible_cy,
    ensure_cursor_visible_cx.
Qed.

(** X24.  Up followed by Down, and Down followed by Up, come back to the row
    they started from with the buffer untouched; the column is kept
    unless the line visited is shorter, and is then cut to that line's
    length. *)
Theorem up_and_down_return_to_the_row (e : Editor) (other : pystr) :
  cursor_ok e ->
  (0 < cy e -> lines (buf e) !! Z.to_nat (cy e - 1) = Some other ->
   exists u e', move_up e = Ok u /\ move_down u = Ok e' /\
     buf e' = buf e /\ cy e' = cy e /\ cx e' = Z.min (cx e) (Py.len other)) /\
  (lines (buf e) !! Z.to_nat (cy e + 1) = Some other ->
   exists d e', move_down e = Ok d /\ move_up d = Ok e' /\
     buf e' = buf e /\ cy e' = cy e /\ cx e' = Z.min (cx e) (Py.len other)).
Proof.
  intros (Hy & line & Hline & Hx). split.
  - intros Hpos Hother.
    destruct (move_up_row e other Hpos Hother) as (u & Hu & Hbu & Hyu & Hxu).
    destruct (move_down_row u line) as (e' & He' & Hb' & Hy' & Hx').
    { lia. }
    { rewrite Hbu, Hyu. now replace (cy e - 1 + 1) with (cy e) by lia. }
    exists u, e'. repeat split; [exact Hu | exact He' | congruence | lia | lia].
  - intros Hother.
    destruct (move_down_row e other Hy Hother) as (d & Hd & Hbd & Hyd & Hxd).
    destruct (move_up_row d line) as (e' & He' & Hb' & Hy' & Hx').
    { lia. }
    { rewrite Hbd, Hyd. now replace (cy e + 1 - 1) with (cy e) by lia. }
    exists d, e'. repeat split; [exact Hd | exact He' | congruence | lia | lia].
Qed.

Lemma up_and_down_return_to_the_row_witness :
  exists u e', move_up (sample [Py.lit "a"; Py.lit "bcd"] 1 3) = Ok u /\
    move_down u = Ok e' /\
    buf e' = buf (sample [Py.lit "a"; Py.lit "bcd"] 1 3) /\
    cy e' = 1 /\ cx e' = Z.min 3 (Py.len (Py.lit "a")).
Proof.
  apply (proj1 (up_and_down_return_to_the_row
                  (sample [Py.lit "a"; Py.lit "bcd"] 1 3) (Py.lit "a")
                  ltac:(split; [by_compute | exists (Py.lit "bcd"); by_compute]))).
  - by_compute.
  - vm_compute. reflexivity.
Defined.

(** ** Save as *)

Section SaveAs.
Context {W : Type} `{FileSystem W}.



End SaveAs.


(** ** What touches the file system *)

Lemma same_file_refl (e : Editor) : same_file e e.
Proof. split; reflexivity. Qed.

Lemma same_file_msg (m : pystr) (e e1 : Editor) :
  same_file e e1 -> same_file e (set_msg m e1).
Proof. intros [Hf Hr]. split; assumption. Qed.

Lemma same_file_buf (e e' : Editor) : buf e' = buf e -> same_file e e'.
Proof. intros Hb. unfold same_file. now rewrite Hb. Qed.

Lemma insert_char_keeps_file (c : pychar) (e e' : Editor) :
  insert_char c e = Ok e' -> same_file e e'.
Proof.
  unfold insert_char. intros Hm. crack_result. unfold same_file. cbn. auto.
Qed.

Lemma edits_keep_file (e e' : Editor) :
  backspace e = Ok e' \/ insert_newline e = Ok e' \/ delete_char e = Ok e' ->
  same_file e e'.
Proof.
  intros [Hm|[Hm|Hm]];
    [unfold backspace in Hm | unfold insert_newline in Hm | unfold delete_char in Hm];
    crack_result; unfold same_file;
    rewrite ?ensure_cursor_visible_buf; cbn; auto.
Qed.

Lemma replace_all_keeps_file (f r : pystr) (e e' : Editor) (n : Z) :
  replace_all f r e = Ok (n, e') -> same_file e e'.
Proof.
  rewrite replace_all_map. intros [= _ <-]. unfold same_file.
  destruct (total_count f (lines (buf e)) >? 0); cbn; auto.
Qed.

Section FileSystemUse.
Context {W : Type} `{FileSystem W}.

Lemma save_keeps_file (w : W) (b : Buffer) :
  filename (save w b).1.2 = filename b /\ readonly (save w b).1.2 = readonly b.
Proof.
  destruct (save w b) as [[w' b'] [[] m]] eqn:Hs; cbn.
  - now destruct (save_success _ _ _ _ _ Hs) as (_ & -> & _).
  - now rewrite (save_failure_buffer _ _ _ _ _ Hs).
Qed.

Lemma save_write_protected (w : W) (b : Buffer) :
  write_protected b -> save w b = (w, b, ReadOnly).
Proof. intros [Hro [fn Hfn]]. unfold save. now rewrite Hfn, Hro. Qed.

(** Any key but Ctrl-S leaves the file system as it is. *)
Lemma loop_body_world (k : key) (input rest : list key) (w w' : W)
  (e e' : Editor) (ctl : control) :
  k <> KStr 19%N ->
  loop_body k input w e = Ok (ctl, rest, w', e') -> w' = w.
Proof.
  intros Hk. unfold loop_body, exit_without_saving. destruct k as [c|code].
  - destruct (N.eqb_spec c 19) as [->|_]; [congruence|].
    intros Hb. crack_result; reflexivity.
  - intros Hb. crack_result; reflexivity.
Qed.

(** A key keeps the buffer on its file, unless it is a Ctrl-S that
    names an unnamed buffer. *)
Lemma loop_body_file (k : key) (input rest : list key) (w w' : W)
  (e e' : Editor) (ctl : control) :
  loop_body k input w e = Ok (ctl, rest, w', e') ->
  truthy_filename (buf e) = None \/ same_file e e'.
Proof.
  unfold loop_body, exit_without_saving. destruct k as [c|code].
  - destruct (c =? 17)%N.
    { intros Hb. right. crack_result; auto using same_file_refl, same_file_msg. }
    destruct (c =? 19)%N.
    { destruct (truthy_filename (buf e)) as [fn|]; [|now left].
      unfold save_and_report. intros Hb. right.
      destruct (save_keeps_file w (buf e)) as [Hf Hr].
      destruct (save w (buf e)) as [[w1 b1] [ok m]]. cbn in Hf, Hr.
      injection Hb as _ _ _ <-. split; assumption. }
    intros Hb. right.
    crack_result;
      repeat apply same_file_msg;
      eauto using same_file_refl, insert_char_keeps_file, edits_keep_file,
        replace_all_keeps_file,
        same_file_buf, find_buf.
  - intros Hb. right.
    crack_result;
      repeat match goal with |- context [if ?b then _ else _] => destruct b end;
      eauto 6 using same_file_refl, edits_keep_file, same_file_buf, move_keeps_buf;
      apply same_file_buf; rewrite ?ensure_cursor_visible_buf; reflexivity.
Qed.

Lemma loop_body_write_protected (k : key) (input rest : list key) (w w' : W)
  (e e' : Editor) (ctl : control) :
  write_protected (buf e) ->
  loop_body k input w e = Ok (ctl, rest, w', e') ->
  w' = w /\ write_protected (buf e').
Proof.
  intros Hwp Hb. split.
  - assert (Hdec : k = KStr 19%N \/ k <> KStr 19%N).
    { destruct k as [c|code]; [|right; discriminate].
      destruct (N.eq_dec c 19%N) as [->|Hne]; [now left | right; congruence]. }
    destruct Hdec as [->|Hk]; [|now apply (loop_body_world _ _ _ _ _ _ _ _ Hk Hb)].
    destruct Hwp as [Hro [fn Hfn]].
    unfold loop_body in Hb. cbn [N.eqb Pos.eqb] in Hb. rewrite Hfn in Hb.
    unfold save_and_report in Hb.
    rewrite (save_write_protected w (buf e)) in Hb by (split; eauto).
    now injection Hb as _ _ <- _.
  - destruct Hwp as [Hro [fn Hfn]].
    destruct (loop_body_file _ _ _ _ _ _ _ _ Hb) as [Hnone|[Hf Hr]]; [congruence|].
    split; [congruence|]. exists fn. unfold truthy_filename in *. now rewrite Hf.
Qed.

Lemma run_loop_world (fuel : nat) (input : list key) (w w' : W) (e e' : Editor)
  (ctl : control) :
  Forall (fun k => k <> KStr 19%N) input \/ write_protected (buf e) ->
  run_loop fuel input w e = Ok (ctl, w', e') -> w' = w.
Proof.
  revert input w e. induction fuel as [|n IH]; intros input w e Hcase Hr.
  - destruct input; [|discriminate]. now injection Hr as _ <- _.
  - destruct input as [|ch rest]; cbn [run_loop] in Hr; [now injection Hr as _ <- _|].
    destruct (loop_body ch rest w e) as [[[[ctl1 rest1] w1] e1]|x] eqn:Hb;
      [|discriminate].
    assert (Hstep : w1 = w /\
              (Forall (fun k => k <> KStr 19%N) rest1 \/ write_protected (buf e1))).
    { destruct Hcase as [Hks|Hwp].
      - apply Forall_cons in Hks as [Hk Hks]. split.
        + now apply (loop_body_world _ _ _ _ _ _ _ _ Hk Hb).
        + left. destruct (loop_body_rest _ _ _ _ _ _ _ _ Hb) as [used ->].
          now apply Forall_app in Hks as [_ Hks].
      - destruct (loop_body_write_protected _ _ _ _ _ _ _ _ Hwp Hb). auto. }
    destruct Hstep as [-> Hcase1].
    destruct ctl1; [now apply (IH _ _ _ Hcase1 Hr) | now injection Hr as _ <- _].
Qed.

(** X26.  Nothing but a save touches the file system, and a save is refused
    on a read-only buffer: a session in which Ctrl-S is never pressed,
    and every session on a read-only buffer with a path, ends with the
    file system it started with. *)
Theorem only_saving_touches_files (input : list key) (w w' : W) (e e' : Editor)
  (ctl : control) :
  Forall (fun k => k <> KStr 19%N) input \/ write_protected (buf e) ->
  run input w e = Ok (ctl, w', e') ->
  w' = w.
Proof. intros Hcase Hr. now apply (run_loop_world _ _ _ _ _ _ _ Hcase Hr). Qed.

End FileSystemUse.

Lemma only_saving_touches_files_witness :
  exists w' e',
    run [KStr 120%N; KStr 19%N; KStr 10%N] aaa_disk
      (Editor_init (mkScreen 24 80) readonly_buffer) = Ok (Continue, w', e') /\
    w' = aaa_disk.
Proof.
  eexists _, _. split; [vm_compute; reflexivity|].
  apply (only_saving_touches_files [KStr 120%N; KStr 19%N; KStr 10%N]
           aaa_disk _ (Editor_init (mkScreen 24 80) readonly_buffer) _ Continue
           ltac:(right; split; [reflexivity | eexists; reflexivity])
           ltac:(vm_compute; reflexivity)).
Defined.

(** ** A save that fails half-way *)

Section FailedSave.
Import MemFS.

Lemma write_lines_stops (fn : pystr) (good rest : list pystr) (bad : pystr)
  (w : world) (f : file) :
  Forall (fun l => forallb encodable l = true) good ->
  forallb encodable bad = false ->
  w !! fn = Some f ->
  exists w',
    write_lines fn (good ++ bad :: rest) w
      = (w', IoErr (Py.lit "surrogates not allowed")) /\
    w' !! fn = Some (mkFile (f_text f ++ concat (map terminated good)) (f_writable f)).
Proof.
  intros Hgood Hbad. revert w f.
  induction Hgood as [|l good Hl _ IH]; intros w f Hf; cbn [app write_lines].
  - cbn [fs_write memfs]. unfold write. rewrite forallb_app, Hbad. cbn.
    exists w. split; [reflexivity|]. rewrite app_nil_r. now destruct f.
  - cbn [fs_write memfs]. unfold write at 1. rewrite forallb_app, Hl. cbn [forallb andb].
    change (encodable Py.LF) with true. cbn [andb].
    destruct (IH (alter (fun f0 => mkFile (f_text f0 ++ l ++ [Py.LF]) (f_writable f0)) fn w)
                (mkFile (f_text f ++ l ++ [Py.LF]) (f_writable f)))
      as (w' & Hw & Hf').
    { rewrite lookup_alter_eq, Hf. reflexivity. }
    exists w'. split; [exact Hw|]. rewrite Hf'. cbn. unfold terminated.
    now rewrite <- app_assoc.
Qed.

(** X27.  A save that fails on a character UTF-8 cannot encode has already
    truncated the file: the file then holds exactly the lines before
    the offending one, whatever it held before, and the buffer stays as
    it was. *)
Theorem failed_save_loses_the_old_file (w : world) (b : Buffer) (fn bad : pystr)
  (good rest : list pystr) :
  truthy_filename b = Some fn -> readonly b = false ->
  (forall f, w !! fn = Some f -> f_writable f = true) ->
  lines b = good ++ bad :: rest ->
  Forall (fun l => forallb encodable l = true) good ->
  forallb encodable bad = false ->
  exists w' m,
    save w b = (w', b, (false, m)) /\
    w' !! fn = Some (mkFile (concat (map terminated good)) true).
Proof.
  intros Hfn Hro Hwr Hls Hgood Hbad. unfold save. rewrite Hfn, Hro, Hls.
  cbn [fs_open_w fs_close memfs].
  assert (Hopen : open_w w fn = (<[fn := mkFile [] true]> w, IoOk tt)).
  { unfold open_w. destruct (w !! fn) as [f|] eqn:Hf; [|reflexivity].
    now rewrite (Hwr f eq_refl). }
  rewrite Hopen.
  destruct (write_lines_stops fn good rest bad (<[fn := mkFile [] true]> w)
              (mkFile [] true) Hgood Hbad (lookup_insert_eq _ _ _))
    as (w' & -> & Hf').
  exists w', (Py.lit "surrogates not allowed"). split; [reflexivity | exact Hf'].
Qed.

Lemma failed_save_loses_the_old_file_witness :
  exists w' m,
    save aaa_disk surrogate_buffer = (w', surrogate_buffer, (false, m)) /\
    w' !! Py.lit "notes.txt"
      = Some (mkFile (concat (map terminated [Py.lit "ab"])) true).
Proof.
  apply (failed_save_loses_the_old_file aaa_disk surrogate_buffer (Py.lit "notes.txt")
           [55296%N] [Py.lit "ab"] []).
  - reflexivity.
  - reflexivity.
  - intros f Hf. vm_compute in Hf. now injection Hf as <-.
  - reflexivity.
  - repeat constructor.
  - reflexivity.
Defined.

End FailedSave.
